(** * MassTransit fault formatting and the republish workflow

    A shallow embedding of the RabbitMQ/MassTransit MCP server:
    - [masstransit.ts]: queue naming, message-type URNs, envelope parsing,
      fault extraction (headers and body) and [formatFaultMessage];
    - [rabbitmq-client.ts]: [peekMessages], [consumeMessages],
      [publishMessage];
    - [tools/masstransit.ts]: the [republish_from_error] handler, and
      [peek_errors], [list_error_queues], [list_skipped_queues] and
      [get_queue_health];
    - [tools/messages.ts]: [peek_messages] and [move_messages].

    JavaScript strings are modelled by [string]; one [ascii] stands for one
    UTF-16 code unit, so the model covers texts whose code units are below
    256, and JSON texts whose string escapes name such code units.
    [length], [slice] and friends count code units as JavaScript does. *)

From Stdlib Require Import ZArith Ascii String List Bool Lia DecimalString Sorted.
From stdpp Require Import base option strings gmap.
Import ListNotations.

Local Open Scope string_scope.
Local Open Scope list_scope.
Local Open Scope nat_scope.

(** ** Completion records: a JavaScript evaluation returns or throws *)

(** [Throw msg] is an abrupt completion whose thrown value is an [Error]
    with [message = msg]. *)
Inductive Completion (A : Type) : Type :=
| Normal (a : A)
| Throw (message : string).
Arguments Normal {A} a.
Arguments Throw {A} message.

#[global] Instance completion_ret : MRet Completion := fun A a => Normal a.

#[global] Instance completion_bind : MBind Completion := fun A B k c =>
  match c with
  | Normal a => k a
  | Throw e => Throw e
  end.

(** [Array.prototype.map] with a callback that may throw: the first throw
    aborts the traversal. *)
Fixpoint cmapM {A B} (f : A -> Completion B) (l : list A) : Completion (list B) :=
  match l with
  | [] => Normal []
  | a :: l' => b ← f a; bs ← cmapM f l'; Normal (b :: bs)
  end.

(** ** JavaScript string built-ins *)

Module JsString.

Definition nl : string := String "010"%char "".
Definition dquote : string := String "034"%char "".

(** Writes a text with single quotes standing for double quotes, so that
    JSON documents can be spelled as literals. *)
Fixpoint qq (s : string) : string :=
  match s with
  | "" => ""
  | String c s' =>
      String (if Ascii.eqb c "'"%char then "034"%char else c) (qq s')
  end.

(** [s.startsWith(p)] *)
Definition startsWith (s p : string) : bool := String.prefix p s.

(** [s.slice(0, k)] for [k >= 0] *)
Definition slice_to (s : string) (k : nat) : string := String.substring 0 k s.

(** [s.slice(k)] for [k >= 0] *)
Definition slice_from (s : string) (k : nat) : string :=
  String.substring k (String.length s - k) s.

(** [s.slice(0, -k)] for [k > 0]: the end index is [max (length - k) 0]. *)
Definition slice_drop_end (s : string) (k : nat) : string :=
  String.substring 0 (String.length s - k) s.

(** [s.endsWith(suffix)] *)
Definition endsWith (s suffix : string) : bool :=
  (String.length suffix <=? String.length s)
  && String.eqb (slice_from s (String.length s - String.length suffix)) suffix.

(** [s.replace(/c/g, d)] for single characters [c] and [d] *)
Fixpoint replaceAll (c d : ascii) (s : string) : string :=
  match s with
  | "" => ""
  | String x s' => String (if Ascii.eqb x c then d else x) (replaceAll c d s')
  end.

(** [s.split(sep)] for a one-character separator; the result is never
    empty: [("").split(sep)] is [[""]]. *)
Fixpoint split (sep : ascii) (s : string) : list string :=
  match s with
  | "" => [""]
  | String c s' =>
      if Ascii.eqb c sep then "" :: split sep s'
      else match split sep s' with
           | [] => [String c ""]
           | w :: ws => String c w :: ws
           end
  end.

(** White space and line terminators below code unit 256:
    TAB, LF, VT, FF, CR, SPACE and NBSP. *)
Definition isWhiteSpace (c : ascii) : bool :=
  let n := nat_of_ascii c in
  ((9 <=? n) && (n <=? 13)) || (n =? 32) || (n =? 160).

Fixpoint trimStart (s : string) : string :=
  match s with
  | "" => ""
  | String c s' => if isWhiteSpace c then trimStart s' else s
  end.

Fixpoint trimEnd (s : string) : string :=
  match s with
  | "" => ""
  | String c s' =>
      match trimEnd s' with
      | "" => if isWhiteSpace c then "" else String c ""
      | t => String c t
      end
  end.

(** [s.trim()] *)
Definition trim (s : string) : string := trimEnd (trimStart s).

(** [parts.join(sep)] on an array of strings *)
Definition join (sep : string) (parts : list string) : string :=
  String.concat sep parts.

(** [String(n)] for a non-negative integer *)
Definition ofNat (n : nat) : string := NilZero.string_of_uint (Nat.to_uint n).

(** [String(z)] for an integer *)
Definition ofZ (z : Z) : string := NilZero.string_of_int (Z.to_int z).

End JsString.

(** ** JSON values and the [JSON] built-in object *)

Module JSON.

(** A value produced by [JSON.parse].  A number is kept as the exact
    decimal [mantissa * 10 ^ exponent] of its literal; JavaScript rounds
    it to a double, which makes no difference for literals of at most 15
    significant digits inside the double range.  The members of an object
    are listed in property enumeration order.  [undefined] is not a JSON
    value: a property read yields an [option value], [None] being
    [undefined]. *)
#[warnings="-register-all"]
Inductive value : Type :=
| JNull
| JBool (b : bool)
| JNum (mantissa exponent : Z)
| JStr (s : string)
| JArr (elements : list value)
| JObj (members : list (string * value)).

(** ToBoolean *)
Definition truthy (v : value) : bool :=
  match v with
  | JNull => false
  | JBool b => b
  | JNum m _ => negb (m =? 0)%Z
  | JStr s => negb (String.eqb s "")
  | JArr _ | JObj _ => true
  end.

(** ToBoolean of a value that may be [undefined] *)
Definition truthy_opt (o : option value) : bool :=
  match o with
  | Some v => truthy v
  | None => false
  end.

(** The left operand of [??] is skipped when it is [null] or [undefined]. *)
Definition nullish (o : option value) : option value :=
  match o with
  | Some JNull | None => None
  | Some v => Some v
  end.

Fixpoint lookup_member (k : string) (ms : list (string * value)) : option value :=
  match ms with
  | [] => None
  | (k', v) :: ms' => if String.eqb k' k then Some v else lookup_member k ms'
  end.

(** Property read [v.k] on a value that is neither [null] nor [undefined],
    for a key [k] that no built-in prototype defines; this holds of every
    key the program reads ([message], [messageType], [exceptions], ...).
    Only an object can then hold the key. *)
Definition get (v : value) (k : string) : option value :=
  match v with
  | JObj ms => lookup_member k ms
  | _ => None
  end.

(** Optional chaining [o?.k] *)
Definition get_opt (o : option value) (k : string) : option value :=
  match nullish o with
  | Some v => get v k
  | None => None
  end.

(** [Array.isArray] *)
Definition isArray (v : value) : bool :=
  match v with
  | JArr _ => true
  | _ => false
  end.

(** An object literal of the program: a property whose value is
    [undefined] reads like a missing one, so it is left out. *)
Fixpoint object_literal (ps : list (string * option value)) : value :=
  match ps with
  | [] => JObj []
  | (k, o) :: ps' =>
      match o, object_literal ps' with
      | Some v, JObj ms => JObj ((k, v) :: ms)
      | _, rest => rest
      end
  end.

(** *** Number::toString *)

Fixpoint stripTrailingZeros (s : string) : string :=
  match s with
  | "" => ""
  | String c s' =>
      match stripTrailingZeros s' with
      | "" => if Ascii.eqb c "0"%char then "" else String c ""
      | t => String c t
      end
  end.

Fixpoint zeros (n : nat) : string :=
  match n with
  | O => ""
  | S n' => String "0"%char (zeros n')
  end.

Definition numToString (m e : Z) : string :=
  if (m =? 0)%Z then "0"
  else
    let sign := if (m <? 0)%Z then "-" else "" in
    let all := JsString.ofZ (Z.abs m) in
    let s := stripTrailingZeros all in
    let k := String.length s in
    let n := (Z.of_nat (String.length all) + e)%Z in
    sign +:+
    (if (Z.of_nat k <=? n)%Z && (n <=? 21)%Z then
       s +:+ zeros (Z.to_nat n - k)
     else if (0 <? n)%Z && (n <=? 21)%Z then
       JsString.slice_to s (Z.to_nat n) +:+ "." +:+ JsString.slice_from s (Z.to_nat n)
     else if (-6 <? n)%Z && (n <=? 0)%Z then
       "0." +:+ zeros (Z.to_nat (- n)) +:+ s
     else
       let x := (n - 1)%Z in
       let xs := (if (x <? 0)%Z then "-" else "+") +:+ JsString.ofZ (Z.abs x) in
       if k =? 1 then s +:+ "e" +:+ xs
       else JsString.slice_to s 1 +:+ "." +:+ JsString.slice_from s 1 +:+ "e" +:+ xs).

(** *** ToString, as applied by template literals *)

Definition hasMember (k : string) (ms : list (string * value)) : bool :=
  match lookup_member k ms with
  | Some _ => true
  | None => false
  end.

Section ToString.
Variable toJSString : value -> Completion string.

(** [Array.prototype.join] renders [null] elements as the empty string. *)
Fixpoint elementStrings (l : list value) : Completion (list string) :=
  match l with
  | [] => Normal []
  | x :: l' =>
      s ← match x with JNull => Normal "" | _ => toJSString x end;
      ss ← elementStrings l';
      Normal (s :: ss)
  end.
End ToString.

(** An object is rendered by [Object.prototype.toString]; an own member
    named [toString] shadows it with a value that cannot be called, and the
    conversion throws a [TypeError]. *)
Fixpoint toJSString (v : value) : Completion string :=
  match v with
  | JNull => Normal "null"
  | JBool true => Normal "true"
  | JBool false => Normal "false"
  | JNum m e => Normal (numToString m e)
  | JStr s => Normal s
  | JArr l => ss ← elementStrings toJSString l; Normal (JsString.join "," ss)
  | JObj ms =>
      if hasMember "toString" ms
      then Throw "Cannot convert object to primitive value"
      else Normal "[object Object]"
  end.

(** *** [JSON.stringify(v, null, 2)] *)

Definition hexDigit (n : nat) : ascii :=
  ascii_of_nat (if n <? 10 then 48 + n else 87 + n).

Definition quoteChar (c : ascii) : string :=
  let n := nat_of_ascii c in
  if n =? 8 then "\b"
  else if n =? 9 then "\t"
  else if n =? 10 then "\n"
  else if n =? 12 then "\f"
  else if n =? 13 then "\r"
  else if n =? 34 then String "\"%char JsString.dquote
  else if n =? 92 then "\\"
  else if n <? 32 then
    "\u00" +:+ String (hexDigit (n / 16)) (String (hexDigit (n mod 16)) "")
  else String c "".

Fixpoint quoteChars (s : string) : string :=
  match s with
  | "" => ""
  | String c s' => quoteChar c +:+ quoteChars s'
  end.

(** QuoteJSONString *)
Definition quote (s : string) : string :=
  JsString.dquote +:+ quoteChars s +:+ JsString.dquote.

Section Serialize.
Variable serialize : string -> value -> string.
Variable indent : string.

Fixpoint serializeElements (l : list value) : list string :=
  match l with
  | [] => []
  | x :: l' => serialize indent x :: serializeElements l'
  end.

Fixpoint serializeMembers (ms : list (string * value)) : list string :=
  match ms with
  | [] => []
  | (k, x) :: ms' => (quote k +:+ ": " +:+ serialize indent x) :: serializeMembers ms'
  end.
End Serialize.

(** SerializeJSONProperty with gap ["  "]; [stepback] is the indentation
    of the enclosing level. *)
Fixpoint serialize (stepback : string) (v : value) : string :=
  let indent := stepback +:+ "  " in
  let separator := "," +:+ JsString.nl +:+ indent in
  match v with
  | JNull => "null"
  | JBool true => "true"
  | JBool false => "false"
  | JNum m e => numToString m e
  | JStr s => quote s
  | JArr [] => "[]"
  | JArr l =>
      "[" +:+ JsString.nl +:+ indent
      +:+ JsString.join separator (serializeElements serialize indent l)
      +:+ JsString.nl +:+ stepback +:+ "]"
  | JObj [] => "{}"
  | JObj ms =>
      "{" +:+ JsString.nl +:+ indent
      +:+ JsString.join separator (serializeMembers serialize indent ms)
      +:+ JsString.nl +:+ stepback +:+ "}"
  end.

(** [JSON.stringify(v, null, 2)] *)
Definition stringify (v : value) : string := serialize "" v.

(** *** [JSON.parse]

    The text is cut into tokens by a one-pass scanner, and the tokens drive
    a pushdown automaton whose stack holds the arrays and objects still
    open.  Both run once over their input, so [parse] is total; [None]
    stands for the [SyntaxError] that [JSON.parse] throws.

    Two kinds of text lie outside the model.  An escape [\uXXXX] above
    [00FF] names a code unit that [string] cannot hold: the scanner
    answers [None] for it, where JavaScript returns a value.  A number
    literal is kept exactly, where JavaScript rounds it to a double: a
    literal that underflows, such as [1e-400], is [0] and falsy there
    and not here, and literals of more than 15 significant digits or
    beyond the double range print differently.  The general theorems
    below hold for whatever [parse] returns or take truthiness as a
    hypothesis; the scenarios use neither kind of text. *)

Inductive token : Type :=
| TLBrace | TRBrace | TLBracket | TRBracket | TComma | TColon
| TScalar (v : value).

Inductive lexmode : Type :=
| LIdle
| LStr (acc : string)
| LEsc (acc : string)
| LUni (acc : string) (hex : list nat)
| LNum (acc : string)
| LLit (rest : string) (v : value).

Definition isJsonSpace (c : ascii) : bool :=
  let n := nat_of_ascii c in
  (n =? 32) || (n =? 9) || (n =? 10) || (n =? 13).

Definition isDigit (c : ascii) : bool :=
  let n := nat_of_ascii c in
  (48 <=? n) && (n <=? 57).

Definition hexValue (c : ascii) : option nat :=
  let n := nat_of_ascii c in
  if (48 <=? n) && (n <=? 57) then Some (n - 48)
  else if (65 <=? n) && (n <=? 70) then Some (n - 55)
  else if (97 <=? n) && (n <=? 102) then Some (n - 87)
  else None.

Fixpoint spanDigits (s : string) : string * string :=
  match s with
  | "" => ("", "")
  | String c s' =>
      if isDigit c then let '(d, r) := spanDigits s' in (String c d, r)
      else ("", s)
  end.

Fixpoint digitsValue (acc : Z) (s : string) : Z :=
  match s with
  | "" => acc
  | String c s' => digitsValue (10 * acc + Z.of_nat (nat_of_ascii c - 48))%Z s'
  end.

(** The JSON number grammar: an optional minus sign; an integer part that
    is 0 or starts with a digit from 1 to 9; an optional fraction, a dot
    followed by at least one digit; an optional exponent, e or E, an
    optional sign and at least one digit. *)
Definition parseNumber (s : string) : option value :=
  let '(neg, s1) :=
    match s with
    | String "-"%char r => (true, r)
    | _ => (false, s)
    end in
  let '(ip, s2) := spanDigits s1 in
  if String.eqb ip "" then None
  else if (1 <? String.length ip) && String.prefix "0" ip then None
  else
    let '(fp, s3) :=
      match s2 with
      | String "."%char r => let '(f, r') := spanDigits r in (Some f, r')
      | _ => (None, s2)
      end in
    match fp with
    | Some "" => None
    | _ =>
        let frac := default "" fp in
        let '(ex, s4) :=
          match s3 with
          | String c r =>
              if Ascii.eqb c "e" || Ascii.eqb c "E" then
                let '(minus, r1) :=
                  match r with
                  | String "-"%char r' => (true, r')
                  | String "+"%char r' => (false, r')
                  | _ => (false, r)
                  end in
                let '(d, r2) := spanDigits r1 in
                (Some (minus, d), r2)
              else (None, s3)
          | "" => (None, s3)
          end in
        match ex, s4 with
        | Some (_, ""), _ => None
        | _, String _ _ => None
        | _, "" =>
            let m := digitsValue 0 (ip +:+ frac) in
            let x :=
              match ex with
              | Some (minus, d) => if minus then (- digitsValue 0 d)%Z else digitsValue 0 d
              | None => 0%Z
              end in
            Some (JNum (if neg then (- m)%Z else m) (x - Z.of_nat (String.length frac)))
        end
    end.

Definition lex_idle (c : ascii) : option (list token * lexmode) :=
  if isJsonSpace c then Some ([], LIdle)
  else if Ascii.eqb c "{" then Some ([TLBrace], LIdle)
  else if Ascii.eqb c "}" then Some ([TRBrace], LIdle)
  else if Ascii.eqb c "[" then Some ([TLBracket], LIdle)
  else if Ascii.eqb c "]" then Some ([TRBracket], LIdle)
  else if Ascii.eqb c "," then Some ([TComma], LIdle)
  else if Ascii.eqb c ":" then Some ([TColon], LIdle)
  else if Ascii.eqb c "034" then Some ([], LStr "")
  else if Ascii.eqb c "-" || isDigit c then Some ([], LNum (String c ""))
  else if Ascii.eqb c "t" then Some ([], LLit "rue" (JBool true))
  else if Ascii.eqb c "f" then Some ([], LLit "alse" (JBool false))
  else if Ascii.eqb c "n" then Some ([], LLit "ull" JNull)
  else None.

Definition isNumberChar (c : ascii) : bool :=
  isDigit c || Ascii.eqb c "-" || Ascii.eqb c "+" || Ascii.eqb c "."
  || Ascii.eqb c "e" || Ascii.eqb c "E".

(** An escape [\uXXXX] above [\u00FF] names a code unit outside the
    alphabet of the model; the scanner gives no result for it. *)
Definition lex_step (mode : lexmode) (c : ascii) : option (list token * lexmode) :=
  match mode with
  | LIdle => lex_idle c
  | LStr acc =>
      if Ascii.eqb c "034" then Some ([TScalar (JStr acc)], LIdle)
      else if Ascii.eqb c "\" then Some ([], LEsc acc)
      else if nat_of_ascii c <? 32 then None
      else Some ([], LStr (acc +:+ String c ""))
  | LEsc acc =>
      let put (n : nat) := Some ([], LStr (acc +:+ String (ascii_of_nat n) "")) in
      if Ascii.eqb c "034" then put 34
      else if Ascii.eqb c "\" then put 92
      else if Ascii.eqb c "/" then put 47
      else if Ascii.eqb c "b" then put 8
      else if Ascii.eqb c "f" then put 12
      else if Ascii.eqb c "n" then put 10
      else if Ascii.eqb c "r" then put 13
      else if Ascii.eqb c "t" then put 9
      else if Ascii.eqb c "u" then Some ([], LUni acc [])
      else None
  | LUni acc hex =>
      match hexValue c with
      | None => None
      | Some h =>
          match hex with
          | [h1; h2; h3] =>
              let code := ((h1 * 16 + h2) * 16 + h3) * 16 + h in
              if code <? 256
              then Some ([], LStr (acc +:+ String (ascii_of_nat code) ""))
              else None
          | _ => Some ([], LUni acc (hex ++ [h]))
          end
      end
  | LNum acc =>
      if isNumberChar c then Some ([], LNum (acc +:+ String c ""))
      else
        match parseNumber acc, lex_idle c with
        | Some v, Some (toks, mode') => Some (TScalar v :: toks, mode')
        | _, _ => None
        end
  | LLit rest v =>
      match rest with
      | String c' rest' =>
          if Ascii.eqb c c' then
            match rest' with
            | "" => Some ([TScalar v], LIdle)
            | _ => Some ([], LLit rest' v)
            end
          else None
      | "" => None
      end
  end.

Definition lex_end (mode : lexmode) : option (list token) :=
  match mode with
  | LIdle => Some []
  | LNum acc =>
      match parseNumber acc with
      | Some v => Some [TScalar v]
      | None => None
      end
  | _ => None
  end.

Fixpoint lex (mode : lexmode) (s : string) : option (list token) :=
  match s with
  | "" => lex_end mode
  | String c s' =>
      match lex_step mode c with
      | Some (toks, mode') =>
          match lex mode' s' with
          | Some rest => Some (toks ++ rest)
          | None => None
          end
      | None => None
      end
  end.

(** Array index keys come first in property enumeration order, by
    increasing value, before the other keys in creation order. *)
Definition arrayIndex (k : string) : option Z :=
  let '(d, r) := spanDigits k in
  if negb (String.eqb r "") || String.eqb d "" then None
  else if (1 <? String.length d) && String.prefix "0" d then None
  else if 10 <? String.length d then None
  else
    let n := digitsValue 0 d in
    if (n <? 4294967295)%Z then Some n else None.

Fixpoint insertIndexed (i : Z) (k : string) (v : value) (ms : list (string * value))
  : list (string * value) :=
  match ms with
  | [] => [(k, v)]
  | (k', v') :: ms' =>
      match arrayIndex k' with
      | Some j => if (j <? i)%Z then (k', v') :: insertIndexed i k v ms' else (k, v) :: ms
      | None => (k, v) :: ms
      end
  end.

Fixpoint replaceMember (k : string) (v : value) (ms : list (string * value))
  : list (string * value) :=
  match ms with
  | [] => []
  | (k', v') :: ms' =>
      if String.eqb k' k then (k', v) :: ms' else (k', v') :: replaceMember k v ms'
  end.

(** CreateDataProperty on an object under construction: a repeated key
    keeps its place and takes the later value. *)
Definition setMember (ms : list (string * value)) (k : string) (v : value)
  : list (string * value) :=
  if hasMember k ms then replaceMember k v ms
  else match arrayIndex k with
       | Some i => insertIndexed i k v ms
       | None => ms ++ [(k, v)]
       end.

Inductive frame : Type :=
| FArr (elements : list value)
| FObj (members : list (string * value)) (key : option string).

Inductive expect : Type :=
| EValue
| EValueOrClose
| EKey
| EKeyOrClose
| EColon
| ECommaOrClose
| EEnd (v : value).

Definition pstate : Type := expect * list frame.

(** A value is complete: it becomes the result, the next element of the
    innermost open array, or the value of the pending key of the innermost
    open object. *)
Definition deliver (v : value) (stack : list frame) : option pstate :=
  match stack with
  | [] => Some (EEnd v, [])
  | FArr es :: st => Some (ECommaOrClose, FArr (es ++ [v]) :: st)
  | FObj ms (Some k) :: st => Some (ECommaOrClose, FObj (setMember ms k v) None :: st)
  | FObj _ None :: _ => None
  end.

Definition wantsValue (e : expect) : bool :=
  match e with
  | EValue | EValueOrClose => true
  | _ => false
  end.

Definition parse_step (st : pstate) (t : token) : option pstate :=
  let '(e, stack) := st in
  match t with
  | TScalar v =>
      if wantsValue e then deliver v stack
      else
        match e, v, stack with
        | (EKey | EKeyOrClose), JStr k, FObj ms None :: st' =>
            Some (EColon, FObj ms (Some k) :: st')
        | _, _, _ => None
        end
  | TLBracket => if wantsValue e then Some (EValueOrClose, FArr [] :: stack) else None
  | TLBrace => if wantsValue e then Some (EKeyOrClose, FObj [] None :: stack) else None
  | TRBracket =>
      match e, stack with
      | (EValueOrClose | ECommaOrClose), FArr es :: st' => deliver (JArr es) st'
      | _, _ => None
      end
  | TRBrace =>
      match e, stack with
      | (EKeyOrClose | ECommaOrClose), FObj ms None :: st' => deliver (JObj ms) st'
      | _, _ => None
      end
  | TComma =>
      match e, stack with
      | ECommaOrClose, FArr _ :: _ => Some (EValue, stack)
      | ECommaOrClose, FObj _ None :: _ => Some (EKey, stack)
      | _, _ => None
      end
  | TColon =>
      match e with
      | EColon => Some (EValue, stack)
      | _ => None
      end
  end.

Fixpoint parse_tokens (st : pstate) (ts : list token) : option value :=
  match ts with
  | [] =>
      match st with
      | (EEnd v, []) => Some v
      | _ => None
      end
  | t :: ts' =>
      match parse_step st t with
      | Some st' => parse_tokens st' ts'
      | None => None
      end
  end.

(** [JSON.parse(text)]; [None] when it throws. *)
Definition parse (text : string) : option value :=
  match lex LIdle text with
  | Some ts => parse_tokens (EValue, []) ts
  | None => None
  end.

End JSON.

Import JsString.
Import JSON.

(** ** [types.ts] *)

(** The message properties the program reads. *)
Record MessageProperties : Type := {
  headers : option (gmap string value);
  content_type : option string;
  message_id : option string;
  correlation_id : option string
}.

(** [PeekedMessage], restricted to the fields the program reads. *)
Record PeekedMessage : Type := {
  payload : string;
  exchange : string;
  routing_key : string;
  properties : MessageProperties
}.

(** [MassTransitEnvelope] is the type a parsed payload is cast to; the
    cast checks nothing, so an envelope is whatever JSON value the payload
    holds and its fields are read dynamically. *)
Definition MassTransitEnvelope : Type := value.

(** [MassTransitFault], with the fields [parseFaultFromHeaders] adds.
    Header values and body fields are not checked against the declared
    types either. *)
Record MassTransitFault : Type := {
  faultId : option value;
  faultedMessageId : option value;
  timestamp : option value;
  consumerType : option value;
  inputAddress : option value;
  messageType : option value;
  retryCount : option value;
  reason : option value;
  exceptions : option value;
  message : option value;
  host : option value
}.

(** ** [masstransit.ts] *)

Definition ERROR_SUFFIX : string := "_error".
Definition SKIPPED_SUFFIX : string := "_skipped".

Definition isErrorQueue (name : string) : bool :=
  endsWith name ERROR_SUFFIX.

Definition isSkippedQueue (name : string) : bool :=
  endsWith name SKIPPED_SUFFIX.

Definition getSourceQueue (errorQueueName : string) : string :=
  if endsWith errorQueueName ERROR_SUFFIX then
    slice_drop_end errorQueueName (String.length ERROR_SUFFIX)
  else if endsWith errorQueueName SKIPPED_SUFFIX then
    slice_drop_end errorQueueName (String.length SKIPPED_SUFFIX)
  else errorQueueName.

Definition getMessageTypeName (urn : string) : string :=
  if negb (startsWith urn "urn:message:") then urn
  else replaceAll ":" "." (slice_from urn (String.length "urn:message:")).

Definition parseEnvelope (payload : string) : option MassTransitEnvelope :=
  match JSON.parse payload with
  | Some parsed =>
      if truthy parsed
         && (truthy_opt (get parsed "messageType")
             || truthy_opt (get parsed "messageId")
             || truthy_opt (get parsed "message"))
      then Some parsed
      else None
  | None => None
  end.

Definition parseFaultFromHeaders (headers : gmap string value)
  : option MassTransitFault :=
  let reason := headers !! "MT-Reason" in
  let exceptionType := headers !! "MT-Fault-ExceptionType" in
  let faultMessage := headers !! "MT-Fault-Message" in
  if negb (truthy_opt reason) && negb (truthy_opt exceptionType) then None
  else Some {|
    faultId := None;
    faultedMessageId := None;
    timestamp := headers !! "MT-Fault-Timestamp";
    consumerType := headers !! "MT-Fault-ConsumerType";
    inputAddress := headers !! "MT-Fault-InputAddress";
    messageType := headers !! "MT-Fault-MessageType";
    retryCount := headers !! "MT-Fault-RetryCount";
    reason := reason;
    exceptions :=
      if truthy_opt exceptionType then
        Some (JArr [object_literal [
          ("exceptionType", exceptionType);
          ("message", faultMessage);
          ("stackTrace", headers !! "MT-Fault-StackTrace")]])
      else None;
    message := None;
    host := Some (object_literal [
      ("machineName", headers !! "MT-Host-MachineName");
      ("processName", headers !! "MT-Host-ProcessName");
      ("processId", headers !! "MT-Host-ProcessId");
      ("assembly", headers !! "MT-Host-Assembly");
      ("assemblyVersion", headers !! "MT-Host-AssemblyVersion");
      ("frameworkVersion", headers !! "MT-Host-FrameworkVersion");
      ("massTransitVersion", headers !! "MT-Host-MassTransitVersion");
      ("operatingSystemVersion", headers !! "MT-Host-OperatingSystemVersion")])
  |}.

(** [a ?? b] on values that may be [undefined] *)
Definition coalesce (a b : option value) : option value :=
  match nullish a with
  | Some v => Some v
  | None => b
  end.

Definition isNonEmptyArray (o : option value) : bool :=
  match o with
  | Some (JArr (_ :: _)) => true
  | _ => false
  end.

(** Reading [envelope.message] throws when the payload is the JSON text
    [null]; the [catch] turns that into [null] as well. *)
Definition parseFault (payload : string) : option MassTransitFault :=
  match JSON.parse payload with
  | None => None
  | Some JNull => None
  | Some envelope =>
      match get envelope "message" with
      | None => None
      | Some msg =>
          if negb (truthy msg) then None
          else if truthy_opt (get msg "exceptions")
                  && isNonEmptyArray (get msg "exceptions")
          then Some {|
            faultId := get msg "faultId";
            faultedMessageId := get msg "faultedMessageId";
            timestamp := coalesce (get envelope "sentTime") (get msg "timestamp");
            consumerType := None;
            inputAddress := None;
            messageType := None;
            retryCount := None;
            reason := None;
            exceptions := get msg "exceptions";
            message := get msg "message";
            host := get envelope "host"
          |}
          else None
      end
  end.

(** *** Pieces of [formatFaultMessage] that the source repeats *)

(** [`${o ?? d}`] *)
Definition orDefault (o : option value) (d : string) : Completion string :=
  match nullish o with
  | Some v => toJSString v
  | None => Normal d
  end.

(** [fault.exceptions?.[0]] *)
Definition firstException (exceptions : option value) : option value :=
  match exceptions with
  | Some (JArr (ex :: _)) => Some ex
  | _ => None
  end.

(** [envelope.messageType.map(getMessageTypeName)] for a truthy
    [messageType]: [map] exists on arrays only, and [startsWith] on strings
    only. *)
Definition mapTypeNames (messageType : value) : Completion (list string) :=
  match messageType with
  | JArr urns =>
      cmapM (fun urn =>
               match urn with
               | JStr s => Normal (getMessageTypeName s)
               | JNull => Throw "Cannot read properties of null (reading 'startsWith')"
               | _ => Throw "urn.startsWith is not a function"
               end) urns
  | _ => Throw "envelope.messageType.map is not a function"
  end.

(** [envelope?.messageType ? envelope.messageType.map(getMessageTypeName) : []] *)
Definition messageTypesOf (envelope : option MassTransitEnvelope)
  : Completion (list string) :=
  match get_opt envelope "messageType" with
  | Some mt => if truthy mt then mapTypeNames mt else Normal []
  | None => Normal []
  end.

(** [messageTypes.length > 0 ? messageTypes.join(", ") : "unknown"] *)
Definition joinedOrUnknown (messageTypes : list string) : string :=
  if 0 <? length messageTypes then join ", " messageTypes else "unknown".

(** The source host summary; [host] is truthy or [undefined] here. *)
Definition hostSummary (host : option value) : Completion string :=
  if truthy_opt host then
    machine ← orDefault (get_opt host "machineName") "unknown";
    process ← orDefault (get_opt host "processName") "unknown";
    pid ← orDefault (get_opt host "processId") "?";
    Normal (machine +:+ " / " +:+ process +:+ " (PID " +:+ pid +:+ ")")
  else Normal "unknown".

(** [stackTrace.split("\n").slice(0, limit)] *)
Definition stackLines (limit : nat) (stackTrace : string) : list string :=
  firstn limit (split "010" stackTrace).

(** The text pushed for the stack trace [s] *)
Definition stackTraceText (limit : nat) (s : string) : string :=
  "  Stack Trace:" +:+ nl
  +:+ join nl (map (fun l => "    " +:+ trim l) (stackLines limit s)).

(** The text pushed for a truthy [ex.stackTrace]; [split] exists on
    strings only. *)
Definition stackTraceBlock (limit : nat) (stackTrace : value) : Completion string :=
  match stackTrace with
  | JStr s => Normal (stackTraceText limit s)
  | _ => Throw "ex.stackTrace.split is not a function"
  end.

(** The [truncated] constant of the original-payload block *)
Definition truncated (payloadStr : string) : string :=
  if 500 <? String.length payloadStr
  then slice_to payloadStr 500 +:+ nl +:+ "    ... (truncated)"
  else payloadStr.

(** [if (cond) lines.push(text)], where computing [text] may throw *)
Definition pushIf (cond : bool) (text : Completion string) (lines : list string)
  : Completion (list string) :=
  if cond then t ← text; Normal (lines ++ [t]) else Normal lines.

(** [if (o) lines.push(text(o))]: the pushed text is computed from the
    value that was tested. *)
Definition pushTruthy (o : option value) (text : value -> Completion string)
    (lines : list string) : Completion (list string) :=
  match o with
  | Some v => pushIf (truthy v) (text v) lines
  | None => Normal lines
  end.

(** [if (o !== undefined) lines.push(text(o))] *)
Definition pushDefined (o : option value) (text : value -> Completion string)
    (lines : list string) : Completion (list string) :=
  match o with
  | Some v => pushIf true (text v) lines
  | None => Normal lines
  end.

(** The original-payload block *)
Definition originalPayloadLine (p : value) : Completion string :=
  Normal ("  Original Payload: " +:+ truncated (stringify p)).

(** *** The four renderings of [formatFaultMessage] *)

(** The branch taken when [headerFault] is not [null]. *)
Definition formatHeaderFault (headerFault : MassTransitFault)
    (envelope : option MassTransitEnvelope) (index : nat) : Completion string :=
  let ex := firstException (exceptions headerFault) in
  messageType ←
    match nullish (messageType headerFault) with
    | Some v => Normal v
    | None =>
        match get_opt envelope "messageType" with
        | Some mt =>
            if truthy mt then names ← mapTypeNames mt; Normal (JStr (join ", " names))
            else Normal (JStr "unknown")
        | None => Normal (JStr "unknown")
        end
    end;
  let host := host headerFault in
  hostInfo ← hostSummary host;
  faulted ← orDefault (timestamp headerFault) "unknown";
  why ← orDefault (reason headerFault) "fault";
  typeText ← toJSString messageType;
  let lines := [
    "Message " +:+ ofNat (index + 1) +:+ ":";
    "  Faulted: " +:+ faulted;
    "  Reason: " +:+ why;
    "  Message Type: " +:+ typeText ] in
  lines ← pushTruthy (consumerType headerFault)
            (fun c => t ← toJSString c; Normal ("  Consumer: " +:+ t)) lines;
  lines ← pushTruthy ex
            (fun e =>
               t ← orDefault (get e "exceptionType") "unknown";
               m ← orDefault (get e "message") "unknown";
               Normal ("  Exception: " +:+ t +:+ " - " +:+ dquote +:+ m +:+ dquote)) lines;
  lines ← pushDefined (retryCount headerFault)
            (fun n => t ← toJSString n; Normal ("  Retry Count: " +:+ t)) lines;
  lines ← pushTruthy (get_opt ex "stackTrace") (stackTraceBlock 8) lines;
  lines ← pushTruthy (get_opt envelope "message") originalPayloadLine lines;
  let lines := lines ++ ["  Source Host: " +:+ hostInfo] in
  lines ← pushIf (truthy_opt (get_opt host "assembly")
                   && truthy_opt (get_opt host "assemblyVersion"))
            (a ← orDefault (get_opt host "assembly") "";
             v ← orDefault (get_opt host "assemblyVersion") "";
             f ← orDefault (get_opt host "frameworkVersion") "?";
             Normal ("  Assembly: " +:+ a +:+ " v" +:+ v +:+ " (.NET " +:+ f +:+ ")")) lines;
  Normal (join nl lines).

(** The branch taken for a body fault; [limit] is the number of stack
    lines kept, the only point where the two revisions of the file
    differ in this branch. *)
Definition formatBodyFault (limit : nat) (bodyFault : MassTransitFault)
    (envelope : option MassTransitEnvelope) (index : nat) : Completion string :=
  let ex := firstException (exceptions bodyFault) in
  messageTypes ← messageTypesOf envelope;
  let host := host bodyFault in
  hostInfo ← hostSummary host;
  faulted ← orDefault (timestamp bodyFault) "unknown";
  original ← orDefault (faultedMessageId bodyFault) "unknown";
  t ← orDefault (get_opt ex "exceptionType") "unknown";
  m ← orDefault (get_opt ex "message") "unknown";
  let lines := [
    "Message " +:+ ofNat (index + 1) +:+ ":";
    "  Faulted: " +:+ faulted;
    "  Original MessageId: " +:+ original;
    "  Message Type: " +:+ joinedOrUnknown messageTypes;
    "  Exception: " +:+ t +:+ " - " +:+ dquote +:+ m +:+ dquote ] in
  lines ← pushTruthy (get_opt ex "stackTrace") (stackTraceBlock limit) lines;
  lines ← pushTruthy (message bodyFault) originalPayloadLine lines;
  let lines := lines ++ ["  Source Host: " +:+ hostInfo] in
  Normal (join nl lines).

(** The branch taken for a plain envelope. *)
Definition formatEnvelope (envelope : MassTransitEnvelope) (index : nat)
  : Completion string :=
  messageTypes ← messageTypesOf (Some envelope);
  id ← orDefault (get envelope "messageId") "unknown";
  sent ← orDefault (get envelope "sentTime") "unknown";
  Normal (join nl [
    "Message " +:+ ofNat (index + 1) +:+ ":";
    "  MessageId: " +:+ id;
    "  Sent: " +:+ sent;
    "  Message Type: " +:+ joinedOrUnknown messageTypes;
    "  Payload: "
      +:+ slice_to (stringify (default (JObj []) (nullish (get envelope "message")))) 500 ]).

(** The raw fallback. *)
Definition formatRaw (msg : PeekedMessage) (index : nat) : string :=
  join nl [
    "Message " +:+ ofNat (index + 1) +:+ ":";
    "  Exchange: " +:+ exchange msg;
    "  Routing Key: " +:+ routing_key msg;
    "  Payload: " +:+ slice_to (payload msg) 500 ].

(** The chain of [if]s of [formatFaultMessage] over its three parsed
    constants. *)
Definition renderFirst (headerFault bodyFault : option MassTransitFault)
    (envelope : option MassTransitEnvelope) (msg : PeekedMessage) (index : nat)
  : Completion string :=
  match headerFault with
  | Some hf => formatHeaderFault hf envelope index
  | None =>
      match bodyFault with
      | Some bf => formatBodyFault 8 bf envelope index
      | None =>
          match envelope with
          | Some env => formatEnvelope env index
          | None => Normal (formatRaw msg index)
          end
      end
  end.

(** [formatFaultMessage] of the revision that reads the fault headers. *)
Definition formatFaultMessage (msg : PeekedMessage) (index : nat) : Completion string :=
  let headers := default ∅ (headers (properties msg)) in
  let headerFault := parseFaultFromHeaders headers in
  let bodyFault := parseFault (payload msg) in
  let envelope := parseEnvelope (payload msg) in
  renderFirst headerFault bodyFault envelope msg index.

(** The revision of [masstransit.ts] without [parseFaultFromHeaders]: its
    [formatFaultMessage] never reads the headers and keeps 5 stack lines. *)
Module BodyOnly.

Definition formatFaultMessage (msg : PeekedMessage) (index : nat) : Completion string :=
  let fault := parseFault (payload msg) in
  let envelope := parseEnvelope (payload msg) in
  match fault with
  | Some f => formatBodyFault 5 f envelope index
  | None =>
      match envelope with
      | Some env => formatEnvelope env index
      | None => Normal (formatRaw msg index)
      end
  end.

End BodyOnly.

(** ** The host environment

    The program reaches the outside through two built-ins only: the
    [URL] constructor and [fetch], the latter always through
    [RabbitMQClient.post].  Both are left abstract.  [URL_pathname s] is
    the [pathname] of [new URL(s)], or [None] when the constructor throws
    its [TypeError].  [post_messages] and [post_publish] are
    [post<PeekedMessage[]>] and [post<{ routed }>] acting on the state of
    the outside world; a [Throw] carries the message of the error that
    [request] raises for a rejected [fetch] or a response that is not ok. *)

Record GetBody : Type := {
  body_count : Z;
  body_ackmode : string;
  body_encoding : string;
  body_truncate : Z
}.

(** The [properties] of a publish body.  [publish_content_type] is
    [None] for a key left [undefined], which [JSON.stringify] drops. *)
Record PublishProperties : Type := {
  publish_delivery_mode : Z;
  publish_content_type : option string;
  publish_headers : option (gmap string value);
  publish_message_id : option string;
  publish_correlation_id : option string
}.

Record PublishBody : Type := {
  body_routing_key : string;
  body_payload : string;
  body_payload_encoding : string;
  body_properties : PublishProperties
}.

(** A call of [RabbitMQClient.post]: path and body. *)
Inductive Request : Type :=
| PostGet (path : string) (body : GetBody)
| PostPublish (path : string) (body : PublishBody).

Class Platform : Type := {
  World : Type;
  URL_pathname : string -> option string;
  post_messages : string -> GetBody -> World -> Completion (list PeekedMessage) * World;
  post_publish : string -> PublishBody -> World -> Completion bool * World
}.

(** The state a handler runs in: the outside world and, as a ghost
    record, the requests posted so far, oldest first. *)
Record Sys `{Platform} : Type := {
  world : World;
  trace : list Request
}.

(** An asynchronous computation, run to completion: [await] is
    sequencing, a rejected promise is a [Throw]. *)
Definition IO `{Platform} (A : Type) : Type := Sys -> Completion A * Sys.

#[global] Instance io_ret `{Platform} : MRet IO := fun A a s => (Normal a, s).

#[global] Instance io_bind `{Platform} : MBind IO := fun A B k m s =>
  match m s with
  | (Normal a, s') => k a s'
  | (Throw e, s') => (Throw e, s')
  end.

(** A synchronous evaluation inside an asynchronous function. *)
Definition liftC `{Platform} {A} (c : Completion A) : IO A := fun s => (c, s).

(** ** [rabbitmq-client.ts] *)

Record RabbitMQConfig : Type := {
  config_vhost : string
}.

(** Code units that [encodeURIComponent] leaves alone *)
Definition isUnreserved (c : ascii) : bool :=
  let n := nat_of_ascii c in
  ((48 <=? n) && (n <=? 57)) || ((65 <=? n) && (n <=? 90))
  || ((97 <=? n) && (n <=? 122))
  || existsb (Ascii.eqb c) ["-"; "_"; "."; "!"; "~"; "*"; "'"; "("; ")"]%char.

Definition upperHexDigit (n : nat) : ascii :=
  ascii_of_nat (if n <? 10 then 48 + n else 55 + n).

Definition percentByte (n : nat) : string :=
  String "%" (String (upperHexDigit (n / 16)) (String (upperHexDigit (n mod 16)) "")).

(** [encodeURIComponent]: every other code unit is escaped as the bytes
    of its UTF-8 encoding, one byte below 128 and two bytes from 128 to
    255. *)
Fixpoint encodeURIComponent (s : string) : string :=
  match s with
  | "" => ""
  | String c s' =>
      let n := nat_of_ascii c in
      (if isUnreserved c then String c ""
       else if n <? 128 then percentByte n
       else percentByte (192 + n / 64) +:+ percentByte (128 + n mod 64))
      +:+ encodeURIComponent s'
  end.

Definition encodeVhost (config : RabbitMQConfig) (vhost : option string) : string :=
  let v := default (config_vhost config) vhost in
  if String.eqb v "/" then "%2F" else encodeURIComponent v.

(** [post] with its request recorded in the trace *)
Definition postGet `{Platform} (path : string) (body : GetBody) : IO (list PeekedMessage) :=
  fun s =>
    let '(r, w) := post_messages path body (world s) in
    (r, {| world := w; trace := trace s ++ [PostGet path body] |}).

Definition postPublish `{Platform} (path : string) (body : PublishBody) : IO bool :=
  fun s =>
    let '(r, w) := post_publish path body (world s) in
    (r, {| world := w; trace := trace s ++ [PostPublish path body] |}).

(** [peekMessages(queue, count = 5, vhost?, ackMode = "ack_requeue_true")] *)
Definition peekMessages `{Platform} (config : RabbitMQConfig) (queue : string)
    (count : option Z) (vhost : option string) (ackMode : option string)
  : IO (list PeekedMessage) :=
  postGet ("/queues/" +:+ encodeVhost config vhost +:+ "/"
           +:+ encodeURIComponent queue +:+ "/get")
    {| body_count := default 5%Z count;
       body_ackmode := default "ack_requeue_true" ackMode;
       body_encoding := "auto";
       body_truncate := 50000 |}.

(** [publishMessage(exchange, routingKey, payload, properties = {}, vhost?)].
    The spread of [properties] overrides the default content type when the
    caller supplies one; every caller in the program either supplies a
    string or leaves the key out. *)
Definition publishMessage `{Platform} (config : RabbitMQConfig)
    (exchange routingKey payload : string) (properties : MessageProperties)
    (vhost : option string) : IO bool :=
  postPublish ("/exchanges/" +:+ encodeVhost config vhost +:+ "/"
               +:+ encodeURIComponent exchange +:+ "/publish")
    {| body_routing_key := routingKey;
       body_payload := payload;
       body_payload_encoding := "string";
       body_properties :=
         {| publish_delivery_mode := 2;
            publish_content_type :=
              Some (default "application/vnd.masstransit+json" (content_type properties));
            publish_headers := headers properties;
            publish_message_id := message_id properties;
            publish_correlation_id := correlation_id properties |} |}.

(** [consumeMessages(queue, count = 1, vhost?)] *)
Definition consumeMessages `{Platform} (config : RabbitMQConfig) (queue : string)
    (count : option Z) (vhost : option string) : IO (list PeekedMessage) :=
  postGet ("/queues/" +:+ encodeVhost config vhost +:+ "/"
           +:+ encodeURIComponent queue +:+ "/get")
    {| body_count := default 1%Z count;
       body_ackmode := "ack_requeue_false";
       body_encoding := "auto";
       body_truncate := 50000 |}.

(** ** [tools/messages.ts]: [peek_messages] *)

(** The payload text of a peeked message, cut at 1000 code units *)
Definition peekPayloadText (payloadStr : string) : string :=
  if 1000 <? String.length payloadStr
  then slice_to payloadStr 1000 +:+ nl +:+ "... (truncated)"
  else payloadStr.

(** The lines pushed for [messages[i]] *)
Definition peekMessageLines (msg : PeekedMessage) (i : nat) : Completion (list string) :=
  let envelope := parseEnvelope (payload msg) in
  let title := "--- Message " +:+ ofNat (i + 1) +:+ " ---" in
  match envelope with
  | Some env =>
      types ← messageTypesOf (Some env);
      id ← orDefault (get env "messageId") "unknown";
      sent ← orDefault (get env "sentTime") "unknown";
      let lines := [
        title;
        "MessageId: " +:+ id;
        "Sent: " +:+ sent;
        "Type: " +:+ joinedOrUnknown types ] in
      lines ← pushTruthy (get env "correlationId")
                (fun c => t ← toJSString c; Normal ("CorrelationId: " +:+ t)) lines;
      lines ← pushTruthy (get env "conversationId")
                (fun c => t ← toJSString c; Normal ("ConversationId: " +:+ t)) lines;
      let payloadStr := stringify (default (JObj []) (nullish (get env "message"))) in
      Normal (lines ++ ["Payload:"; peekPayloadText payloadStr; ""])
  | None =>
      Normal [
        title;
        "Exchange: " +:+ exchange msg;
        "Routing Key: " +:+ routing_key msg;
        "Content Type: " +:+ default "unknown" (content_type (properties msg));
        "Payload:";
        peekPayloadText (payload msg);
        "" ]
  end.

Fixpoint peekAllLines (messages : list PeekedMessage) (i : nat) : Completion (list string) :=
  match messages with
  | [] => Normal []
  | msg :: rest =>
      ls ← peekMessageLines msg i;
      more ← peekAllLines rest (S i);
      Normal (ls ++ more)
  end.

(** The [peek_messages] handler; the result is the text of its content. *)
Definition peek_messages `{Platform} (config : RabbitMQConfig) (queue : string)
    (count : option Z) (vhost : option string) : IO string :=
  messages ← peekMessages config queue (Some (default 5%Z count)) vhost None;
  if length messages =? 0 then
    mret ("Queue " +:+ dquote +:+ queue +:+ dquote +:+ " is empty.")
  else
    lines ← liftC (peekAllLines messages 0);
    mret (join nl
            (("Queue: " +:+ queue +:+ " (" +:+ ofNat (length messages)
              +:+ " message(s) peeked)" +:+ nl) :: lines)).

(** ** [tools/masstransit.ts]: [republish_from_error] *)

Record RepublishArgs : Type := {
  errorQueue : string;
  count : option Z;
  confirm : option bool;
  vhost : option string
}.

(** The text for an empty queue; its dash is the UTF-8 spelling of
    U+2014. *)
Definition emptyQueueText (errorQueue : string) : string :=
  "Queue " +:+ dquote +:+ errorQueue +:+ dquote +:+ " is empty — nothing to republish.".

(** The preview loop: each message is formatted and followed by an empty
    line. *)
Fixpoint previewLines (messages : list PeekedMessage) (i : nat) : Completion (list string) :=
  match messages with
  | [] => Normal []
  | msg :: rest =>
      text ← formatFaultMessage msg i;
      more ← previewLines rest (S i);
      Normal (text :: "" :: more)
  end.

(** The instruction that ends a preview *)
Definition confirmInstruction (n : nat) : string :=
  "To republish these messages, call again with confirm=true and count="
  +:+ ofNat n +:+ ".".

(** [url.pathname.split("/").filter(Boolean)] *)
Definition pathPartsOf (pathname : string) : list string :=
  List.filter (fun part => negb (String.eqb part "")) (split "/" pathname).

(** Exchange and routing key of a consumed message.  The [URL] constructor
    converts its argument to a string and throws on a text that is not a
    URL. *)
Definition resolveDestination `{Platform} (errorQueue : string)
    (envelope : option MassTransitEnvelope) : Completion (string * string) :=
  let fallback :=
    let sourceQueue := getSourceQueue errorQueue in
    Normal (sourceQueue, sourceQueue) in
  match get_opt envelope "destinationAddress" with
  | Some destinationAddress =>
      if truthy destinationAddress then
        text ← toJSString destinationAddress;
        match URL_pathname text with
        | Some pathname =>
            let pathParts := pathPartsOf pathname in
            let targetExchange := default "" (last pathParts) in
            Normal (targetExchange, targetExchange)
        | None => Throw "Invalid URL"
        end
      else fallback
  | None => fallback
  end.

(** The properties a message is republished with *)
Definition republishProperties (msg : PeekedMessage) : MessageProperties :=
  {| headers := headers (properties msg);
     content_type :=
       Some (default "application/vnd.masstransit+json" (content_type (properties msg)));
     message_id := message_id (properties msg);
     correlation_id := None |}.

(** The body of the [try] block for one consumed message *)
Definition republishOne `{Platform} (config : RabbitMQConfig) (errorQueue : string)
    (vhost : option string) (msg : PeekedMessage) : IO bool :=
  let envelope := parseEnvelope (payload msg) in
  dest ← liftC (resolveDestination errorQueue envelope);
  publishMessage config dest.1 dest.2 (payload msg) (republishProperties msg) vhost.

(** The commit loop with its two accumulators.  A throw inside the [try]
    block is caught: its message joins [errors] and the loop goes on. *)
Fixpoint republishLoop `{Platform} (config : RabbitMQConfig) (errorQueue : string)
    (vhost : option string) (messages : list PeekedMessage)
    (republished : nat) (errors : list string) : IO (nat * list string) :=
  match messages with
  | [] => mret (republished, errors)
  | msg :: rest =>
      fun s =>
        match republishOne config errorQueue vhost msg s with
        | (Normal _, s') =>
            republishLoop config errorQueue vhost rest (republished + 1) errors s'
        | (Throw errMsg, s') =>
            republishLoop config errorQueue vhost rest republished
              (errors ++ ["Message " +:+ ofNat (republished + 1) +:+ ": " +:+ errMsg]) s'
        end
  end.

(** The text reported after the commit loop *)
Definition outcomeText (republished attempted : nat) (errorQueue : string)
    (errors : list string) : string :=
  let lines := [
    "Republished " +:+ ofNat republished +:+ "/" +:+ ofNat attempted
    +:+ " message(s) from " +:+ dquote +:+ errorQueue +:+ dquote +:+ "." ] in
  let lines := if 0 <? length errors then lines ++ [""; "Errors:"] ++ errors else lines in
  join nl lines.

(** The [republish_from_error] handler; the result is the text of its
    content. *)
Definition republish_from_error `{Platform} (config : RabbitMQConfig)
    (args : RepublishArgs) : IO string :=
  let peekCount := default 1%Z (count args) in
  if negb (default false (confirm args)) then
    messages ← peekMessages config (errorQueue args) (Some peekCount) (vhost args) None;
    if length messages =? 0 then mret (emptyQueueText (errorQueue args))
    else
      previews ← liftC (previewLines messages 0);
      mret (join nl
              (("Preview: " +:+ ofNat (length messages) +:+ " message(s) from "
                +:+ dquote +:+ errorQueue args +:+ dquote +:+ " ready to republish:" +:+ nl)
               :: previews ++ ["---"; confirmInstruction (length messages)]))
  else
    messages ← consumeMessages config (errorQueue args) (Some peekCount) (vhost args);
    if length messages =? 0 then mret (emptyQueueText (errorQueue args))
    else
      result ← republishLoop config (errorQueue args) (vhost args) messages 0 [];
      mret (outcomeText result.1 (length messages) (errorQueue args) result.2).

(** ** A model of the outside world, for scenarios *)

(** The message of the error that [request] throws for a response that
    is not ok. *)
Definition apiErrorMessage (status : nat) (statusText text : string) : string :=
  "RabbitMQ API error: " +:+ ofNat status +:+ " " +:+ statusText
  +:+ (if negb (String.eqb text "") then " - " +:+ text else "").

(** Modelled from the spec: the broker behind the management API, which
    is not part of the repository.  A read with requeue leaves the
    messages in the queue; a read with acknowledgement removes them; a
    publish to a missing exchange, like a read from a missing queue, is
    answered with status 404.  Queues and exchanges are keyed by the path
    of the API call that reaches them. *)
Record Broker : Type := {
  queues : gmap string (list PeekedMessage);
  exchanges : gset string;
  published : list (string * PublishBody)
}.

Definition notFound : string :=
  apiErrorMessage 404 "Not Found" (qq "{'error':'Object Not Found','reason':'Not Found'}").

Definition broker_get (path : string) (body : GetBody) (b : Broker)
  : Completion (list PeekedMessage) * Broker :=
  match queues b !! path with
  | None => (Throw notFound, b)
  | Some msgs =>
      let n := Z.to_nat (body_count body) in
      if String.eqb (body_ackmode body) "ack_requeue_true" then (Normal (firstn n msgs), b)
      else if String.eqb (body_ackmode body) "ack_requeue_false" then
        (Normal (firstn n msgs),
         {| queues := <[path := skipn n msgs]> (queues b);
            exchanges := exchanges b;
            published := published b |})
      else (Throw (apiErrorMessage 400 "Bad Request" ""), b)
  end.

Definition broker_publish (path : string) (body : PublishBody) (b : Broker)
  : Completion bool * Broker :=
  if decide (path ∈ exchanges b) then
    (Normal true,
     {| queues := queues b;
        exchanges := exchanges b;
        published := published b ++ [(path, body)] |})
  else (Throw notFound, b).

Definition isAlpha (c : ascii) : bool :=
  let n := nat_of_ascii c in
  ((65 <=? n) && (n <=? 90)) || ((97 <=? n) && (n <=? 122)).

(** The text after the colon that ends a scheme *)
Fixpoint afterScheme (s : string) : option string :=
  match s with
  | "" => None
  | String c s' =>
      if Ascii.eqb c ":" then Some s'
      else if isAlpha c || isDigit c || Ascii.eqb c "+" || Ascii.eqb c "-" || Ascii.eqb c "."
      then afterScheme s'
      else None
  end.

Fixpoint beforeQueryOrFragment (s : string) : string :=
  match s with
  | "" => ""
  | String c s' =>
      if Ascii.eqb c "?" || Ascii.eqb c "#" then "" else String c (beforeQueryOrFragment s')
  end.

Fixpoint fromFirstSlash (s : string) : string :=
  match s with
  | "" => ""
  | String c s' => if Ascii.eqb c "/" then s else fromFirstSlash s'
  end.

(** A [URL] constructor for the scenarios.  It reads [scheme://host/path]
    and [scheme:path]; on such a text with a scheme that is not special,
    a plain host, and a path free of dot segments and of characters to
    escape, this is the pathname the WHATWG parser gives.  A text without
    a scheme is rejected, as it is there. *)
Definition genericPathname (s : string) : option string :=
  match s with
  | String c s' =>
      if isAlpha c then
        match afterScheme s' with
        | Some rest =>
            let rest := beforeQueryOrFragment rest in
            if String.prefix "//" rest then Some (fromFirstSlash (slice_from rest 2))
            else Some rest
        | None => None
        end
      else None
  | "" => None
  end.

Definition modelPlatform : Platform := {|
  World := Broker;
  URL_pathname := genericPathname;
  post_messages := broker_get;
  post_publish := broker_publish
|}.

(** A message as the broker returns it, with no properties but headers *)
Definition messageOf (payload : string) (headers : option (gmap string value))
  : PeekedMessage :=
  {| payload := payload;
     exchange := "";
     routing_key := "";
     properties := {| headers := headers; content_type := None;
                      message_id := None; correlation_id := None |} |}.

(** ** [tools/masstransit.ts]: [peek_errors] *)

(** The [peek_errors] handler; its loop is the loop of the preview. *)
Definition peek_errors `{Platform} (config : RabbitMQConfig) (queue : string)
    (count : option Z) (vhost : option string) : IO string :=
  messages ← peekMessages config queue (Some (default 5%Z count)) vhost None;
  if length messages =? 0 then
    mret ("Queue " +:+ dquote +:+ queue +:+ dquote +:+ " is empty.")
  else
    lines ← liftC (previewLines messages 0);
    mret (join nl
            (("Queue: " +:+ queue +:+ " (" +:+ ofNat (length messages)
              +:+ " message(s))" +:+ nl) :: lines)).

(** ** [tools/messages.ts]: [move_messages] *)

(** The properties a message is moved with *)
Definition moveProperties (msg : PeekedMessage) : MessageProperties :=
  {| headers := headers (properties msg);
     content_type :=
       Some (default "application/vnd.masstransit+json" (content_type (properties msg)));
     message_id := message_id (properties msg);
     correlation_id := correlation_id (properties msg) |}.

(** The loop of [move_messages]: there is no [try] around the publish, so
    the first rejected publish ends the handler. *)
Fixpoint moveLoop `{Platform} (config : RabbitMQConfig) (destinationExchange : string)
    (routingKey : option string) (vhost : option string)
    (messages : list PeekedMessage) (moved : nat) : IO nat :=
  match messages with
  | [] => mret moved
  | msg :: rest =>
      let rk := default destinationExchange routingKey in
      _ ← publishMessage config destinationExchange rk (payload msg)
            (moveProperties msg) vhost;
      moveLoop config destinationExchange routingKey vhost rest (moved + 1)
  end.

(** The text for an empty source queue; its dash is the UTF-8 spelling of
    U+2014. *)
Definition emptySourceText (sourceQueue : string) : string :=
  "Source queue " +:+ dquote +:+ sourceQueue +:+ dquote +:+ " is empty — nothing to move.".

Definition movedText (moved : nat) (sourceQueue destinationExchange : string) : string :=
  "Moved " +:+ ofNat moved +:+ " message(s) from " +:+ dquote +:+ sourceQueue +:+ dquote
  +:+ " to exchange " +:+ dquote +:+ destinationExchange +:+ dquote +:+ ".".

(** The [move_messages] handler *)
Definition move_messages `{Platform} (config : RabbitMQConfig)
    (sourceQueue destinationExchange : string) (routingKey : option string)
    (count : option Z) (vhost : option string) : IO string :=
  let moveCount := default 1%Z count in
  messages ← consumeMessages config sourceQueue (Some moveCount) vhost;
  if length messages =? 0 then mret (emptySourceText sourceQueue)
  else
    moved ← moveLoop config destinationExchange routingKey vhost messages 0;
    mret (movedText moved sourceQueue destinationExchange).

(** ** [tools/masstransit.ts]: the queue listings

    [listQueues] resolves to an array of [QueueInfo]; what follows is the
    text each handler computes from that array. *)

Module QueueInfo.

(** The fields of [QueueInfo] the listings read.  The management API
    leaves [messages] out for a queue it has no statistics for, which the
    handlers allow for with [q.messages ?? 0]; counts are integers. *)
Record t : Type := {
  name : string;
  messages : option Z;
  consumers : Z
}.

End QueueInfo.

(** [q.messages ?? 0] *)
Definition messagesOrZero (q : QueueInfo.t) : Z := default 0%Z (QueueInfo.messages q).

(** [q.messages > n] and [q.messages >= n]: a comparison with
    [undefined] is false. *)
Definition messagesAbove (q : QueueInfo.t) (n : Z) : bool :=
  match QueueInfo.messages q with
  | Some m => (n <? m)%Z
  | None => false
  end.

Definition messagesAtLeast (q : QueueInfo.t) (n : Z) : bool :=
  match QueueInfo.messages q with
  | Some m => (n <=? m)%Z
  | None => false
  end.

(** [`${q.messages}`] *)
Definition showMessages (q : QueueInfo.t) : string :=
  match QueueInfo.messages q with
  | Some m => numToString m 0
  | None => "undefined"
  end.

(** [sort((a, b) => (b.messages ?? 0) - (a.messages ?? 0))]: the sort of
    an array is stable, so queues of equal depth keep their order. *)
Fixpoint insertByMessages (q : QueueInfo.t) (sorted : list QueueInfo.t)
  : list QueueInfo.t :=
  match sorted with
  | [] => [q]
  | y :: ys =>
      if (messagesOrZero y <=? messagesOrZero q)%Z then q :: sorted
      else y :: insertByMessages q ys
  end.

Fixpoint sortByMessages (queues : list QueueInfo.t) : list QueueInfo.t :=
  match queues with
  | [] => []
  | q :: rest => insertByMessages q (sortByMessages rest)
  end.

(** [reduce((sum, q) => sum + (q.messages ?? 0), 0)] *)
Definition totalMessages (queues : list QueueInfo.t) : Z :=
  fold_left (fun sum q => (sum + messagesOrZero q)%Z) queues 0%Z.

(** [nonEmpty !== false] *)
Definition notFalse (nonEmpty : option bool) : bool :=
  match nonEmpty with
  | Some false => false
  | _ => true
  end.

(** The queues that [list_error_queues] and [list_skipped_queues] list,
    [isKind] being [isErrorQueue] or [isSkippedQueue]. *)
Definition selectQueues (isKind : string -> bool) (queues : list QueueInfo.t)
    (nonEmpty : option bool) : list QueueInfo.t :=
  let selected := List.filter (fun q => isKind (QueueInfo.name q)) queues in
  let selected :=
    if notFalse nonEmpty then List.filter (fun q => messagesAbove q 0) selected
    else selected in
  sortByMessages selected.

Fixpoint listingLines (selected : list QueueInfo.t) : list string :=
  match selected with
  | [] => []
  | q :: rest =>
      QueueInfo.name q
      :: ("  Messages: " +:+ showMessages q +:+ " | Source queue: "
          +:+ getSourceQueue (QueueInfo.name q) +:+ " | Consumers: "
          +:+ numToString (QueueInfo.consumers q) 0)
      :: "" :: listingLines rest
  end.

(** The text of both listings; [suffix] is [_error] or [_skipped]. *)
Definition listingText (isKind : string -> bool) (suffix : string)
    (queues : list QueueInfo.t) (nonEmpty : option bool) : string :=
  let selected := selectQueues isKind queues nonEmpty in
  if length selected =? 0 then
    if notFalse nonEmpty
    then "No " +:+ suffix +:+ " queues with messages found."
    else "No " +:+ suffix +:+ " queues found."
  else
    join nl
      (("Found " +:+ ofNat (length selected) +:+ " " +:+ suffix +:+ " queue(s) with "
        +:+ numToString (totalMessages selected) 0 +:+ " total message(s):" +:+ nl)
       :: listingLines selected).

Definition list_error_queues (queues : list QueueInfo.t) (nonEmpty : option bool) : string :=
  listingText isErrorQueue "_error" queues nonEmpty.

Definition list_skipped_queues (queues : list QueueInfo.t) (nonEmpty : option bool) : string :=
  listingText isSkippedQueue "_skipped" queues nonEmpty.

(** ** [tools/masstransit.ts]: [get_queue_health] *)

Definition isFailureQueue (q : QueueInfo.t) : bool :=
  isErrorQueue (QueueInfo.name q) || isSkippedQueue (QueueInfo.name q).

Definition noConsumersOf (threshold : Z) (queues : list QueueInfo.t) : list QueueInfo.t :=
  List.filter
    (fun q => (QueueInfo.consumers q =? 0)%Z && messagesAtLeast q threshold
              && negb (isErrorQueue (QueueInfo.name q))
              && negb (isSkippedQueue (QueueInfo.name q)))
    queues.

Definition errorQueuesOf (threshold : Z) (queues : list QueueInfo.t) : list QueueInfo.t :=
  sortByMessages
    (List.filter (fun q => isErrorQueue (QueueInfo.name q) && messagesAtLeast q threshold)
       queues).

Definition skippedQueuesOf (threshold : Z) (queues : list QueueInfo.t) : list QueueInfo.t :=
  sortByMessages
    (List.filter (fun q => isSkippedQueue (QueueInfo.name q) && messagesAtLeast q threshold)
       queues).

Definition highDepthOf (queues : list QueueInfo.t) : list QueueInfo.t :=
  sortByMessages
    (List.filter
       (fun q => messagesAtLeast q 1000
                 && negb (isErrorQueue (QueueInfo.name q))
                 && negb (isSkippedQueue (QueueInfo.name q)))
       queues).

(** One section of the report: nothing for an empty list, else a title,
    a line per queue and an empty line. *)
Definition healthSection (title : string) (line : QueueInfo.t -> string)
    (listed : list QueueInfo.t) : list string :=
  if 0 <? length listed then title :: map line listed ++ [""] else [].

Definition depthLine (q : QueueInfo.t) : string :=
  "  " +:+ QueueInfo.name q +:+ " — " +:+ showMessages q +:+ " message(s)".

Definition healthyText : string := "All queues look healthy — no issues detected.".

(** The text of [get_queue_health]; the symbols and dashes of its literals
    are spelled in UTF-8. *)
Definition get_queue_health (queues : list QueueInfo.t) (minMessages : option Z) : string :=
  let threshold := default 1%Z minMessages in
  let noConsumers := noConsumersOf threshold queues in
  let errorQueues := errorQueuesOf threshold queues in
  let skippedQueues := skippedQueuesOf threshold queues in
  let highDepth := highDepthOf queues in
  if (length noConsumers =? 0) && (length errorQueues =? 0)
     && (length skippedQueues =? 0) && (length highDepth =? 0)
  then healthyText
  else
    join nl
      (healthSection
         ("⚠ Queues with NO consumers and messages (" +:+ ofNat (length noConsumers) +:+ "):")
         depthLine noConsumers
       ++ healthSection
            ("✗ Error queues with messages (" +:+ ofNat (length errorQueues)
             +:+ " queues, " +:+ numToString (totalMessages errorQueues) 0 +:+ " total):")
            depthLine errorQueues
       ++ healthSection
            ("⊘ Skipped queues with messages (" +:+ ofNat (length skippedQueues)
             +:+ " queues, " +:+ numToString (totalMessages skippedQueues) 0 +:+ " total):")
            depthLine skippedQueues
       ++ healthSection
            ("△ High depth queues (>1000 messages, " +:+ ofNat (length highDepth) +:+ "):")
            (fun q => depthLine q +:+ ", " +:+ numToString (QueueInfo.consumers q) 0
                      +:+ " consumer(s)")
            highDepth).

(** ** Vocabulary of the further properties *)

(** A queue that [get_queue_health] reports in one of its four lists *)
Definition hasIssue (threshold : Z) (q : QueueInfo.t) : bool :=
  ((QueueInfo.consumers q =? 0)%Z && messagesAtLeast q threshold && negb (isFailureQueue q))
  || (isFailureQueue q && messagesAtLeast q threshold)
  || (messagesAtLeast q 1000 && negb (isFailureQueue q)).

Fixpoint hasChar (c : ascii) (s : string) : bool :=
  match s with
  | "" => false
  | String x s' => Ascii.eqb x c || hasChar c s'
  end.

(** The characters [encodeURIComponent] can produce *)
Definition isEncodedChar (c : ascii) : bool :=
  isUnreserved c || Ascii.eqb c "%"
  || (let n := nat_of_ascii c in (65 <=? n) && (n <=? 70)).

Fixpoint allChars (p : ascii -> bool) (s : string) : bool :=
  match s with
  | "" => true
  | String c s' => p c && allChars p s'
  end.

(** The publish request of a consumed message, when its destination
    resolves *)
Definition republishRequest `{Platform} (config : RabbitMQConfig) (errorQueue : string)
    (vhost : option string) (msg : PeekedMessage) : option Request :=
  match resolveDestination errorQueue (parseEnvelope (payload msg)) with
  | Normal dest =>
      Some (PostPublish
              ("/exchanges/" +:+ encodeVhost config vhost +:+ "/"
               +:+ encodeURIComponent dest.1 +:+ "/publish")
              {| body_routing_key := dest.2;
                 body_payload := payload msg;
                 body_payload_encoding := "string";
                 body_properties :=
                   {| publish_delivery_mode := 2;
                      publish_content_type :=
                        Some (default "application/vnd.masstransit+json"
                                (content_type (properties msg)));
                      publish_headers := headers (properties msg);
                      publish_message_id := message_id (properties msg);
                      publish_correlation_id := None |} |})
  | Throw _ => None
  end.

(** The publish request of a moved message *)
Definition moveRequest (config : RabbitMQConfig) (destinationExchange : string)
    (routingKey : option string) (vhost : option string) (msg : PeekedMessage) : Request :=
  PostPublish
    ("/exchanges/" +:+ encodeVhost config vhost +:+ "/"
     +:+ encodeURIComponent destinationExchange +:+ "/publish")
    {| body_routing_key := default destinationExchange routingKey;
       body_payload := payload msg;
       body_payload_encoding := "string";
       body_properties :=
         {| publish_delivery_mode := 2;
            publish_content_type :=
              Some (default "application/vnd.masstransit+json"
                      (content_type (properties msg)));
            publish_headers := headers (properties msg);
            publish_message_id := message_id (properties msg);
            publish_correlation_id := correlation_id (properties msg) |} |}.

(** A header value, or a missing one, that is a string *)
Definition stringOrMissing (o : option value) : Prop :=
  forall v, o = Some v -> exists s, v = JStr s.

(** An envelope whose [messageType], when truthy, is an array of strings *)
Definition typesWellFormed (envelope : option MassTransitEnvelope) : Prop :=
  forall mt, get_opt envelope "messageType" = Some mt -> truthy mt = true ->
             exists urns, mt = JArr (map JStr urns).

(** The path and the bodies of the reads that the peek handlers and
    [move_messages] post *)
Definition queuePath (config : RabbitMQConfig) (queue : string) (vhost : option string)
  : string :=
  "/queues/" +:+ encodeVhost config vhost +:+ "/" +:+ encodeURIComponent queue +:+ "/get".

Definition peekBody (count : option Z) : GetBody :=
  {| body_count := default 5%Z count;
     body_ackmode := "ack_requeue_true";
     body_encoding := "auto";
     body_truncate := 50000 |}.

Definition consumeBody (count : option Z) : GetBody :=
  {| body_count := default 1%Z count;
     body_ackmode := "ack_requeue_false";
     body_encoding := "auto";
     body_truncate := 50000 |}.

(** The order of the listings: deeper queues first *)
Definition deeperFirst (a b : QueueInfo.t) : Prop :=
  (messagesOrZero b <= messagesOrZero a)%Z.



(** ** Scenarios *)

(** The error-queue message of the header scenario: four fault headers,
    no [MT-Fault-MessageType], and a plain envelope as payload. *)
Definition faultHeaders : gmap string value :=
  {[ "MT-Reason" := JStr "fault";
     "MT-Fault-ExceptionType" := JStr "System.InvalidOperationException";
     "MT-Fault-Message" := JStr "bad state";
     "MT-Fault-RetryCount" := JStr "3" ]}.

Definition orderPlacedFault : PeekedMessage :=
  messageOf (qq "{'messageType':['urn:message:App:OrderPlaced'],'message':{'id':1}}")
            (Some faultHeaders).

(** A message that carries both fault encodings: [MT-Reason] in the
    headers and a fault wrapper with one exception in the payload. *)
Definition doublyFaulted : PeekedMessage :=
  messageOf
    (qq ("{'messageType':['urn:message:MassTransit:Fault'],'sentTime':'2024-05-01',"
         +:+ "'message':{'faultedMessageId':'m-17','exceptions':"
         +:+ "[{'exceptionType':'System.TimeoutException','message':'too slow'}]}}"))
    (Some {[ "MT-Reason" := JStr "fault" ]}).



(** A header fault with a stack trace of ten frames and an envelope whose
    message prints to more than 500 code units. *)
Definition tenFrames : string :=
  join nl ["   at A.f1() "; "   at A.f2()"; "   at A.f3()"; "   at A.f4()"; "   at A.f5()";
           "   at A.f6()"; "   at A.f7()"; "   at A.f8()"; "   at A.f9()"; "   at A.f10()"].

Definition longFault : PeekedMessage :=
  messageOf
    (qq "{'messageType':['urn:message:App:Blob'],'message':{'blob':'" +:+ zeros 600 +:+ qq "'}}")
    (Some {[ "MT-Fault-ExceptionType" := JStr "System.Exception";
             "MT-Fault-StackTrace" := JStr tenFrames ]}).

(** A fault wrapper in the payload, without fault headers. *)
Definition bodyFaulted : PeekedMessage :=
  messageOf
    (qq ("{'messageType':['urn:message:MassTransit:Fault'],"
         +:+ "'message':{'faultedMessageId':'m-17','exceptions':"
         +:+ "[{'exceptionType':'System.TimeoutException','message':'too slow',"
         +:+ "'stackTrace':'   at B.g1()\n   at B.g2()'}],"
         +:+ "'message':{'id':1}}}"))
    None.


(** The error queue of the republish scenarios, under the default vhost:
    a message addressed to an exchange, one without an address and one
    whose address is no URL. *)
Definition rootConfig : RabbitMQConfig := {| config_vhost := "/" |}.

Definition withDestination : PeekedMessage :=
  messageOf
    (qq ("{'messageId':'1','destinationAddress':'proto://host/vhost/orders-exchange',"
         +:+ "'message':{'id':1}}"))
    None.

Definition withoutDestination : PeekedMessage :=
  messageOf (qq "{'messageId':'2','message':{'id':2}}") None.

Definition malformedDestination : PeekedMessage :=
  messageOf (qq "{'messageId':'3','destinationAddress':'not a uri','message':{'id':3}}") None.

Definition ordersErrorPath : string := "/queues/%2F/orders_error/get".

(** Two messages wait in [orders_error]; the exchange [orders-exchange]
    exists, the exchange [orders] does not. *)
Definition ordersBroker : Broker :=
  {| queues := {[ ordersErrorPath := [withDestination; withoutDestination] ]};
     exchanges := {[ "/exchanges/%2F/orders-exchange/publish" ]};
     published := [] |}.

(** One message with a malformed address waits in [orders_error]; the
    exchange [orders], named after the source queue, exists. *)
Definition malformedBroker : Broker :=
  {| queues := {[ ordersErrorPath := [malformedDestination] ]};
     exchanges := {[ "/exchanges/%2F/orders/publish" ]};
     published := [] |}.

(** A message whose [messageType] is a string, not an array, and
    [orders_error] holding it between two others. *)
Definition stringTyped : PeekedMessage :=
  messageOf (qq "{'messageType':'urn:message:App:OrderPlaced'}") None.

Definition mixedBroker : Broker :=
  {| queues := {[ ordersErrorPath := [withDestination; stringTyped; withoutDestination] ]};
     exchanges := {[ "/exchanges/%2F/orders-exchange/publish" ]};
     published := [] |}.

(** A handler starts on a broker with an empty trace. *)
Definition startOn (b : Broker) : @Sys modelPlatform := @Build_Sys modelPlatform b [].

Definition ordersArgs (count : option Z) (confirm : option bool) : RepublishArgs :=
  {| errorQueue := "orders_error"; count := count; confirm := confirm; vhost := None |}.

(** The path and the body of the read that [republish_from_error] posts *)
Definition readPath (config : RabbitMQConfig) (args : RepublishArgs) : string :=
  "/queues/" +:+ encodeVhost config (vhost args) +:+ "/"
  +:+ encodeURIComponent (errorQueue args) +:+ "/get".

Definition readBody (args : RepublishArgs) (ackmode : string) : GetBody :=
  {| body_count := default 1%Z (count args);
     body_ackmode := ackmode;
     body_encoding := "auto";
     body_truncate := 50000 |}.

(** The commit of one message on the broker with the malformed address *)
Definition malformedRun : Completion string * @Sys modelPlatform :=
  @republish_from_error modelPlatform rootConfig (ordersArgs (Some 1%Z) (Some true))
    (startOn malformedBroker).

Definition isPublish (r : Request) : Prop :=
  match r with
  | PostPublish _ _ => True
  | PostGet _ _ => False
  end.




(** What a line of a rendered text is: an element of the array that was
    joined with line feeds. *)
Definition rendersLine (text line : string) : Prop :=
  exists before after, text = join nl (before ++ line :: after).

(** * Properties *)

(** ** Strings *)

Section StringFacts.
Implicit Types a b s : string.

Lemma app_nil_string b : "" +:+ b = b.
Proof. reflexivity. Qed.

Lemma app_cons_string c a b : String c a +:+ b = String c (a +:+ b).
Proof. reflexivity. Qed.

Lemma length_app a b : String.length (a +:+ b) = String.length a + String.length b.
Proof.
  induction a as [|c a IH]; [reflexivity|].
  rewrite app_cons_string. simpl. now rewrite IH.
Qed.

Lemma app_assoc_string a b s : (a +:+ b) +:+ s = a +:+ (b +:+ s).
Proof.
  induction a as [|c a IH]; [reflexivity|].
  rewrite !app_cons_string. now rewrite IH.
Qed.

Lemma substring_all s : String.substring 0 (String.length s) s = s.
Proof. induction s as [|c s IH]; simpl; [reflexivity | now rewrite IH]. Qed.

Lemma substring_app_head a b : String.substring 0 (String.length a) (a +:+ b) = a.
Proof.
  induction a as [|c a IH].
  - now destruct b.
  - rewrite app_cons_string. simpl. now rewrite IH.
Qed.

Lemma substring_app_tail a b n :
  String.substring (String.length a) n (a +:+ b) = String.substring 0 n b.
Proof.
  induction a as [|c a IH]; [reflexivity|].
  rewrite app_cons_string. exact IH.
Qed.

Lemma slice_from_app a b : slice_from (a +:+ b) (String.length a) = b.
Proof.
  unfold slice_from. rewrite substring_app_tail, length_app.
  replace (String.length a + String.length b - String.length a) with (String.length b) by lia.
  apply substring_all.
Qed.

Lemma slice_drop_end_app a b : slice_drop_end (a +:+ b) (String.length b) = a.
Proof.
  unfold slice_drop_end. rewrite length_app.
  replace (String.length a + String.length b - String.length b) with (String.length a) by lia.
  apply substring_app_head.
Qed.

Lemma endsWith_app a b : endsWith (a +:+ b) b = true.
Proof.
  unfold endsWith. rewrite length_app.
  replace (String.length a + String.length b - String.length b) with (String.length a) by lia.
  rewrite slice_from_app, String.eqb_refl, andb_true_r.
  apply Nat.leb_le. lia.
Qed.

(** A text ending in [b] does not end in a different text of the same
    length. *)
Lemma endsWith_app_other a b s :
  String.length s = String.length b -> s <> b -> endsWith (a +:+ b) s = false.
Proof.
  intros Hlen Hne. unfold endsWith. rewrite length_app, Hlen.
  replace (String.length a + String.length b - String.length b) with (String.length a) by lia.
  rewrite slice_from_app.
  apply andb_false_iff. right. apply String.eqb_neq. congruence.
Qed.



End StringFacts.

(** ** Queue naming *)

(** C9. For every queue name [n]: [n_error] is an error queue whose
    source queue is [n]; [n_skipped] is a skipped queue whose source queue
    is [n]; and a name with neither suffix is its own source queue. *)
Theorem queue_suffix_laws (n : string) :
  isErrorQueue (n +:+ "_error") = true
  /\ getSourceQueue (n +:+ "_error") = n
  /\ isSkippedQueue (n +:+ "_skipped") = true
  /\ getSourceQueue (n +:+ "_skipped") = n
  /\ (isErrorQueue n = false -> isSkippedQueue n = false -> getSourceQueue n = n).
Proof.
  unfold isErrorQueue, isSkippedQueue, getSourceQueue, ERROR_SUFFIX, SKIPPED_SUFFIX.
  repeat split.
  - apply endsWith_app.
  - rewrite endsWith_app. apply (slice_drop_end_app n "_error").
  - apply endsWith_app.
  - replace (n +:+ "_skipped") with ((n +:+ "_s") +:+ "kipped")
      by (now rewrite app_assoc_string).
    rewrite (endsWith_app_other (n +:+ "_s") "kipped" "_error") by (reflexivity || discriminate).
    rewrite app_assoc_string. change ("_s" +:+ "kipped") with "_skipped".
    rewrite endsWith_app. apply (slice_drop_end_app n "_skipped").
  - intros -> ->. reflexivity.
Qed.

Lemma queue_suffix_laws_witness :
  isErrorQueue "orders" = false /\ isSkippedQueue "orders" = false
  /\ getSourceQueue "orders" = "orders"
  /\ getSourceQueue "orders_error" = "orders"
  /\ getSourceQueue "orders_skipped" = "orders".
Proof.
  split; [reflexivity|]. split; [reflexivity|].
  split; [| split].
  - apply (proj2 (proj2 (proj2 (proj2 (queue_suffix_laws "orders"))))); reflexivity.
  - exact (proj1 (proj2 (queue_suffix_laws "orders"))).
  - exact (proj1 (proj2 (proj2 (proj2 (queue_suffix_laws "orders"))))).
Defined.

(** ** Envelope recognition *)

Lemma lookup_member_hasMember k ms v :
  lookup_member k ms = Some v -> hasMember k ms = true.
Proof. unfold hasMember. now intros ->. Qed.

Lemma truthy_opt_get_member v k :
  truthy_opt (get v k) = true -> exists ms, v = JObj ms /\ hasMember k ms = true.
Proof.
  destruct v as [| | | | |ms]; simpl; try discriminate.
  destruct (lookup_member k ms) as [x|] eqn:E; [|discriminate].
  intros _. exists ms. split; [reflexivity|].
  now apply lookup_member_hasMember with x.
Qed.

(** C8. A payload that is not JSON yields no envelope; an envelope is
    always a JSON object holding one of the keys [messageType],
    [messageId], [message]; and valid JSON without any of the three keys
    yields no envelope. *)
Theorem parseEnvelope_recognition (payload : string) :
  (JSON.parse payload = None -> parseEnvelope payload = None)
  /\ (forall envelope, parseEnvelope payload = Some envelope ->
        exists members,
          JSON.parse payload = Some (JObj members)
          /\ envelope = JObj members
          /\ (hasMember "messageType" members = true
              \/ hasMember "messageId" members = true
              \/ hasMember "message" members = true))
  /\ (forall parsed, JSON.parse payload = Some parsed ->
        get parsed "messageType" = None ->
        get parsed "messageId" = None ->
        get parsed "message" = None ->
        parseEnvelope payload = None).
Proof.
  unfold parseEnvelope. repeat split.
  - now intros ->.
  - intros envelope H.
    destruct (JSON.parse payload) as [parsed|]; [|discriminate].
    destruct (truthy parsed); [|discriminate]. rewrite andb_true_l in H.
    destruct (truthy_opt (get parsed "messageType")) eqn:E1.
    { destruct (truthy_opt_get_member _ _ E1) as (ms & -> & Hm).
      injection H as <-. exists ms. auto. }
    destruct (truthy_opt (get parsed "messageId")) eqn:E2.
    { destruct (truthy_opt_get_member _ _ E2) as (ms & -> & Hm).
      injection H as <-. exists ms. auto. }
    destruct (truthy_opt (get parsed "message")) eqn:E3; [|discriminate].
    destruct (truthy_opt_get_member _ _ E3) as (ms & -> & Hm).
    injection H as <-. exists ms. auto.
  - intros parsed -> -> -> ->. simpl. now rewrite andb_false_r.
Qed.

Lemma parseEnvelope_recognition_witness :
  parseEnvelope "not json" = None
  /\ (exists members,
        JSON.parse (qq "{'messageId':'42'}") = Some (JObj members)
        /\ (hasMember "messageType" members = true
            \/ hasMember "messageId" members = true
            \/ hasMember "message" members = true))
  /\ parseEnvelope (qq "{'orderId':7,'items':['a','b']}") = None.
Proof.
  split; [| split].
  - apply (proj1 (parseEnvelope_recognition "not json")). reflexivity.
  - destruct (proj1 (proj2 (parseEnvelope_recognition (qq "{'messageId':'42'}")))
                (JObj [("messageId", JStr "42")]) eq_refl) as (ms & Hp & _ & Hk).
    exists ms. split; assumption.
  - apply (proj2 (proj2 (parseEnvelope_recognition (qq "{'orderId':7,'items':['a','b']}")))
             (JObj [("orderId", JNum 7 0); ("items", JArr [JStr "a"; JStr "b"])]));
      reflexivity.
Defined.

(** C10. A marker key with a falsy value does not make an envelope: the
    payloads [{"messageId":""}] and [{"message":null}] are valid JSON
    objects that hold a marker key, and [parseEnvelope] returns [null] for
    both.  What is tested is the truthiness of the three fields. *)
Theorem parseEnvelope_falsy_markers :
  JSON.parse (qq "{'messageId':''}") = Some (JObj [("messageId", JStr "")])
  /\ parseEnvelope (qq "{'messageId':''}") = None
  /\ JSON.parse (qq "{'message':null}") = Some (JObj [("message", JNull)])
  /\ parseEnvelope (qq "{'message':null}") = None
  /\ (forall payload parsed,
        JSON.parse payload = Some parsed ->
        truthy_opt (get parsed "messageType") = false ->
        truthy_opt (get parsed "messageId") = false ->
        truthy_opt (get parsed "message") = false ->
        parseEnvelope payload = None).
Proof.
  repeat split; try reflexivity.
  intros payload parsed Hp H1 H2 H3. unfold parseEnvelope.
  rewrite Hp, H1, H2, H3. now rewrite andb_false_r.
Qed.

Lemma parseEnvelope_falsy_markers_witness :
  parseEnvelope (qq "{'messageType':[],'messageId':7,'message':{}}") <> None
  /\ parseEnvelope (qq "{'messageType':0,'messageId':'','message':false}") = None.
Proof.
  split; [discriminate|].
  apply (proj2 (proj2 (proj2 (proj2 parseEnvelope_falsy_markers)))
           (qq "{'messageType':0,'messageId':'','message':false}")
           (JObj [("messageType", JNum 0 0); ("messageId", JStr ""); ("message", JBool false)]));
    reflexivity.
Defined.

(** ** The header scenario *)

(** C6. The message with the four fault headers and the order-placed
    envelope is rendered with the lines for reason, exception, retry
    count and message type, the message type being the decoded URN of the
    envelope, and with the original payload block. *)
Theorem header_fault_scenario :
  faultHeaders !! "MT-Fault-MessageType" = None
  /\ getMessageTypeName "urn:message:App:OrderPlaced" = "App.OrderPlaced"
  /\ formatFaultMessage orderPlacedFault 0 =
     Normal (join nl [
       "Message 1:";
       "  Faulted: unknown";
       "  Reason: fault";
       "  Message Type: App.OrderPlaced";
       "  Exception: System.InvalidOperationException - " +:+ qq "'bad state'";
       "  Retry Count: 3";
       "  Original Payload: {";
       "  " +:+ qq "'id': 1";
       "}";
       "  Source Host: unknown / unknown (PID ?)" ]).
Proof. repeat split; vm_compute; reflexivity. Qed.

(** ** The shape of a rendered fault *)

Lemma bind_Normal_inv {A B} (c : Completion A) (k : A -> Completion B) (b : B) :
  c ≫= k = Normal b -> exists a, c = Normal a /\ k a = Normal b.
Proof. destruct c as [a|e]; simpl; [eauto | discriminate]. Qed.

Lemma pushIf_inv cond text lines lines' :
  pushIf cond text lines = Normal lines' ->
  exists extra, pushIf cond text [] = Normal extra /\ lines' = lines ++ extra.
Proof.
  unfold pushIf. destruct cond.
  - intros H. apply bind_Normal_inv in H as (t & -> & H). injection H as <-.
    exists [t]. split; reflexivity.
  - intros H. injection H as <-. exists []. split; [reflexivity | now rewrite app_nil_r].
Qed.

Lemma pushTruthy_inv o text lines lines' :
  pushTruthy o text lines = Normal lines' ->
  exists extra, pushTruthy o text [] = Normal extra /\ lines' = lines ++ extra.
Proof.
  unfold pushTruthy. destruct o as [v|].
  - apply pushIf_inv.
  - intros H. injection H as <-. exists []. split; [reflexivity | now rewrite app_nil_r].
Qed.


Lemma pushTruthy_present o text v t :
  o = Some v -> truthy v = true -> text v = Normal t ->
  pushTruthy o text [] = Normal [t].
Proof. intros -> Ht Hv. unfold pushTruthy, pushIf. now rewrite Ht, Hv. Qed.

Ltac bind_step H x Hx :=
  apply bind_Normal_inv in H as (x & Hx & H); cbv beta zeta in H.


Lemma formatBodyFault_lines limit bf env i text :
  formatBodyFault limit bf env i = Normal text ->
  exists faulted original typeNames t m hostInfo l1 l2,
    orDefault (timestamp bf) "unknown" = Normal faulted
    /\ orDefault (faultedMessageId bf) "unknown" = Normal original
    /\ hostSummary (host bf) = Normal hostInfo
    /\ pushTruthy (get_opt (firstException (exceptions bf)) "stackTrace")
         (stackTraceBlock limit) [] = Normal l1
    /\ pushTruthy (message bf) originalPayloadLine [] = Normal l2
    /\ text = join nl
         (["Message " +:+ ofNat (i + 1) +:+ ":";
           "  Faulted: " +:+ faulted;
           "  Original MessageId: " +:+ original;
           "  Message Type: " +:+ joinedOrUnknown typeNames;
           "  Exception: " +:+ t +:+ " - " +:+ dquote +:+ m +:+ dquote]
          ++ l1 ++ l2 ++ ["  Source Host: " +:+ hostInfo]).
Proof.
  unfold formatBodyFault. intros H. cbv zeta in H.
  bind_step H typeNames Htypes. bind_step H hostInfo Hhost.
  bind_step H faulted Hfaulted. bind_step H original Horig.
  bind_step H t Ht. bind_step H m Hm.
  bind_step H lines1 H1. apply pushTruthy_inv in H1 as (l1 & Hl1 & ->).
  bind_step H lines2 H2. apply pushTruthy_inv in H2 as (l2 & Hl2 & ->).
  injection H as <-.
  exists faulted, original, typeNames, t, m, hostInfo, l1, l2.
  repeat (split; [assumption|]).
  f_equal. now rewrite <- !app_assoc.
Qed.

Lemma rendersLine_In lines line :
  In line lines -> rendersLine (join nl lines) line.
Proof.
  intros H. apply in_split in H as (before & after & ->).
  now exists before, after.
Qed.

Ltac line_is_rendered :=
  apply rendersLine_In; rewrite ?in_app_iff; simpl; tauto.

(** ** Precedence of the two fault encodings *)


(** The branch [formatFaultMessage] takes, by what the two extractions
    return. *)
Lemma header_fault_selected :
  (forall msg index hf,
      parseFaultFromHeaders (default ∅ (headers (properties msg))) = Some hf ->
      formatFaultMessage msg index
      = formatHeaderFault hf (parseEnvelope (payload msg)) index
      /\ forall other,
           renderFirst (Some hf) other (parseEnvelope (payload msg)) msg index
           = formatHeaderFault hf (parseEnvelope (payload msg)) index)
  /\ (forall msg index bf,
        parseFaultFromHeaders (default ∅ (headers (properties msg))) = None ->
        parseFault (payload msg) = Some bf ->
        formatFaultMessage msg index
        = formatBodyFault 8 bf (parseEnvelope (payload msg)) index).
Proof.
  split.
  - intros msg index hf Hh. unfold formatFaultMessage. rewrite Hh. now split.
  - intros msg index bf Hh Hb. unfold formatFaultMessage. now rewrite Hh, Hb.
Qed.

Lemma bind_Normal {A B} (a : A) (k : A -> Completion B) : Normal a ≫= k = k a.
Proof. reflexivity. Qed.

Lemma parseFaultFromHeaders_record h hf :
  parseFaultFromHeaders h = Some hf ->
  hf = {| faultId := None;
          faultedMessageId := None;
          timestamp := h !! "MT-Fault-Timestamp";
          consumerType := h !! "MT-Fault-ConsumerType";
          inputAddress := h !! "MT-Fault-InputAddress";
          messageType := h !! "MT-Fault-MessageType";
          retryCount := h !! "MT-Fault-RetryCount";
          reason := h !! "MT-Reason";
          exceptions :=
            if truthy_opt (h !! "MT-Fault-ExceptionType") then
              Some (JArr [object_literal [
                ("exceptionType", h !! "MT-Fault-ExceptionType");
                ("message", h !! "MT-Fault-Message");
                ("stackTrace", h !! "MT-Fault-StackTrace")]])
            else None;
          message := None;
          host := Some (object_literal [
            ("machineName", h !! "MT-Host-MachineName");
            ("processName", h !! "MT-Host-ProcessName");
            ("processId", h !! "MT-Host-ProcessId");
            ("assembly", h !! "MT-Host-Assembly");
            ("assemblyVersion", h !! "MT-Host-AssemblyVersion");
            ("frameworkVersion", h !! "MT-Host-FrameworkVersion");
            ("massTransitVersion", h !! "MT-Host-MassTransitVersion");
            ("operatingSystemVersion", h !! "MT-Host-OperatingSystemVersion")]) |}.
Proof.
  unfold parseFaultFromHeaders.
  destruct (negb (truthy_opt (h !! "MT-Reason"))
            && negb (truthy_opt (h !! "MT-Fault-ExceptionType"))); [discriminate|].
  now intros [= <-].
Qed.

Lemma mapTypeNames_strings urns :
  mapTypeNames (JArr (map JStr urns)) = Normal (map getMessageTypeName urns).
Proof.
  unfold mapTypeNames. induction urns as [|u urns IH]; [reflexivity|].
  simpl in *. now rewrite IH.
Qed.















(** The message with both encodings is rendered from its header; the
    exception and the message id of the fault wrapper show up only inside
    the payload block. *)
Example doublyFaulted_rendering :
  formatFaultMessage doublyFaulted 0 =
  Normal (join nl [
    "Message 1:";
    "  Faulted: unknown";
    "  Reason: fault";
    "  Message Type: MassTransit.Fault";
    "  Original Payload: {";
    "  " +:+ qq "'faultedMessageId': 'm-17',";
    "  " +:+ qq "'exceptions': [";
    "    {";
    "      " +:+ qq "'exceptionType': 'System.TimeoutException',";
    "      " +:+ qq "'message': 'too slow'";
    "    }";
    "  ]";
    "}";
    "  Source Host: unknown / unknown (PID ?)" ]).
Proof. vm_compute. reflexivity. Qed.


(** The revision without the header strategy never looks at the
    headers. *)
Lemma body_only_ignores_headers (msg : PeekedMessage) (h : option (gmap string value))
    (index : nat) :
  BodyOnly.formatFaultMessage msg index
  = BodyOnly.formatFaultMessage
      {| payload := payload msg; exchange := exchange msg;
         routing_key := routing_key msg;
         properties := {| headers := h;
                          content_type := content_type (properties msg);
                          message_id := message_id (properties msg);
                          correlation_id := correlation_id (properties msg) |} |}
      index.
Proof. reflexivity. Qed.

(** ** Truncation limits *)











(** The revision without the header strategy keeps the first 5 stack
    lines of a body fault, which is within the limit of 8. *)
Lemma body_only_stack_limit msg index bf text s :
  parseFault (payload msg) = Some bf ->
  BodyOnly.formatFaultMessage msg index = Normal text ->
  get_opt (firstException (exceptions bf)) "stackTrace" = Some (JStr s) ->
  s <> "" ->
  rendersLine text (stackTraceText 5 s)
  /\ length (stackLines 5 s) = Nat.min 5 (length (split "010" s))
  /\ length (stackLines 5 s) <= 8.
Proof.
  intros Hb Ht Hs Hne. unfold BodyOnly.formatFaultMessage in Ht. rewrite Hb in Ht.
  apply formatBodyFault_lines in Ht
    as (faulted & original & typeNames & t & m & hostInfo & l1 & l2
        & _ & _ & _ & H1 & _ & ->).
  rewrite (pushTruthy_present _ _ (JStr s) (stackTraceText 5 s)) in H1;
    [| assumption | simpl; now apply negb_true_iff, String.eqb_neq | reflexivity].
  injection H1 as <-. split; [line_is_rendered|].
  unfold stackLines. rewrite length_firstn. split; [reflexivity | lia].
Qed.


(** ** Running the client and the commit loop *)

Section Runs.
Context `{Platform}.
Variables (config : RabbitMQConfig) (queue : string) (vh : option string).

Lemma postGet_run path body (s : Sys) :
  postGet path body s
  = ((post_messages path body (world s)).1,
     {| world := (post_messages path body (world s)).2;
        trace := trace s ++ [PostGet path body] |}).
Proof. unfold postGet. now destruct (post_messages path body (world s)). Qed.

Lemma postPublish_run path body (s : Sys) :
  postPublish path body s
  = ((post_publish path body (world s)).1,
     {| world := (post_publish path body (world s)).2;
        trace := trace s ++ [PostPublish path body] |}).
Proof. unfold postPublish. now destruct (post_publish path body (world s)). Qed.

Lemma io_bind_run {A B} (m : IO A) (k : A -> IO B) (s : Sys) :
  (m ≫= k) s
  = match m s with
    | (Normal a, s') => k a s'
    | (Throw e, s') => (Throw e, s')
    end.
Proof. reflexivity. Qed.

(** One message either throws before any request, when its destination
    cannot be resolved, or posts exactly one publish. *)
Lemma republishOne_run msg (s : Sys) :
  republishOne config queue vh msg s
  = match resolveDestination queue (parseEnvelope (payload msg)) with
    | Normal dest =>
        publishMessage config dest.1 dest.2 (payload msg) (republishProperties msg) vh s
    | Throw e => (Throw e, s)
    end.
Proof.
  unfold republishOne. rewrite io_bind_run. unfold liftC.
  now destruct (resolveDestination queue (parseEnvelope (payload msg))).
Qed.

Lemma republishOne_trace msg (s : Sys) :
  exists added,
    trace (republishOne config queue vh msg s).2 = trace s ++ added
    /\ Forall isPublish added.
Proof.
  rewrite republishOne_run.
  destruct (resolveDestination queue (parseEnvelope (payload msg))) as [dest|e].
  - unfold publishMessage. rewrite postPublish_run. simpl.
    eexists. split; [reflexivity|]. repeat constructor.
  - exists []. simpl. rewrite app_nil_r. split; [reflexivity | constructor].
Qed.

Lemma republishLoop_cons msg rest n errs (s : Sys) :
  republishLoop config queue vh (msg :: rest) n errs s
  = match republishOne config queue vh msg s with
    | (Normal _, s') => republishLoop config queue vh rest (n + 1) errs s'
    | (Throw errMsg, s') =>
        republishLoop config queue vh rest n
          (errs ++ ["Message " +:+ ofNat (n + 1) +:+ ": " +:+ errMsg]) s'
    end.
Proof. reflexivity. Qed.

(** The loop always completes: every message adds one to the count or one
    entry to the errors, and it posts publishes only. *)
Lemma republishLoop_total messages : forall n errs (s : Sys),
  exists k extra s' added,
    republishLoop config queue vh messages n errs s = (Normal (n + k, errs ++ extra), s')
    /\ k + length extra = length messages
    /\ trace s' = trace s ++ added
    /\ Forall isPublish added.
Proof.
  induction messages as [|msg rest IH]; intros n errs s.
  - exists 0, [], s, []. simpl. rewrite Nat.add_0_r, !app_nil_r.
    repeat split. constructor.
  - rewrite republishLoop_cons.
    destruct (republishOne_trace msg s) as (added1 & Htr1 & Hpub1).
    destruct (republishOne config queue vh msg s) as [[ok|e] s1]; simpl in Htr1.
    + destruct (IH (n + 1) errs s1) as (k & extra & s' & added & -> & Hlen & Htr & Hpub).
      exists (1 + k), extra, s', (added1 ++ added).
      rewrite Htr, Htr1, <- app_assoc.
      replace (n + (1 + k)) with (n + 1 + k) by lia.
      repeat split; [simpl; lia | now apply Forall_app].
    + destruct (IH n (errs ++ ["Message " +:+ ofNat (n + 1) +:+ ": " +:+ e]) s1)
        as (k & extra & s' & added & -> & Hlen & Htr & Hpub).
      exists k, (("Message " +:+ ofNat (n + 1) +:+ ": " +:+ e) :: extra), s', (added1 ++ added).
      rewrite Htr, Htr1, <- !app_assoc.
      repeat split; [simpl; lia | now apply Forall_app].
Qed.

End Runs.

(** ** The commit phase *)

(** What the handler does once the destructive read has returned a
    non-empty batch. *)
Lemma republish_commit_run `{Platform} config args (s : Sys) messages :
  confirm args = Some true ->
  (post_messages (readPath config args) (readBody args "ack_requeue_false") (world s)).1
  = Normal messages ->
  messages <> [] ->
  let s1 := {| world := (post_messages (readPath config args)
                           (readBody args "ack_requeue_false") (world s)).2;
               trace := trace s ++ [PostGet (readPath config args)
                                      (readBody args "ack_requeue_false")] |} in
  republish_from_error config args s
  = let '(r, s') := republishLoop config (errorQueue args) (vhost args) messages 0 [] s1 in
    (match r with
     | Normal result => Normal (outcomeText result.1 (length messages) (errorQueue args) result.2)
     | Throw e => Throw e
     end, s').
Proof.
  intros Hc Hm Hne s1. unfold republish_from_error. rewrite Hc.
  change (negb (default false (Some true))) with false. cbv iota.
  change (consumeMessages config (errorQueue args) (Some (default 1%Z (count args)))
            (vhost args))
    with (postGet (readPath config args) (readBody args "ack_requeue_false")).
  rewrite io_bind_run, postGet_run, Hm. fold s1.
  destruct messages as [|m ms]; [congruence|].
  change (length (m :: ms) =? 0) with false. cbv iota.
  rewrite io_bind_run.
  destruct (republishLoop config (errorQueue args) (vhost args) (m :: ms) 0 [] s1)
    as [[result|e] s']; reflexivity.
Qed.

(** C5. The commit loop never aborts: each consumed message either
    adds one to the count of republished messages or one string to the
    error list, and the messages after a failure are still processed.  A
    throw inside the [try] block, a failed publish among them, becomes the
    entry of that message.  For two consumed messages of which exactly one
    fails, the outcome reports 1 out of 2 and one error entry. *)
Theorem commit_reports_partial_success :
  (forall `{Platform} config errorQueue vhost messages (s : Sys),
      exists succeeded errors s',
        republishLoop config errorQueue vhost messages 0 [] s
        = (Normal (succeeded, errors), s')
        /\ succeeded + length errors = length messages)
  /\ (forall `{Platform} config errorQueue vhost msg rest n errs (s s' : Sys) e,
        republishOne config errorQueue vhost msg s = (Throw e, s') ->
        republishLoop config errorQueue vhost (msg :: rest) n errs s
        = republishLoop config errorQueue vhost rest n
            (errs ++ ["Message " +:+ ofNat (n + 1) +:+ ": " +:+ e]) s')
  /\ (forall `{Platform} config errorQueue vhost msg (s : Sys) dest e,
        resolveDestination errorQueue (parseEnvelope (payload msg)) = Normal dest ->
        (publishMessage config dest.1 dest.2 (payload msg)
           (republishProperties msg) vhost s).1 = Throw e ->
        (republishOne config errorQueue vhost msg s).1 = Throw e)
  /\ (forall `{Platform} config args (s : Sys) m1 m2,
        confirm args = Some true ->
        (post_messages (readPath config args) (readBody args "ack_requeue_false")
           (world s)).1 = Normal [m1; m2] ->
        let s1 := {| world := (post_messages (readPath config args)
                                 (readBody args "ack_requeue_false") (world s)).2;
                     trace := trace s ++ [PostGet (readPath config args)
                                            (readBody args "ack_requeue_false")] |} in
        (forall ok (s2 s3 : Sys) e,
            republishOne config (errorQueue args) (vhost args) m1 s1 = (Normal ok, s2) ->
            republishOne config (errorQueue args) (vhost args) m2 s2 = (Throw e, s3) ->
            republish_from_error config args s
            = (Normal (outcomeText 1 2 (errorQueue args) ["Message 2: " +:+ e]), s3))
        /\ (forall ok (s2 s3 : Sys) e,
              republishOne config (errorQueue args) (vhost args) m1 s1 = (Throw e, s2) ->
              republishOne config (errorQueue args) (vhost args) m2 s2 = (Normal ok, s3) ->
              republish_from_error config args s
              = (Normal (outcomeText 1 2 (errorQueue args) ["Message 1: " +:+ e]), s3)))
  /\ (forall errorQueue entry,
        outcomeText 1 2 errorQueue [entry]
        = join nl ["Republished 1/2 message(s) from " +:+ dquote +:+ errorQueue
                   +:+ dquote +:+ ".";
                   "";
                   "Errors:";
                   entry]).
Proof.
  repeat apply conj.
  - intros P config errorQueue vhost messages s.
    destruct (republishLoop_total config errorQueue vhost messages 0 [] s)
      as (k & extra & s' & added & Hrun & Hlen & _).
    exists k, extra, s'. split; [exact Hrun | exact Hlen].
  - intros P config errorQueue vhost msg rest n errs s s' e Hone.
    rewrite republishLoop_cons. now rewrite Hone.
  - intros P config errorQueue vhost msg s dest e Hdest Hpub.
    rewrite republishOne_run. now rewrite Hdest.
  - intros P config args s m1 m2 Hc Hm s1. split.
    + intros ok s2 s3 e H1 H2.
      rewrite (republish_commit_run config args s [m1; m2] Hc Hm) by discriminate.
      fold s1. rewrite republishLoop_cons, H1, republishLoop_cons, H2. reflexivity.
    + intros ok s2 s3 e H1 H2.
      rewrite (republish_commit_run config args s [m1; m2] Hc Hm) by discriminate.
      fold s1. rewrite republishLoop_cons, H1, republishLoop_cons, H2. reflexivity.
  - reflexivity.
Qed.

Lemma commit_reports_partial_success_witness :
  exists s3,
    @republish_from_error modelPlatform rootConfig (ordersArgs (Some 2%Z) (Some true))
      (startOn ordersBroker)
    = (Normal (outcomeText 1 2 "orders_error" ["Message 2: " +:+ notFound]), s3)
    /\ queues (world s3) !! ordersErrorPath = Some []
    /\ length (published (world s3)) = 1.
Proof.
  pose proof (proj1 (proj2 (proj2 (proj2 commit_reports_partial_success)))) as Hpair.
  specialize (Hpair modelPlatform rootConfig (ordersArgs (Some 2%Z) (Some true))
                (startOn ordersBroker) withDestination withoutDestination eq_refl).
  destruct Hpair as [Hfirst _]; [vm_compute; reflexivity|].
  eexists. split.
  - eapply Hfirst; vm_compute; reflexivity.
  - split; vm_compute; reflexivity.
Defined.

(** ** Destination of a republished message *)

Lemma last_nonempty_segment (parts before after : list string) (seg : string) :
  parts = before ++ seg :: after ->
  seg <> "" ->
  Forall (fun part => part = "") after ->
  last (List.filter (fun part => negb (String.eqb part "")) parts) = Some seg.
Proof.
  intros -> Hseg Hafter.
  rewrite List.filter_app. simpl.
  apply String.eqb_neq in Hseg. rewrite Hseg. simpl.
  replace (List.filter (fun part => negb (String.eqb part "")) after) with (@nil string).
  - apply last_snoc.
  - induction Hafter as [|x after -> _ IH]; [reflexivity | exact IH].
Qed.

Lemma get_opt_Some env k v : get env k = Some v -> get_opt (Some env) k = Some v.
Proof. destruct env; simpl; try discriminate. auto. Qed.

Lemma resolveDestination_last_segment `{Platform} errorQueue payload env d pathname
    before seg after :
  parseEnvelope payload = Some env ->
  get env "destinationAddress" = Some (JStr d) ->
  d <> "" ->
  URL_pathname d = Some pathname ->
  split "/" pathname = before ++ seg :: after ->
  seg <> "" ->
  Forall (fun part => part = "") after ->
  resolveDestination errorQueue (parseEnvelope payload) = Normal (seg, seg).
Proof.
  intros Henv Hd Hne Hurl Hsplit Hseg Hafter.
  rewrite Henv. unfold resolveDestination, MassTransitEnvelope in *.
  rewrite (get_opt_Some _ _ _ Hd). simpl truthy.
  apply String.eqb_neq in Hne. rewrite Hne. simpl negb. cbv iota.
  simpl toJSString. change (Normal d ≫= ?k) with (k d). cbv beta.
  rewrite Hurl. unfold pathPartsOf.
  now rewrite (last_nonempty_segment _ _ _ _ Hsplit Hseg Hafter).
Qed.

(** C3. A consumed message whose envelope has a destination address that
    parses as a URL is published to the exchange named by the last
    non-empty segment of the URL's path, with that name as routing key; a
    message without a destination address is published to the source
    queue of the error queue, exchange and routing key alike. *)
Theorem destination_resolution :
  (forall `{Platform} errorQueue payload env d pathname before seg after,
      parseEnvelope payload = Some env ->
      get env "destinationAddress" = Some (JStr d) ->
      d <> "" ->
      URL_pathname d = Some pathname ->
      split "/" pathname = before ++ seg :: after ->
      seg <> "" ->
      Forall (fun part => part = "") after ->
      resolveDestination errorQueue (parseEnvelope payload) = Normal (seg, seg))
  /\ (forall `{Platform} errorQueue payload,
        truthy_opt (get_opt (parseEnvelope payload) "destinationAddress") = false ->
        resolveDestination errorQueue (parseEnvelope payload)
        = Normal (getSourceQueue errorQueue, getSourceQueue errorQueue))
  /\ (forall `{Platform} config errorQueue vhost msg (s : Sys) targetExchange routingKey,
        resolveDestination errorQueue (parseEnvelope (payload msg))
        = Normal (targetExchange, routingKey) ->
        trace (republishOne config errorQueue vhost msg s).2
        = trace s ++ [
            PostPublish
              ("/exchanges/" +:+ encodeVhost config vhost +:+ "/"
               +:+ encodeURIComponent targetExchange +:+ "/publish")
              {| body_routing_key := routingKey;
                 body_payload := payload msg;
                 body_payload_encoding := "string";
                 body_properties :=
                   {| publish_delivery_mode := 2;
                      publish_content_type :=
                        Some (default "application/vnd.masstransit+json"
                                (content_type (properties msg)));
                      publish_headers := headers (properties msg);
                      publish_message_id := message_id (properties msg);
                      publish_correlation_id := None |} |} ])
  /\ (forall `{Platform},
        URL_pathname "proto://host/vhost/orders-exchange" = Some "/vhost/orders-exchange" ->
        resolveDestination "orders_error" (parseEnvelope (payload withDestination))
        = Normal ("orders-exchange", "orders-exchange"))
  /\ (forall `{Platform},
        resolveDestination "orders_error" (parseEnvelope (payload withoutDestination))
        = Normal ("orders", "orders")).
Proof.
  repeat apply conj.
  - intros P. apply resolveDestination_last_segment.
  - intros P errorQueue payload Hfalsy. unfold resolveDestination.
    destruct (get_opt (parseEnvelope payload) "destinationAddress") as [d|]; [|reflexivity].
    simpl in Hfalsy. now rewrite Hfalsy.
  - intros P config errorQueue vhost msg s targetExchange routingKey Hdest.
    rewrite republishOne_run, Hdest. unfold publishMessage.
    rewrite postPublish_run. reflexivity.
  - intros P Hurl.
    apply (resolveDestination_last_segment "orders_error" (payload withDestination)
             (JObj [("messageId", JStr "1");
                    ("destinationAddress", JStr "proto://host/vhost/orders-exchange");
                    ("message", JObj [("id", JNum 1 0)])])
             "proto://host/vhost/orders-exchange" "/vhost/orders-exchange"
             [""; "vhost"] "orders-exchange" []);
      try reflexivity; try discriminate; [exact Hurl | constructor].
  - intros P. reflexivity.
Qed.

Lemma destination_resolution_witness :
  @resolveDestination modelPlatform "orders_error" (parseEnvelope (payload withDestination))
  = Normal ("orders-exchange", "orders-exchange")
  /\ @resolveDestination modelPlatform "orders_skipped"
       (parseEnvelope (qq "{'messageId':'9','destinationAddress':null}"))
     = Normal ("orders", "orders")
  /\ trace (@republishOne modelPlatform rootConfig "orders_error" None withDestination
              (startOn ordersBroker)).2
     = [PostPublish "/exchanges/%2F/orders-exchange/publish"
          {| body_routing_key := "orders-exchange";
             body_payload := payload withDestination;
             body_payload_encoding := "string";
             body_properties :=
               {| publish_delivery_mode := 2;
                  publish_content_type := Some "application/vnd.masstransit+json";
                  publish_headers := None;
                  publish_message_id := None;
                  publish_correlation_id := None |} |}].
Proof.
  pose proof destination_resolution as (Hlast & Hnone & Hpublish & Hscenario & _).
  assert (Hdest : @resolveDestination modelPlatform "orders_error"
                    (parseEnvelope (payload withDestination))
                  = Normal ("orders-exchange", "orders-exchange")).
  { apply (Hlast modelPlatform "orders_error" (payload withDestination)
             (JObj [("messageId", JStr "1");
                    ("destinationAddress", JStr "proto://host/vhost/orders-exchange");
                    ("message", JObj [("id", JNum 1 0)])])
             "proto://host/vhost/orders-exchange" "/vhost/orders-exchange"
             [""; "vhost"] "orders-exchange" []);
      try (vm_compute; reflexivity); try discriminate. constructor. }
  split; [exact Hdest|]. split.
  - apply (Hnone modelPlatform). vm_compute. reflexivity.
  - apply (Hpublish modelPlatform rootConfig "orders_error" None withDestination
             (startOn ordersBroker) _ _ Hdest).
Defined.

(** ** A destination address that is no URL *)

(** The message whose address does not parse is consumed and not
    published anywhere, although the exchange of the source queue exists:
    the only request is the destructive read, and the outcome lists the
    parse error. *)
Lemma malformed_destination_not_republished :
  get_opt (parseEnvelope (payload malformedDestination)) "destinationAddress"
  = Some (JStr "not a uri")
  /\ @URL_pathname modelPlatform "not a uri" = None
  /\ "/exchanges/%2F/orders/publish" ∈ exchanges malformedBroker
  /\ malformedRun.1 = Normal (join nl [
               "Republished 0/1 message(s) from " +:+ qq "'orders_error'" +:+ ".";
               "";
               "Errors:";
               "Message 1: Invalid URL" ])
  /\ trace malformedRun.2
     = [PostGet ordersErrorPath
          (readBody (ordersArgs (Some 1%Z) (Some true)) "ack_requeue_false")]
  /\ ~ (exists path body, In (PostPublish path body) (trace malformedRun.2))
  /\ published (world malformedRun.2) = []
  /\ queues (world malformedRun.2) !! ordersErrorPath = Some [].
Proof.
  assert (Htrace : trace malformedRun.2
                   = [PostGet ordersErrorPath
                        (readBody (ordersArgs (Some 1%Z) (Some true)) "ack_requeue_false")])
    by (vm_compute; reflexivity).
  repeat apply conj; try (vm_compute; reflexivity).
  rewrite Htrace. intros (path & body & [Hin|[]]). discriminate Hin.
Qed.

(** C4, as the code has it. A consumed message whose destination address
    is rejected by the URL parser is not republished: nothing is posted
    for it, the parse error becomes its entry in the error list, and the
    loop goes on with the remaining messages. *)
Theorem malformed_destination_is_an_error `{Platform} config errorQueue vhost
    msg env d rest n errs (s : Sys) :
  parseEnvelope (payload msg) = Some env ->
  get env "destinationAddress" = Some (JStr d) ->
  d <> "" ->
  URL_pathname d = None ->
  republishOne config errorQueue vhost msg s = (Throw "Invalid URL", s)
  /\ republishLoop config errorQueue vhost (msg :: rest) n errs s
     = republishLoop config errorQueue vhost rest n
         (errs ++ ["Message " +:+ ofNat (n + 1) +:+ ": Invalid URL"]) s.
Proof.
  intros Henv Hd Hne Hurl.
  assert (Hone : republishOne config errorQueue vhost msg s = (Throw "Invalid URL", s)).
  { rewrite republishOne_run, Henv. unfold resolveDestination, MassTransitEnvelope in *.
    rewrite (get_opt_Some _ _ _ Hd). simpl truthy.
    apply String.eqb_neq in Hne. rewrite Hne. simpl negb. cbv iota.
    simpl toJSString. change (Normal d ≫= ?k) with (k d). cbv beta.
    now rewrite Hurl. }
  split; [exact Hone|].
  rewrite republishLoop_cons. now rewrite Hone.
Qed.

Lemma malformed_destination_is_an_error_witness :
  @republishOne modelPlatform rootConfig "orders_error" None malformedDestination
    (startOn malformedBroker)
  = (Throw "Invalid URL", startOn malformedBroker)
  /\ (@republishLoop modelPlatform rootConfig "orders_error" None
        [malformedDestination; withoutDestination] 0 [] (startOn malformedBroker)).1
     = Normal (1, ["Message 1: Invalid URL"]).
Proof.
  destruct (@malformed_destination_is_an_error modelPlatform rootConfig "orders_error" None
              malformedDestination
              (JObj [("messageId", JStr "3"); ("destinationAddress", JStr "not a uri");
                     ("message", JObj [("id", JNum 3 0)])])
              "not a uri" [withoutDestination] 0 [] (startOn malformedBroker))
    as [Hone Hloop]; try reflexivity; try discriminate.
  split; [exact Hone|].
  rewrite Hloop. vm_compute. reflexivity.
Defined.

(** ** The preview phase *)

Lemma republish_preview_run `{Platform} config args (s : Sys) :
  confirm args <> Some true ->
  let r := post_messages (readPath config args) (readBody args "ack_requeue_true")
             (world s) in
  republish_from_error config args s
  = (match r.1 with
     | Normal messages =>
         if length messages =? 0 then Normal (emptyQueueText (errorQueue args))
         else
           match previewLines messages 0 with
           | Normal previews =>
               Normal (join nl
                 (("Preview: " +:+ ofNat (length messages) +:+ " message(s) from "
                   +:+ dquote +:+ errorQueue args +:+ dquote
                   +:+ " ready to republish:" +:+ nl)
                  :: previews ++ ["---"; confirmInstruction (length messages)]))
           | Throw e => Throw e
           end
     | Throw e => Throw e
     end,
     {| world := r.2;
        trace := trace s ++ [PostGet (readPath config args)
                               (readBody args "ack_requeue_true")] |}).
Proof.
  intros Hc r. unfold republish_from_error.
  replace (negb (default false (confirm args))) with true
    by (destruct (confirm args) as [[|]|]; [congruence | reflexivity | reflexivity]).
  cbv iota.
  change (peekMessages config (errorQueue args) (Some (default 1%Z (count args)))
            (vhost args) None)
    with (postGet (readPath config args) (readBody args "ack_requeue_true")).
  rewrite io_bind_run, postGet_run. fold r.
  destruct r.1 as [messages|e]; [|reflexivity].
  destruct (length messages =? 0); [reflexivity|].
  rewrite io_bind_run. unfold liftC.
  destruct (previewLines messages 0); reflexivity.
Qed.

Lemma republish_preview_text `{Platform} config args (s : Sys) messages previews :
  confirm args <> Some true ->
  (post_messages (readPath config args) (readBody args "ack_requeue_true") (world s)).1
  = Normal messages ->
  messages <> [] ->
  previewLines messages 0 = Normal previews ->
  (republish_from_error config args s).1
  = Normal (join nl
      (("Preview: " +:+ ofNat (length messages) +:+ " message(s) from "
        +:+ dquote +:+ errorQueue args +:+ dquote +:+ " ready to republish:" +:+ nl)
       :: previews ++ ["---"; confirmInstruction (length messages)])).
Proof.
  intros Hc Hm Hne Hp.
  rewrite (republish_preview_run config args s Hc). cbv zeta.
  unfold fst at 1. rewrite Hm. destruct messages as [|m ms]; [congruence|].
  change (length (m :: ms) =? 0) with false. cbv iota. now rewrite Hp.
Qed.

Lemma republish_commit_trace `{Platform} config args (s : Sys) :
  confirm args = Some true ->
  exists added,
    trace (republish_from_error config args s).2
    = trace s ++ PostGet (readPath config args) (readBody args "ack_requeue_false") :: added
    /\ Forall isPublish added.
Proof.
  intros Hc. unfold republish_from_error. rewrite Hc.
  change (negb (default false (Some true))) with false. cbv iota.
  change (consumeMessages config (errorQueue args) (Some (default 1%Z (count args)))
            (vhost args))
    with (postGet (readPath config args) (readBody args "ack_requeue_false")).
  rewrite io_bind_run, postGet_run.
  destruct (post_messages _ _ _).1 as [messages|e].
  - destruct (length messages =? 0).
    + exists []. simpl. split; [reflexivity | constructor].
    + rewrite io_bind_run.
      match goal with
      | |- context [republishLoop ?c ?q ?v ?m 0 [] ?s1] =>
          destruct (republishLoop_total c q v m 0 [] s1)
            as (k & extra & s' & added & -> & _ & Htr & Hpub)
      end.
      exists added. simpl in *. rewrite Htr, <- app_assoc. split; [reflexivity | exact Hpub].
  - exists []. simpl. split; [reflexivity | constructor].
Qed.

(** On the model broker, a publish never touches a queue. *)
Lemma model_loop_keeps_queues config errorQueue vh messages :
  forall n errs (s : @Sys modelPlatform),
    queues (world (@republishLoop modelPlatform config errorQueue vh messages n errs s).2)
    = queues (world s).
Proof.
  induction messages as [|msg rest IH]; intros n errs s; [reflexivity|].
  rewrite republishLoop_cons.
  assert (Hone : queues (world (@republishOne modelPlatform config errorQueue vh msg s).2)
                 = queues (world s)).
  { rewrite republishOne_run.
    destruct (resolveDestination errorQueue (parseEnvelope (payload msg))); [|reflexivity].
    unfold publishMessage. rewrite postPublish_run. simpl.
    unfold broker_publish. now destruct (decide _). }
  destruct (@republishOne modelPlatform config errorQueue vh msg s) as [[ok|e] s1];
    rewrite IH; exact Hone.
Qed.

(** The preview loop formats each message with [formatFaultMessage] at
    its index and follows each text with an empty line. *)
Lemma previewLines_texts messages : forall (texts : list string) (i : nat),
  length texts = length messages ->
  (forall j msg text,
      messages !! j = Some msg -> texts !! j = Some text ->
      formatFaultMessage msg (i + j) = Normal text) ->
  previewLines messages i = Normal (flat_map (fun text => [text; ""]) texts).
Proof.
  induction messages as [|msg rest IH]; intros [|text texts] i Hlen Hall;
    try discriminate Hlen; [reflexivity|].
  change (previewLines (msg :: rest) i)
    with (t ← formatFaultMessage msg i;
          more ← previewLines rest (S i);
          Normal (t :: "" :: more)).
  pose proof (Hall 0 msg text eq_refl eq_refl) as H0. rewrite Nat.add_0_r in H0.
  rewrite H0, bind_Normal.
  rewrite (IH texts (S i)); [reflexivity | simpl in Hlen; lia |].
  intros j m t Hm Ht. replace (S i + j) with (i + S j) by lia.
  now apply (Hall (S j)).
Qed.

(** C2. Without [confirm = true] the handler posts one request, a read
    with ack mode [ack_requeue_true], so that the broker keeps the
    messages; for a non-empty batch it returns the text of
    [formatFaultMessage] for each message read, in order, followed by the
    instruction to call again with [confirm=true] and, as [count], the
    number of messages it has shown, which is the count it was called
    with only when the queue held that many.  With [confirm = true] its
    first request is the read with ack mode [ack_requeue_false], which
    removes the messages, and no other run posts such a read. *)
Theorem preview_is_non_destructive :
  (forall `{Platform} config args (s : Sys),
      confirm args <> Some true ->
      trace (republish_from_error config args s).2
      = trace s ++ [PostGet (readPath config args) (readBody args "ack_requeue_true")]
      /\ world (republish_from_error config args s).2
         = (post_messages (readPath config args) (readBody args "ack_requeue_true")
              (world s)).2)
  /\ (forall `{Platform} config args (s : Sys) messages previews,
        confirm args <> Some true ->
        (post_messages (readPath config args) (readBody args "ack_requeue_true")
           (world s)).1 = Normal messages ->
        messages <> [] ->
        previewLines messages 0 = Normal previews ->
        (republish_from_error config args s).1
        = Normal (join nl
            (("Preview: " +:+ ofNat (length messages) +:+ " message(s) from "
              +:+ dquote +:+ errorQueue args +:+ dquote +:+ " ready to republish:" +:+ nl)
             :: previews
             ++ ["---";
                 "To republish these messages, call again with confirm=true and count="
                 +:+ ofNat (length messages) +:+ "."])))
  /\ (forall `{Platform} config args (s : Sys),
        confirm args = Some true ->
        exists added,
          trace (republish_from_error config args s).2
          = trace s
            ++ PostGet (readPath config args) (readBody args "ack_requeue_false") :: added
          /\ Forall isPublish added)
  /\ (forall `{Platform} config args (s : Sys) path body,
        trace s = [] ->
        In (PostGet path body) (trace (republish_from_error config args s).2) ->
        body_ackmode body = "ack_requeue_false" ->
        confirm args = Some true)
  /\ (forall config args (b : Broker) tr,
        confirm args <> Some true ->
        world (@republish_from_error modelPlatform config args
                 (@Build_Sys modelPlatform b tr)).2 = b)
  /\ (forall config args (b : Broker) tr msgs,
        confirm args = Some true ->
        queues b !! readPath config args = Some msgs ->
        queues (world (@republish_from_error modelPlatform config args
                         (@Build_Sys modelPlatform b tr)).2) !! readPath config args
        = Some (skipn (Z.to_nat (default 1%Z (count args))) msgs))
  /\ (forall config args (b : Broker) tr msgs previews,
        let n := Z.to_nat (default 1%Z (count args)) in
        confirm args <> Some true ->
        queues b !! readPath config args = Some msgs ->
        1 <= n <= length msgs ->
        previewLines (firstn n msgs) 0 = Normal previews ->
        (@republish_from_error modelPlatform config args (@Build_Sys modelPlatform b tr)).1
        = Normal (join nl
            (("Preview: " +:+ ofNat n +:+ " message(s) from "
              +:+ dquote +:+ errorQueue args +:+ dquote +:+ " ready to republish:" +:+ nl)
             :: previews ++ ["---"; confirmInstruction n])))
  (* the previews are the texts of [formatFaultMessage], in order *)
  /\ (forall `{Platform} config args (s : Sys) messages texts,
      confirm args <> Some true ->
      (post_messages (readPath config args) (readBody args "ack_requeue_true")
         (world s)).1 = Normal messages ->
      messages <> [] ->
      length texts = length messages ->
      (forall i msg text,
          messages !! i = Some msg -> texts !! i = Some text ->
          formatFaultMessage msg i = Normal text) ->
      (republish_from_error config args s).1
      = Normal (join nl
          (("Preview: " +:+ ofNat (length messages) +:+ " message(s) from "
            +:+ dquote +:+ errorQueue args +:+ dquote +:+ " ready to republish:" +:+ nl)
           :: flat_map (fun text => [text; ""]) texts
           ++ ["---";
               "To republish these messages, call again with confirm=true and count="
               +:+ ofNat (length messages) +:+ "."])))
  (* on the model broker the count named is the number of messages shown *)
  /\ (forall config args (b : Broker) tr msgs texts,
        let n := Z.to_nat (default 1%Z (count args)) in
        let shown := firstn n msgs in
        confirm args <> Some true ->
        queues b !! readPath config args = Some msgs ->
        shown <> [] ->
        length texts = length shown ->
        (forall i msg text,
            shown !! i = Some msg -> texts !! i = Some text ->
            formatFaultMessage msg i = Normal text) ->
        (@republish_from_error modelPlatform config args (@Build_Sys modelPlatform b tr)).1
        = Normal (join nl
            (("Preview: " +:+ ofNat (Nat.min n (length msgs)) +:+ " message(s) from "
              +:+ dquote +:+ errorQueue args +:+ dquote +:+ " ready to republish:" +:+ nl)
             :: flat_map (fun text => [text; ""]) texts
             ++ ["---";
                 "To republish these messages, call again with confirm=true and count="
                 +:+ ofNat (Nat.min n (length msgs)) +:+ "."]))).
Proof.
  repeat apply conj.
  - intros P config args s Hc.
    rewrite (republish_preview_run config args s Hc). split; reflexivity.
  - intros P. apply republish_preview_text.
  - intros P. apply republish_commit_trace.
  - intros P config args s path body Hs Hin Hack.
    destruct (confirm args) as [[|]|] eqn:Hc; [reflexivity | exfalso | exfalso];
      rewrite (republish_preview_run config args s) in Hin by congruence;
      simpl in Hin; rewrite Hs in Hin;
      destruct Hin as [Hin|[]]; injection Hin as _ <-; discriminate Hack.
  - intros config args b tr Hc.
    rewrite (republish_preview_run config args _ Hc). simpl.
    unfold broker_get. destruct (queues b !! readPath config args); reflexivity.
  - intros config args b tr msgs Hc Hq.
    unfold republish_from_error. rewrite Hc.
    change (negb (default false (Some true))) with false. cbv iota.
    change (consumeMessages config (errorQueue args) (Some (default 1%Z (count args)))
              (vhost args))
      with (@postGet modelPlatform (readPath config args) (readBody args "ack_requeue_false")).
    rewrite io_bind_run, postGet_run.
    change (@post_messages modelPlatform) with broker_get.
    change (@world modelPlatform (@Build_Sys modelPlatform b tr)) with b.
    unfold broker_get. rewrite Hq.
    change (body_ackmode (readBody args "ack_requeue_false")) with "ack_requeue_false".
    change (String.eqb "ack_requeue_false" "ack_requeue_true") with false.
    change (String.eqb "ack_requeue_false" "ack_requeue_false") with true.
    cbv iota. simpl fst. simpl snd. cbv iota beta.
    destruct (length _ =? 0).
    + simpl. apply lookup_insert_eq.
    + rewrite io_bind_run.
      match goal with
      | |- context [republishLoop ?c ?q ?v ?m 0 [] ?s1] =>
          pose proof (model_loop_keeps_queues c q v m 0 [] s1) as Hk;
          destruct (republishLoop c q v m 0 [] s1) as [[res|e] s']
      end; simpl in *; rewrite Hk; apply lookup_insert_eq.
  - intros config args b tr msgs previews n Hc Hq Hn Hp.
    assert (Hlen : length (firstn n msgs) = n) by (rewrite length_firstn; lia).
    rewrite <- Hlen at 1 2.
    apply (@republish_preview_text modelPlatform config args (@Build_Sys modelPlatform b tr)
             (firstn n msgs) previews Hc); [| | exact Hp].
    + change (@post_messages modelPlatform) with broker_get.
      change (@world modelPlatform (@Build_Sys modelPlatform b tr)) with b.
      unfold broker_get. rewrite Hq. reflexivity.
    + intros Hnil. rewrite Hnil in Hlen. simpl in Hlen. lia.
  - intros P config args s messages texts Hc Hm Hne Hlen Hall.
    apply (republish_preview_text config args s messages _ Hc Hm Hne).
    apply previewLines_texts; [exact Hlen | exact Hall].
  - intros config args b tr msgs texts n shown Hc Hq Hne Hlen Hall.
    assert (Hshown : length shown = Nat.min n (length msgs)) by apply length_firstn.
    rewrite <- Hshown.
    apply (@republish_preview_text modelPlatform config args
             (@Build_Sys modelPlatform b tr) shown _ Hc); [| exact Hne |].
    + change (@post_messages modelPlatform) with broker_get.
      change (@world modelPlatform (@Build_Sys modelPlatform b tr)) with b.
      unfold broker_get. rewrite Hq. reflexivity.
    + apply previewLines_texts; [exact Hlen | exact Hall].
Qed.

(** The preview of five messages from a queue that holds two names the
    two it has shown, not the count it was called with. *)
Lemma preview_names_the_batch_size :
  (@republish_from_error modelPlatform rootConfig (ordersArgs (Some 5%Z) None)
     (startOn ordersBroker)).1
  = Normal (join nl [
      "Preview: 2 message(s) from " +:+ qq "'orders_error'" +:+ " ready to republish:";
      "";
      "Message 1:";
      "  MessageId: 1";
      "  Sent: unknown";
      "  Message Type: unknown";
      "  Payload: {";
      "  " +:+ qq "'id': 1";
      "}";
      "";
      "Message 2:";
      "  MessageId: 2";
      "  Sent: unknown";
      "  Message Type: unknown";
      "  Payload: {";
      "  " +:+ qq "'id': 2";
      "}";
      "";
      "---";
      "To republish these messages, call again with confirm=true and count=2." ]).
Proof. vm_compute. reflexivity. Qed.

Lemma preview_is_non_destructive_witness :
  world (@republish_from_error modelPlatform rootConfig (ordersArgs (Some 2%Z) None)
           (startOn ordersBroker)).2 = ordersBroker
  /\ trace (@republish_from_error modelPlatform rootConfig (ordersArgs (Some 2%Z) None)
              (startOn ordersBroker)).2
     = [PostGet ordersErrorPath (readBody (ordersArgs (Some 2%Z) None) "ack_requeue_true")]
  /\ (exists previews,
        previewLines [withDestination; withoutDestination] 0 = Normal previews
        /\ (@republish_from_error modelPlatform rootConfig (ordersArgs (Some 2%Z) None)
              (startOn ordersBroker)).1
           = Normal (join nl
               (("Preview: 2 message(s) from " +:+ qq "'orders_error'"
                 +:+ " ready to republish:" +:+ nl)
                :: previews
                ++ ["---";
                    "To republish these messages, call again with confirm=true and count=2."])))
  /\ queues (world (@republish_from_error modelPlatform rootConfig
                      (ordersArgs (Some 2%Z) (Some true)) (startOn ordersBroker)).2)
       !! ordersErrorPath = Some []
  /\ (@republish_from_error modelPlatform rootConfig (ordersArgs (Some 2%Z) None)
     (startOn ordersBroker)).1
  = Normal (join nl [
      "Preview: 2 message(s) from " +:+ qq "'orders_error'" +:+ " ready to republish:";
      "";
      "Message 1:";
      "  MessageId: 1";
      "  Sent: unknown";
      "  Message Type: unknown";
      "  Payload: {";
      "  " +:+ qq "'id': 1";
      "}";
      "";
      "Message 2:";
      "  MessageId: 2";
      "  Sent: unknown";
      "  Message Type: unknown";
      "  Payload: {";
      "  " +:+ qq "'id': 2";
      "}";
      "";
      "---";
      "To republish these messages, call again with confirm=true and count=2." ]).
Proof.
  pose proof preview_is_non_destructive
    as (Hread & Htext & _ & _ & Hkeep & Htake & _ & _ & Hmodel).
  split; [| split; [| split; [| split]]].
  - apply (Hkeep rootConfig (ordersArgs (Some 2%Z) None) ordersBroker []). discriminate.
  - apply (proj1 (Hread modelPlatform rootConfig (ordersArgs (Some 2%Z) None)
                    (startOn ordersBroker) ltac:(discriminate))).
  - let r := eval vm_compute in (previewLines [withDestination; withoutDestination] 0) in
    match r with Normal ?previews => exists previews end.
    assert (Hp : previewLines [withDestination; withoutDestination] 0 = Normal _)
      by (vm_compute; reflexivity).
    split; [exact Hp|].
    apply (Htext modelPlatform rootConfig (ordersArgs (Some 2%Z) None) (startOn ordersBroker)
             [withDestination; withoutDestination] _ ltac:(discriminate));
      [vm_compute; reflexivity | discriminate | exact Hp].
  - apply (Htake rootConfig (ordersArgs (Some 2%Z) (Some true)) ordersBroker []
             [withDestination; withoutDestination] eq_refl).
    vm_compute. reflexivity.
  - change (startOn ordersBroker) with (@Build_Sys modelPlatform ordersBroker []).
    rewrite (Hmodel rootConfig (ordersArgs (Some 2%Z) None) ordersBroker []
               [withDestination; withoutDestination]
               [ join nl ["Message 1:"; "  MessageId: 1"; "  Sent: unknown";
                          "  Message Type: unknown"; "  Payload: {";
                          "  " +:+ qq "'id': 1"; "}"];
                 join nl ["Message 2:"; "  MessageId: 2"; "  Sent: unknown";
                          "  Message Type: unknown"; "  Payload: {";
                          "  " +:+ qq "'id': 2"; "}"] ]).
    + vm_compute. reflexivity.
    + discriminate.
    + vm_compute. reflexivity.
    + discriminate.
    + reflexivity.
    + intros [|[|i]] msg text Hm Ht; try discriminate Hm;
        injection Hm as <-; injection Ht as <-; vm_compute; reflexivity.
Defined.

(** * Further properties *)

(** ** Queue names and type names *)

Lemma substring_split s k :
  k <= String.length s ->
  s = String.substring 0 k s +:+ String.substring k (String.length s - k) s.
Proof.
  revert k. induction s as [|c s IH]; intros [|k] Hk; simpl in *; try lia.
  - reflexivity.
  - rewrite app_nil_string. now rewrite substring_all.
  - rewrite app_cons_string. f_equal. apply IH. lia.
Qed.

Lemma endsWith_inv s suffix :
  endsWith s suffix = true ->
  s = slice_drop_end s (String.length suffix) +:+ suffix.
Proof.
  unfold endsWith, slice_drop_end, slice_from. intros H.
  apply andb_true_iff in H as [Hlen Heq].
  apply Nat.leb_le in Hlen. apply String.eqb_eq in Heq.
  replace (String.length s - (String.length s - String.length suffix))
    with (String.length suffix) in Heq by lia.
  rewrite <- Heq at 2.
  rewrite (substring_split s (String.length s - String.length suffix)) at 1 by lia.
  do 2 f_equal. lia.
Qed.

Lemma error_and_skipped_exclusive_aux n :
  isSkippedQueue n = true -> isErrorQueue n = false.
Proof.
  unfold isErrorQueue, isSkippedQueue, SKIPPED_SUFFIX, ERROR_SUFFIX. intros Hs.
  rewrite (endsWith_inv _ _ Hs).
  set (a := slice_drop_end n (String.length "_skipped")).
  replace (a +:+ "_skipped") with ((a +:+ "_s") +:+ "kipped")
    by (now rewrite app_assoc_string).
  apply endsWith_app_other; [reflexivity | discriminate].
Qed.

(** X1. No queue name is both an error queue and a skipped queue, so the
    two listings never show the same queue. *)
Theorem error_and_skipped_exclusive (n : string) :
  isErrorQueue n && isSkippedQueue n = false.
Proof.
  destruct (isSkippedQueue n) eqn:Hs; [|apply andb_false_r].
  rewrite andb_true_r. now apply error_and_skipped_exclusive_aux.
Qed.

(** X2. Stripping is undone by appending the suffix that matched: the
    source queue of an error queue, followed by [_error], is the queue
    name again, and likewise for [_skipped]; the source queue name is
    never longer than the name. *)
Theorem getSourceQueue_restores_name (n : string) :
  (isErrorQueue n = true -> getSourceQueue n +:+ "_error" = n)
  /\ (isSkippedQueue n = true -> getSourceQueue n +:+ "_skipped" = n)
  /\ String.length (getSourceQueue n) <= String.length n.
Proof.
  assert (He : isErrorQueue n = true -> getSourceQueue n +:+ "_error" = n).
  { unfold isErrorQueue, getSourceQueue, ERROR_SUFFIX. intros H. rewrite H.
    symmetry. exact (endsWith_inv _ _ H). }
  assert (Hs : isSkippedQueue n = true -> getSourceQueue n +:+ "_skipped" = n).
  { intros H. pose proof (error_and_skipped_exclusive_aux n H) as Hne.
    unfold isErrorQueue, isSkippedQueue, getSourceQueue, ERROR_SUFFIX, SKIPPED_SUFFIX in *.
    rewrite Hne, H. symmetry. exact (endsWith_inv _ _ H). }
  split; [exact He|]. split; [exact Hs|].
  destruct (isErrorQueue n) eqn:E1.
  - rewrite <- (He eq_refl) at 2. rewrite length_app. lia.
  - destruct (isSkippedQueue n) eqn:E2.
    + rewrite <- (Hs eq_refl) at 2. rewrite length_app. lia.
    + unfold isErrorQueue, isSkippedQueue, getSourceQueue in *. now rewrite E1, E2.
Qed.

Lemma getSourceQueue_restores_name_witness :
  getSourceQueue "submit-order_error" +:+ "_error" = "submit-order_error"
  /\ getSourceQueue "submit-order_skipped" +:+ "_skipped" = "submit-order_skipped".
Proof.
  split.
  - apply (proj1 (getSourceQueue_restores_name "submit-order_error")). reflexivity.
  - apply (proj1 (proj2 (getSourceQueue_restores_name "submit-order_skipped"))). reflexivity.
Defined.

Lemma length_substring s : forall n m,
  String.length (String.substring n m s) = Nat.min m (String.length s - n).
Proof.
  induction s as [|c s IH]; intros [|n] [|m]; simpl; try reflexivity.
  - now rewrite IH, Nat.sub_0_r.
  - apply IH.
  - apply IH.
Qed.

Lemma length_replaceAll c d s : String.length (replaceAll c d s) = String.length s.
Proof. induction s as [|x s IH]; simpl; [reflexivity | now rewrite IH]. Qed.

Lemma replaceAll_removes c d s : c <> d -> hasChar c (replaceAll c d s) = false.
Proof.
  intros Hne. induction s as [|x s IH]; simpl; [reflexivity|].
  rewrite IH, orb_false_r.
  destruct (Ascii.eqb x c) eqn:E.
  - apply Ascii.eqb_neq. congruence.
  - exact E.
Qed.

Lemma prefix_hasChar c : forall p r,
  String.prefix p r = true -> hasChar c p = true -> hasChar c r = true.
Proof.
  induction p as [|a p IH]; intros r Hp Hc; [discriminate|].
  destruct r as [|b r]; [discriminate|]. simpl in Hp.
  destruct (ascii_dec a b) as [->|]; [|discriminate].
  simpl in *. destruct (Ascii.eqb b c); [reflexivity|]. simpl in *. now apply IH.
Qed.

(** X3. Decoding a type name twice is the same as decoding it once; the
    decoded form of a URN holds no colon and is the URN without its
    12-character prefix, character for character. *)
Theorem getMessageTypeName_idempotent (urn : string) :
  getMessageTypeName (getMessageTypeName urn) = getMessageTypeName urn
  /\ (startsWith urn "urn:message:" = true ->
        hasChar ":" (getMessageTypeName urn) = false
        /\ String.length (getMessageTypeName urn) = String.length urn - 12)
  /\ (startsWith urn "urn:message:" = false -> getMessageTypeName urn = urn).
Proof.
  destruct (startsWith urn "urn:message:") eqn:Hp.
  - assert (Hres : getMessageTypeName urn
                   = replaceAll ":" "." (slice_from urn (String.length "urn:message:")))
      by (unfold getMessageTypeName; now rewrite Hp).
    assert (Hno : hasChar ":" (getMessageTypeName urn) = false)
      by (rewrite Hres; apply replaceAll_removes; discriminate).
    split; [| split; [| discriminate]].
    + unfold getMessageTypeName at 1.
      destruct (startsWith (getMessageTypeName urn) "urn:message:") eqn:Hq; [|reflexivity].
      unfold startsWith in Hq.
      rewrite (prefix_hasChar ":" _ _ Hq eq_refl) in Hno. discriminate.
    + intros _. split; [exact Hno|].
      rewrite Hres, length_replaceAll. unfold slice_from. rewrite length_substring.
      simpl String.length. lia.
  - assert (Hres : getMessageTypeName urn = urn)
      by (unfold getMessageTypeName; now rewrite Hp).
    split; [| split; [discriminate | intros _; exact Hres]].
    now rewrite !Hres.
Qed.

Lemma getMessageTypeName_idempotent_witness :
  hasChar ":" (getMessageTypeName "urn:message:MyApp.Messages:OrderSubmitted") = false
  /\ getMessageTypeName "MyApp:Other" = "MyApp:Other".
Proof.
  split.
  - apply (proj1 (proj2 (getMessageTypeName_idempotent
                           "urn:message:MyApp.Messages:OrderSubmitted"))). reflexivity.
  - apply (proj2 (proj2 (getMessageTypeName_idempotent "MyApp:Other"))). reflexivity.
Defined.

(** ** Extraction and rendering *)

(** X4. A payload that yields a body fault is always an envelope as well:
    the fault is read from the [message] of the very value that
    [parseEnvelope] returns, its [exceptions] is a non-empty array, and its
    host is the host of the envelope. *)
Theorem body_fault_implies_envelope (payload : string) (bf : MassTransitFault) :
  parseFault payload = Some bf ->
  exists envelope msg,
    parseEnvelope payload = Some envelope
    /\ get envelope "message" = Some msg
    /\ truthy msg = true
    /\ exceptions bf = get msg "exceptions"
    /\ isNonEmptyArray (exceptions bf) = true
    /\ message bf = get msg "message"
    /\ faultedMessageId bf = get msg "faultedMessageId"
    /\ host bf = get envelope "host".
Proof.
  unfold parseFault, parseEnvelope.
  destruct (JSON.parse payload) as [parsed|]; [|discriminate].
  intros H.
  assert (Hm : exists msg, get parsed "message" = Some msg /\ truthy msg = true
               /\ truthy_opt (get msg "exceptions") && isNonEmptyArray (get msg "exceptions")
                  = true
               /\ bf = {| faultId := get msg "faultId";
                          faultedMessageId := get msg "faultedMessageId";
                          timestamp := coalesce (get parsed "sentTime") (get msg "timestamp");
                          consumerType := None; inputAddress := None; messageType := None;
                          retryCount := None; reason := None;
                          exceptions := get msg "exceptions";
                          message := get msg "message";
                          host := get parsed "host" |}).
  { destruct parsed; try discriminate;
      (destruct (get _ "message") as [msg|] eqn:Hg; [|discriminate]);
      (destruct (truthy msg) eqn:Ht; [|discriminate]);
      (destruct (truthy_opt (get msg "exceptions") && isNonEmptyArray (get msg "exceptions"))
         eqn:Hx; [|discriminate]);
      injection H as <-; exists msg; repeat split; first [reflexivity | assumption]. }
  destruct Hm as (msg & Hg & Ht & Hx & ->).
  exists parsed, msg.
  assert (Hobj : truthy parsed = true) by (destruct parsed; try discriminate; reflexivity).
  rewrite Hobj, Hg. simpl truthy_opt. rewrite Ht, !orb_true_r. simpl.
  apply andb_true_iff in Hx as [_ Hx].
  repeat split; assumption.
Qed.

Lemma body_fault_implies_envelope_witness :
  exists envelope, parseEnvelope (payload bodyFaulted) = Some envelope.
Proof.
  let r := eval vm_compute in (parseFault (payload bodyFaulted)) in
  match r with
  | Some ?bf =>
      destruct (body_fault_implies_envelope (payload bodyFaulted) bf) as (env & _ & He & _);
      [vm_compute; reflexivity | exists env; exact He]
  end.
Defined.

Lemma mapTypeNames_not_array mt :
  isArray mt = false ->
  mapTypeNames mt = Throw "envelope.messageType.map is not a function".
Proof. destruct mt; simpl; (discriminate || reflexivity). Qed.

Lemma parseEnvelope_of_typed payload parsed mt :
  JSON.parse payload = Some parsed ->
  get parsed "messageType" = Some mt ->
  truthy mt = true ->
  parseEnvelope payload = Some parsed.
Proof.
  intros Hp Hg Ht. unfold parseEnvelope. rewrite Hp, Hg. simpl truthy_opt. rewrite Ht.
  destruct parsed; try discriminate. reflexivity.
Qed.

(** X5. A truthy [messageType] that is not an array makes
    [formatFaultMessage] throw, on every branch that reads the envelope's
    type: only a [MT-Fault-MessageType] header keeps the type from being
    mapped. *)
Theorem non_array_message_type_throws (msg : PeekedMessage) (index : nat)
    (parsed mt : value) :
  JSON.parse (payload msg) = Some parsed ->
  get parsed "messageType" = Some mt ->
  truthy mt = true ->
  isArray mt = false ->
  nullish (default ∅ (headers (properties msg)) !! "MT-Fault-MessageType") = None ->
  formatFaultMessage msg index = Throw "envelope.messageType.map is not a function".
Proof.
  intros Hp Hg Ht Ha Hh.
  pose proof (parseEnvelope_of_typed _ _ _ Hp Hg Ht) as Henv.
  pose proof (mapTypeNames_not_array _ Ha) as Hmap.
  pose proof (get_opt_Some _ _ _ Hg) as Hgo.
  unfold formatFaultMessage. rewrite Henv. unfold MassTransitEnvelope in *.
  destruct (parseFaultFromHeaders _) as [hf|] eqn:Hhf.
  - apply parseFaultFromHeaders_record in Hhf. subst hf.
    unfold renderFirst, formatHeaderFault. cbv zeta. simpl messageType.
    rewrite Hh, Hgo, Ht, Hmap. reflexivity.
  - unfold renderFirst.
    destruct (parseFault (payload msg)) as [bf|].
    + unfold formatBodyFault, messageTypesOf, MassTransitEnvelope. cbv zeta.
      rewrite Hgo, Ht, Hmap. reflexivity.
    + unfold formatEnvelope, messageTypesOf, MassTransitEnvelope.
      rewrite Hgo, Ht, Hmap. reflexivity.
Qed.

Lemma non_array_message_type_throws_witness :
  formatFaultMessage (messageOf (qq "{'messageType':'urn:message:App:OrderPlaced'}") None) 0
  = Throw "envelope.messageType.map is not a function".
Proof.
  apply (non_array_message_type_throws _ 0
           (JObj [("messageType", JStr "urn:message:App:OrderPlaced")])
           (JStr "urn:message:App:OrderPlaced")); reflexivity.
Defined.

Lemma orDefault_string o d :
  stringOrMissing o -> exists t, orDefault o d = Normal t.
Proof.
  intros Hs. unfold orDefault. destruct o as [v|]; [|now exists d].
  destruct (Hs v eq_refl) as [s ->]. now exists s.
Qed.

Lemma object_literal_strings ps :
  Forall (fun p => stringOrMissing p.2) ps ->
  exists ms, object_literal ps = JObj ms
             /\ forall k, stringOrMissing (lookup_member k ms).
Proof.
  induction 1 as [|[k o] ps Ho _ (ms & Hms & Hall)].
  - exists []. split; [reflexivity|]. intros k v. discriminate.
  - simpl. rewrite Hms. destruct o as [v|].
    + exists ((k, v) :: ms). split; [reflexivity|].
      intros k' v'. simpl. destruct (String.eqb k k').
      * intros [= <-]. now apply Ho.
      * apply Hall.
    + exists ms. split; [reflexivity | exact Hall].
Qed.

Lemma hostSummary_strings ms :
  (forall k, stringOrMissing (lookup_member k ms)) ->
  exists t, hostSummary (Some (JObj ms)) = Normal t.
Proof.
  intros Hall. unfold hostSummary. simpl truthy_opt. cbv iota.
  change (get_opt (Some (JObj ms)) ?k) with (lookup_member k ms).
  destruct (orDefault_string _ "unknown" (Hall "machineName")) as [a ->].
  destruct (orDefault_string _ "unknown" (Hall "processName")) as [b ->].
  destruct (orDefault_string _ "?" (Hall "processId")) as [c ->].
  rewrite !bind_Normal. eauto.
Qed.

Lemma pushIf_ok cond text lines :
  (cond = true -> exists t, text = Normal t) ->
  exists l, pushIf cond text lines = Normal l.
Proof.
  unfold pushIf. destruct cond; [|eauto].
  intros H. destruct (H eq_refl) as [t ->]. rewrite bind_Normal. eauto.
Qed.

Lemma pushTruthy_ok o text lines :
  (forall v, o = Some v -> truthy v = true -> exists t, text v = Normal t) ->
  exists l, pushTruthy o text lines = Normal l.
Proof.
  unfold pushTruthy. destruct o as [v|]; [|eauto].
  intros H. apply pushIf_ok. intros Ht. now apply H.
Qed.

Lemma pushDefined_ok o text lines :
  (forall v, o = Some v -> exists t, text v = Normal t) ->
  exists l, pushDefined o text lines = Normal l.
Proof.
  unfold pushDefined. destruct o as [v|]; [|eauto].
  intros H. apply pushIf_ok. intros _. now apply H.
Qed.

(** A header fault whose values are strings is rendered without a throw,
    whatever the index, when the type of the envelope is well formed. *)
Lemma formatHeaderFault_strings hf env index msE msH :
  stringOrMissing (timestamp hf) ->
  stringOrMissing (reason hf) ->
  stringOrMissing (consumerType hf) ->
  stringOrMissing (messageType hf) ->
  stringOrMissing (retryCount hf) ->
  (exceptions hf = None \/ exceptions hf = Some (JArr [JObj msE])) ->
  (forall k, stringOrMissing (lookup_member k msE)) ->
  host hf = Some (JObj msH) ->
  (forall k, stringOrMissing (lookup_member k msH)) ->
  typesWellFormed env ->
  exists text, formatHeaderFault hf env index = Normal text.
Proof.
  intros Hts Hre Hco Hmt Hrc Hex HmsE Hhost HmsH Hty.
  unfold formatHeaderFault. cbv zeta.
  assert (H1 : exists s,
             match nullish (messageType hf) with
             | Some v => Normal v
             | None =>
                 match get_opt env "messageType" with
                 | Some mt =>
                     if truthy mt
                     then mapTypeNames mt ≫= (fun names => Normal (JStr (join ", " names)))
                     else Normal (JStr "unknown")
                 | None => Normal (JStr "unknown")
                 end
             end = Normal (JStr s)).
  { destruct (messageType hf) as [v|] eqn:Hv.
    - destruct (Hmt v eq_refl) as [s ->]. now exists s.
    - simpl. destruct (get_opt env "messageType") as [mt|] eqn:Hg; [|now eexists].
      destruct (truthy mt) eqn:Ht; [|now eexists].
      destruct (Hty mt Hg Ht) as [urns ->].
      rewrite mapTypeNames_strings, bind_Normal. now eexists. }
  destruct H1 as [ty ->]. rewrite bind_Normal.
  rewrite Hhost. destruct (hostSummary_strings msH HmsH) as [hostInfo ->].
  rewrite bind_Normal.
  destruct (orDefault_string _ "unknown" Hts) as [faulted ->]. rewrite bind_Normal.
  destruct (orDefault_string _ "fault" Hre) as [why ->]. rewrite bind_Normal.
  simpl toJSString. rewrite bind_Normal.
  match goal with
  | |- context [pushTruthy (consumerType hf) ?f ?l] =>
      destruct (pushTruthy_ok (consumerType hf) f l) as [l1 ->]
  end.
  { intros v Hv _. destruct (Hco v Hv) as [s ->]. simpl. eauto. }
  rewrite bind_Normal.
  assert (Hgets : forall k, stringOrMissing (get_opt (firstException (exceptions hf)) k)).
  { intros k. destruct Hex as [-> | ->]; simpl.
    - intros v. discriminate.
    - apply HmsE. }
  match goal with
  | |- context [pushTruthy (firstException (exceptions hf)) ?f ?l] =>
      destruct (pushTruthy_ok (firstException (exceptions hf)) f l) as [l2 ->]
  end.
  { intros v Hv _.
    assert (v = JObj msE) as ->
      by (destruct Hex as [E | E]; rewrite E in Hv; simpl in Hv; congruence).
    change (get (JObj msE) ?k) with (lookup_member k msE).
    destruct (orDefault_string _ "unknown" (HmsE "exceptionType")) as [a ->].
    destruct (orDefault_string _ "unknown" (HmsE "message")) as [b ->].
    rewrite !bind_Normal. eauto. }
  rewrite bind_Normal.
  match goal with
  | |- context [pushDefined (retryCount hf) ?f ?l] =>
      destruct (pushDefined_ok (retryCount hf) f l) as [l3 ->]
  end.
  { intros v Hv. destruct (Hrc v Hv) as [s ->]. simpl. eauto. }
  rewrite bind_Normal.
  match goal with
  | |- context [pushTruthy (get_opt ?ex "stackTrace") ?f ?l] =>
      destruct (pushTruthy_ok (get_opt ex "stackTrace") f l) as [l4 ->]
  end.
  { intros v Hv _. destruct (Hgets "stackTrace" v Hv) as [s ->]. simpl. eauto. }
  rewrite bind_Normal.
  match goal with
  | |- context [pushTruthy (get_opt env "message") ?f ?l] =>
      destruct (pushTruthy_ok (get_opt env "message") f l) as [l5 ->]
  end.
  { intros v _ _. unfold originalPayloadLine. eauto. }
  rewrite bind_Normal.
  match goal with
  | |- context [pushIf ?c ?t ?l] => destruct (pushIf_ok c t l) as [l6 ->]
  end.
  { intros _. change (get_opt (Some (JObj msH)) ?k) with (lookup_member k msH).
    destruct (orDefault_string _ "" (HmsH "assembly")) as [a ->].
    destruct (orDefault_string _ "" (HmsH "assemblyVersion")) as [b ->].
    destruct (orDefault_string _ "?" (HmsH "frameworkVersion")) as [c ->].
    rewrite !bind_Normal. eauto. }
  rewrite bind_Normal. eauto.
Qed.

(** X6. A message that carries a header fault always renders: when every
    header value is a string and the [messageType] of the envelope, if
    any, is an array of strings, [formatFaultMessage] returns a text,
    whatever else the payload holds. *)
Theorem string_headers_always_render (msg : PeekedMessage) (index : nat)
    (hf : MassTransitFault) :
  parseFaultFromHeaders (default ∅ (headers (properties msg))) = Some hf ->
  (forall k, stringOrMissing (default ∅ (headers (properties msg)) !! k)) ->
  typesWellFormed (parseEnvelope (payload msg)) ->
  exists text, formatFaultMessage msg index = Normal text.
Proof.
  intros Hhf Hstr Hty.
  rewrite (proj1 (proj1 header_fault_selected msg index hf Hhf)).
  pose proof (parseFaultFromHeaders_record _ _ Hhf) as Hrec.
  set (h := default ∅ (headers (properties msg))) in *.
  destruct (object_literal_strings
              [("exceptionType", h !! "MT-Fault-ExceptionType");
               ("message", h !! "MT-Fault-Message");
               ("stackTrace", h !! "MT-Fault-StackTrace")]) as (msE & HE & HmsE).
  { repeat constructor; apply Hstr. }
  destruct (object_literal_strings
              [("machineName", h !! "MT-Host-MachineName");
               ("processName", h !! "MT-Host-ProcessName");
               ("processId", h !! "MT-Host-ProcessId");
               ("assembly", h !! "MT-Host-Assembly");
               ("assemblyVersion", h !! "MT-Host-AssemblyVersion");
               ("frameworkVersion", h !! "MT-Host-FrameworkVersion");
               ("massTransitVersion", h !! "MT-Host-MassTransitVersion");
               ("operatingSystemVersion", h !! "MT-Host-OperatingSystemVersion")])
    as (msH & HH & HmsH).
  { repeat constructor; apply Hstr. }
  rewrite HE, HH in Hrec.
  apply (formatHeaderFault_strings hf _ index msE msH); subst hf; simpl;
    try apply Hstr; try assumption; try reflexivity.
  destruct (truthy_opt (h !! "MT-Fault-ExceptionType")); auto.
Qed.

Lemma string_headers_always_render_witness :
  exists text, formatFaultMessage longFault 3 = Normal text.
Proof.
  let r := eval vm_compute in
    (parseFaultFromHeaders (default ∅ (headers (properties longFault)))) in
  match r with
  | Some ?hf => apply (string_headers_always_render longFault 3 hf)
  end.
  - vm_compute. reflexivity.
  - intros k v. simpl. intros Hv.
    apply lookup_insert_Some in Hv as [[_ <-] | [_ Hv]]; [eauto|].
    apply lookup_singleton_Some in Hv as [_ <-]. eauto.
  - intros mt Hg _. exists ["urn:message:App:Blob"].
    vm_compute in Hg. injection Hg as <-. reflexivity.
Defined.

(** ** Request paths *)

Lemma allChars_app p a b : allChars p (a +:+ b) = allChars p a && allChars p b.
Proof.
  induction a as [|c a IH]; [reflexivity|].
  rewrite app_cons_string. simpl. now rewrite IH, andb_assoc.
Qed.

Lemma encoded_piece (c : ascii) :
  allChars isEncodedChar
    (if isUnreserved c then String c ""
     else if nat_of_ascii c <? 128 then percentByte (nat_of_ascii c)
     else percentByte (192 + nat_of_ascii c / 64)
          +:+ percentByte (128 + nat_of_ascii c mod 64)) = true.
Proof. destruct c as [[] [] [] [] [] [] [] []]; vm_compute; reflexivity. Qed.

Lemma encodeURIComponent_chars s : allChars isEncodedChar (encodeURIComponent s) = true.
Proof.
  induction s as [|c s IH]; [reflexivity|].
  simpl encodeURIComponent. rewrite allChars_app, IH, andb_true_r.
  apply encoded_piece.
Qed.

Lemma allChars_hasChar p c s : allChars p s = true -> p c = false -> hasChar c s = false.
Proof.
  intros Hall Hc. induction s as [|x s IH]; [reflexivity|].
  simpl in *. apply andb_true_iff in Hall as [Hx Hs]. rewrite (IH Hs), orb_false_r.
  apply Ascii.eqb_neq. congruence.
Qed.

Lemma split_without sep a : hasChar sep a = false -> split sep a = [a].
Proof.
  induction a as [|c a IH]; [reflexivity|]. simpl.
  intros H. apply orb_false_iff in H as [Hc Ha]. rewrite Hc, (IH Ha). reflexivity.
Qed.

Lemma split_at_first sep a b :
  hasChar sep a = false -> split sep (a +:+ String sep b) = a :: split sep b.
Proof.
  induction a as [|c a IH].
  - intros _. rewrite app_nil_string. simpl. now rewrite Ascii.eqb_refl.
  - simpl hasChar. intros H. apply orb_false_iff in H as [Hc Ha].
    rewrite app_cons_string. simpl. rewrite Hc, (IH Ha). reflexivity.
Qed.

Lemma encodeVhost_encodes config vhost :
  encodeVhost config vhost = encodeURIComponent (default (config_vhost config) vhost).
Proof.
  unfold encodeVhost. destruct (String.eqb_spec (default (config_vhost config) vhost) "/") as [->|];
    reflexivity.
Qed.

Lemma api_path_segments kind v q action :
  hasChar "/" kind = false -> hasChar "/" action = false ->
  split "/" ("/" +:+ kind +:+ "/" +:+ encodeURIComponent v +:+ "/"
             +:+ encodeURIComponent q +:+ "/" +:+ action)
  = [""; kind; encodeURIComponent v; encodeURIComponent q; action].
Proof.
  intros Hk Ha.
  assert (Hno : forall s, hasChar "/" (encodeURIComponent s) = false)
    by (intros s; apply (allChars_hasChar isEncodedChar); [apply encodeURIComponent_chars | reflexivity]).
  change ("/" +:+ ?x) with ("" +:+ String "/" x).
  rewrite (split_at_first "/" "") by reflexivity.
  change (kind +:+ "/" +:+ ?x) with (kind +:+ String "/" x).
  rewrite (split_at_first "/" kind) by exact Hk.
  change (encodeURIComponent v +:+ "/" +:+ ?x) with (encodeURIComponent v +:+ String "/" x).
  rewrite (split_at_first "/" _ _ (Hno v)).
  change (encodeURIComponent q +:+ "/" +:+ action)
    with (encodeURIComponent q +:+ String "/" action).
  rewrite (split_at_first "/" _ _ (Hno q)).
  now rewrite (split_without "/" action Ha).
Qed.

(** X7. Whatever the vhost, queue and exchange names are, the paths the
    client posts to have exactly four segments: an encoded name holds
    none of the characters [/], [?] and [#], and the vhost segment is the
    encoding of the vhost in force, the special case for ["/"] included. *)
Theorem request_paths_have_four_segments `{Platform} (config : RabbitMQConfig)
    (name : string) (vhost : option string) :
  let v := default (config_vhost config) vhost in
  hasChar "/" (encodeURIComponent name) = false
  /\ hasChar "?" (encodeURIComponent name) = false
  /\ hasChar "#" (encodeURIComponent name) = false
  /\ encodeVhost config vhost = encodeURIComponent v
  /\ (forall count ackMode (s : Sys),
        exists body,
          trace (peekMessages config name count vhost ackMode s).2
          = trace s ++ [PostGet ("/queues/" +:+ encodeURIComponent v +:+ "/"
                                 +:+ encodeURIComponent name +:+ "/get") body])
  /\ (forall count (s : Sys),
        exists body,
          trace (consumeMessages config name count vhost s).2
          = trace s ++ [PostGet ("/queues/" +:+ encodeURIComponent v +:+ "/"
                                 +:+ encodeURIComponent name +:+ "/get") body])
  /\ (forall routingKey payload properties (s : Sys),
        exists body,
          trace (publishMessage config name routingKey payload properties vhost s).2
          = trace s ++ [PostPublish ("/exchanges/" +:+ encodeURIComponent v +:+ "/"
                                     +:+ encodeURIComponent name +:+ "/publish") body])
  /\ split "/" ("/queues/" +:+ encodeURIComponent v +:+ "/"
                +:+ encodeURIComponent name +:+ "/get")
     = [""; "queues"; encodeURIComponent v; encodeURIComponent name; "get"]
  /\ split "/" ("/exchanges/" +:+ encodeURIComponent v +:+ "/"
                +:+ encodeURIComponent name +:+ "/publish")
     = [""; "exchanges"; encodeURIComponent v; encodeURIComponent name; "publish"].
Proof.
  intros v.
  assert (Hno : forall c, isEncodedChar c = false ->
                          hasChar c (encodeURIComponent name) = false)
    by (intros c; apply allChars_hasChar, encodeURIComponent_chars).
  repeat apply conj; try (apply Hno; reflexivity).
  - apply encodeVhost_encodes.
  - intros count ackMode s. unfold peekMessages. rewrite postGet_run, encodeVhost_encodes.
    eexists. reflexivity.
  - intros count s. unfold consumeMessages. rewrite postGet_run, encodeVhost_encodes.
    eexists. reflexivity.
  - intros routingKey payload properties s. unfold publishMessage.
    rewrite postPublish_run, encodeVhost_encodes. eexists. reflexivity.
  - apply (api_path_segments "queues" v name "get"); reflexivity.
  - apply (api_path_segments "exchanges" v name "publish"); reflexivity.
Qed.

(** ** More on [republish_from_error] *)

Lemma republish_commit_read `{Platform} config args (s : Sys) :
  confirm args = Some true ->
  let r := post_messages (readPath config args) (readBody args "ack_requeue_false")
             (world s) in
  let s1 := {| world := r.2;
               trace := trace s ++ [PostGet (readPath config args)
                                      (readBody args "ack_requeue_false")] |} in
  republish_from_error config args s
  = match r.1 with
    | Normal messages =>
        if length messages =? 0 then (Normal (emptyQueueText (errorQueue args)), s1)
        else
          let out := republishLoop config (errorQueue args) (vhost args) messages 0 [] s1 in
          (match out.1 with
           | Normal result =>
               Normal (outcomeText result.1 (length messages) (errorQueue args) result.2)
           | Throw e => Throw e
           end, out.2)
    | Throw e => (Throw e, s1)
    end.
Proof.
  intros Hc r s1. unfold republish_from_error. rewrite Hc.
  change (negb (default false (Some true))) with false. cbv iota.
  change (consumeMessages config (errorQueue args) (Some (default 1%Z (count args)))
            (vhost args))
    with (postGet (readPath config args) (readBody args "ack_requeue_false")).
  rewrite io_bind_run, postGet_run. fold r. fold s1.
  destruct r.1 as [messages|e]; [|reflexivity].
  destruct (length messages =? 0); [reflexivity|].
  rewrite io_bind_run.
  destruct (republishLoop config (errorQueue args) (vhost args) messages 0 [] s1)
    as [[result|e] s']; reflexivity.
Qed.

(** X8. On an empty queue both phases stop after their read: the text
    says that the queue is empty and nothing is published. *)
Theorem republish_empty_queue `{Platform} config args (s : Sys) :
  let ackmode := if decide (confirm args = Some true)
                 then "ack_requeue_false" else "ack_requeue_true" in
  (post_messages (readPath config args) (readBody args ackmode) (world s)).1 = Normal [] ->
  republish_from_error config args s
  = (Normal (emptyQueueText (errorQueue args)),
     {| world := (post_messages (readPath config args) (readBody args ackmode) (world s)).2;
        trace := trace s ++ [PostGet (readPath config args) (readBody args ackmode)] |}).
Proof.
  intros ackmode. subst ackmode. destruct (decide (confirm args = Some true)) as [Hc|Hc]; intros Hr.
  - rewrite (republish_commit_read config args s Hc). cbv zeta. now rewrite Hr.
  - rewrite (republish_preview_run config args s Hc). cbv zeta. now rewrite Hr.
Qed.

Lemma republish_empty_queue_witness :
  (@republish_from_error modelPlatform rootConfig (ordersArgs (Some 0%Z) (Some true))
     (startOn ordersBroker)).1
  = Normal (emptyQueueText "orders_error").
Proof.
  rewrite (@republish_empty_queue modelPlatform rootConfig (ordersArgs (Some 0%Z) (Some true))
             (startOn ordersBroker)); [reflexivity | vm_compute; reflexivity].
Defined.

(** X9. A read that the transport rejects ends the handler in either
    phase: the error is thrown on with its message, and the read is the
    only request. *)
Theorem republish_read_failure `{Platform} config args (s : Sys) (e : string) :
  let ackmode := if decide (confirm args = Some true)
                 then "ack_requeue_false" else "ack_requeue_true" in
  (post_messages (readPath config args) (readBody args ackmode) (world s)).1 = Throw e ->
  republish_from_error config args s
  = (Throw e,
     {| world := (post_messages (readPath config args) (readBody args ackmode) (world s)).2;
        trace := trace s ++ [PostGet (readPath config args) (readBody args ackmode)] |}).
Proof.
  intros ackmode. subst ackmode. destruct (decide (confirm args = Some true)) as [Hc|Hc]; intros Hr.
  - rewrite (republish_commit_read config args s Hc). cbv zeta. now rewrite Hr.
  - rewrite (republish_preview_run config args s Hc). cbv zeta. now rewrite Hr.
Qed.

Lemma republish_read_failure_witness :
  (@republish_from_error modelPlatform rootConfig
     {| errorQueue := "missing_error"; count := None; confirm := None; vhost := None |}
     (startOn ordersBroker)).1
  = Throw notFound.
Proof.
  rewrite (@republish_read_failure modelPlatform rootConfig
             {| errorQueue := "missing_error"; count := None; confirm := None; vhost := None |}
             (startOn ordersBroker) notFound); [reflexivity | vm_compute; reflexivity].
Defined.

Lemma republishOne_state `{Platform} config errorQueue vh msg (s : Sys) :
  trace (republishOne config errorQueue vh msg s).2
  = trace s ++ match republishRequest config errorQueue vh msg with
               | Some r => [r]
               | None => []
               end.
Proof.
  rewrite republishOne_run. unfold republishRequest.
  destruct (resolveDestination errorQueue (parseEnvelope (payload msg))) as [dest|e].
  - unfold publishMessage. rewrite postPublish_run. reflexivity.
  - simpl. now rewrite app_nil_r.
Qed.

Lemma republishLoop_requests `{Platform} config errorQueue vh messages :
  forall n errs (s : Sys),
    trace (republishLoop config errorQueue vh messages n errs s).2
    = trace s ++ omap (republishRequest config errorQueue vh) messages.
Proof.
  induction messages as [|msg rest IH]; intros n errs s.
  - simpl. now rewrite app_nil_r.
  - rewrite republishLoop_cons.
    pose proof (republishOne_state config errorQueue vh msg s) as Hone.
    destruct (republishOne config errorQueue vh msg s) as [[ok|e] s1];
      rewrite IH; simpl in Hone; rewrite Hone, <- app_assoc; f_equal;
      simpl; destruct (republishRequest config errorQueue vh msg); reflexivity.
Qed.

Lemma length_omap_le {A B} (f : A -> option B) (l : list A) :
  length (omap f l) <= length l.
Proof.
  induction l as [|x l IH]; csimpl; [lia|]. destruct (f x); simpl; lia.
Qed.

Lemma republishRequest_payload `{Platform} config errorQueue vh msg r :
  republishRequest config errorQueue vh msg = Some r ->
  exists path body,
    r = PostPublish path body
    /\ body_payload body = payload msg
    /\ publish_headers (body_properties body) = headers (properties msg)
    /\ publish_message_id (body_properties body) = message_id (properties msg).
Proof.
  unfold republishRequest.
  destruct (resolveDestination errorQueue (parseEnvelope (payload msg))); [|discriminate].
  intros [= <-]. eexists. eexists. repeat split.
Qed.

(** X10. The commit posts, after its read, one publish for each consumed
    message whose destination resolves, in the order of the messages and
    nothing else; every publish carries the payload of its message
    unchanged, with the headers and the message id of the message. *)
Theorem commit_publishes_original_payloads `{Platform} config args (s : Sys) messages :
  confirm args = Some true ->
  (post_messages (readPath config args) (readBody args "ack_requeue_false") (world s)).1
  = Normal messages ->
  let published := omap (republishRequest config (errorQueue args) (vhost args)) messages in
  trace (republish_from_error config args s).2
  = trace s ++ PostGet (readPath config args) (readBody args "ack_requeue_false") :: published
  /\ length published <= length messages
  /\ (forall r, In r published ->
        exists msg path body,
          In msg messages
          /\ r = PostPublish path body
          /\ body_payload body = payload msg
          /\ publish_headers (body_properties body) = headers (properties msg)
          /\ publish_message_id (body_properties body) = message_id (properties msg)).
Proof.
  intros Hc Hr published. split; [| split].
  - rewrite (republish_commit_read config args s Hc). cbv zeta. rewrite Hr.
    destruct messages as [|m ms]; [reflexivity|].
    change (length (m :: ms) =? 0) with false. cbv iota. unfold snd at 1.
    rewrite republishLoop_requests. simpl trace. now rewrite <- app_assoc.
  - subst published. apply length_omap_le.
  - intros r Hin. apply list_elem_of_In in Hin.
    apply list_elem_of_omap in Hin as (msg & Hmsg & Hreq).
    destruct (republishRequest_payload _ _ _ _ _ Hreq) as (path & body & -> & Hp & Hh & Hi).
    exists msg, path, body. apply list_elem_of_In in Hmsg. repeat split; assumption.
Qed.

Lemma commit_publishes_original_payloads_witness :
  trace (@republish_from_error modelPlatform rootConfig (ordersArgs (Some 2%Z) (Some true))
           (startOn ordersBroker)).2
  = PostGet (readPath rootConfig (ordersArgs (Some 2%Z) (Some true)))
      (readBody (ordersArgs (Some 2%Z) (Some true)) "ack_requeue_false")
    :: omap (@republishRequest modelPlatform rootConfig "orders_error" None)
         [withDestination; withoutDestination].
Proof.
  apply (proj1 (@commit_publishes_original_payloads modelPlatform rootConfig
                  (ordersArgs (Some 2%Z) (Some true)) (startOn ordersBroker)
                  [withDestination; withoutDestination] eq_refl
                  ltac:(vm_compute; reflexivity))).
Defined.

(** X11. The number in an error entry is the count of messages republished
    so far plus one, not the position of the message: when no message of
    a batch can be resolved, every entry carries the same number, the
    count stays where it was and nothing is posted. *)
Theorem unresolved_messages_share_a_label `{Platform} config errorQueue vh
    (messages : list PeekedMessage) (es : list string) n errs (s : Sys) :
  Forall2 (fun msg e => resolveDestination errorQueue (parseEnvelope (payload msg)) = Throw e)
          messages es ->
  republishLoop config errorQueue vh messages n errs s
  = (Normal (n, errs ++ map (fun e => "Message " +:+ ofNat (n + 1) +:+ ": " +:+ e) es), s).
Proof.
  intros Hall. revert errs.
  induction Hall as [|msg e messages es He _ IH]; intros errs.
  - simpl. now rewrite app_nil_r.
  - rewrite republishLoop_cons, republishOne_run, He, IH.
    simpl. now rewrite <- app_assoc.
Qed.

Lemma unresolved_messages_share_a_label_witness :
  @republishLoop modelPlatform rootConfig "orders_error" None
    [malformedDestination; malformedDestination] 0 [] (startOn malformedBroker)
  = (Normal (0, ["Message 1: Invalid URL"; "Message 1: Invalid URL"]),
     startOn malformedBroker).
Proof.
  apply (@unresolved_messages_share_a_label modelPlatform rootConfig "orders_error" None
           [malformedDestination; malformedDestination] ["Invalid URL"; "Invalid URL"]
           0 [] (startOn malformedBroker)).
  repeat constructor.
Defined.

(** ** The peek handlers *)

Lemma peek_errors_run `{Platform} config queue count vhost (s : Sys) :
  let r := post_messages (queuePath config queue vhost) (peekBody count) (world s) in
  peek_errors config queue count vhost s
  = (match r.1 with
     | Normal messages =>
         if length messages =? 0
         then Normal ("Queue " +:+ dquote +:+ queue +:+ dquote +:+ " is empty.")
         else
           match previewLines messages 0 with
           | Normal lines =>
               Normal (join nl
                 (("Queue: " +:+ queue +:+ " (" +:+ ofNat (length messages)
                   +:+ " message(s))" +:+ nl) :: lines))
           | Throw e => Throw e
           end
     | Throw e => Throw e
     end,
     {| world := r.2;
        trace := trace s ++ [PostGet (queuePath config queue vhost) (peekBody count)] |}).
Proof.
  intros r. unfold peek_errors.
  change (peekMessages config queue (Some (default 5%Z count)) vhost None)
    with (postGet (queuePath config queue vhost) (peekBody count)).
  rewrite io_bind_run, postGet_run. fold r.
  destruct r.1 as [messages|e]; [|reflexivity].
  destruct (length messages =? 0); [reflexivity|].
  rewrite io_bind_run. unfold liftC.
  destruct (previewLines messages 0); reflexivity.
Qed.

Lemma peek_messages_run `{Platform} config queue count vhost (s : Sys) :
  let r := post_messages (queuePath config queue vhost) (peekBody count) (world s) in
  peek_messages config queue count vhost s
  = (match r.1 with
     | Normal messages =>
         if length messages =? 0
         then Normal ("Queue " +:+ dquote +:+ queue +:+ dquote +:+ " is empty.")
         else
           match peekAllLines messages 0 with
           | Normal lines =>
               Normal (join nl
                 (("Queue: " +:+ queue +:+ " (" +:+ ofNat (length messages)
                   +:+ " message(s) peeked)" +:+ nl) :: lines))
           | Throw e => Throw e
           end
     | Throw e => Throw e
     end,
     {| world := r.2;
        trace := trace s ++ [PostGet (queuePath config queue vhost) (peekBody count)] |}).
Proof.
  intros r. unfold peek_messages.
  change (peekMessages config queue (Some (default 5%Z count)) vhost None)
    with (postGet (queuePath config queue vhost) (peekBody count)).
  rewrite io_bind_run, postGet_run. fold r.
  destruct r.1 as [messages|e]; [|reflexivity].
  destruct (length messages =? 0); [reflexivity|].
  rewrite io_bind_run. unfold liftC.
  destruct (peekAllLines messages 0); reflexivity.
Qed.

Lemma previewLines_cons msg rest i :
  previewLines (msg :: rest) i
  = (text ← formatFaultMessage msg i;
     more ← previewLines rest (S i);
     Normal (text :: "" :: more)).
Proof. reflexivity. Qed.

Lemma peekAllLines_cons msg rest i :
  peekAllLines (msg :: rest) i
  = (ls ← peekMessageLines msg i;
     more ← peekAllLines rest (S i);
     Normal (ls ++ more)).
Proof. reflexivity. Qed.

Lemma previewLines_first_failure before : forall i lines msg after e,
  previewLines before i = Normal lines ->
  formatFaultMessage msg (i + length before) = Throw e ->
  previewLines (before ++ msg :: after) i = Throw e.
Proof.
  induction before as [|m before IH]; intros i lines msg after e Hb Hm.
  - rewrite Nat.add_0_r in Hm. rewrite app_nil_l, previewLines_cons, Hm. reflexivity.
  - rewrite <- app_comm_cons, previewLines_cons. rewrite previewLines_cons in Hb.
    destruct (formatFaultMessage m i) as [t|e0]; [|discriminate].
    rewrite bind_Normal in *.
    destruct (previewLines before (S i)) as [more|e0] eqn:Hmore; [|discriminate].
    rewrite (IH (S i) more msg after e Hmore); [reflexivity|].
    rewrite <- Hm. f_equal. simpl. lia.
Qed.

Lemma peekAllLines_first_failure before : forall i lines msg after e,
  peekAllLines before i = Normal lines ->
  peekMessageLines msg (i + length before) = Throw e ->
  peekAllLines (before ++ msg :: after) i = Throw e.
Proof.
  induction before as [|m before IH]; intros i lines msg after e Hb Hm.
  - rewrite Nat.add_0_r in Hm. rewrite app_nil_l, peekAllLines_cons, Hm. reflexivity.
  - rewrite <- app_comm_cons, peekAllLines_cons. rewrite peekAllLines_cons in Hb.
    destruct (peekMessageLines m i) as [t|e0]; [|discriminate].
    rewrite bind_Normal in *.
    destruct (peekAllLines before (S i)) as [more|e0] eqn:Hmore; [|discriminate].
    rewrite (IH (S i) more msg after e Hmore); [reflexivity|].
    rewrite <- Hm. f_equal. simpl. lia.
Qed.

(** X12. A message that cannot be rendered fails the whole view: when
    [formatFaultMessage] throws on one message of the batch and the
    messages before it render, [peek_errors] and the preview of
    [republish_from_error] throw that error and show none of the
    messages. *)
Theorem unrenderable_message_fails_the_view `{Platform} config (s : Sys)
    (before after : list PeekedMessage) (msg : PeekedMessage) (e : string) :
  (exists lines, previewLines before 0 = Normal lines) ->
  formatFaultMessage msg (length before) = Throw e ->
  (forall queue count vhost,
      (post_messages (queuePath config queue vhost) (peekBody count) (world s)).1
      = Normal (before ++ msg :: after) ->
      (peek_errors config queue count vhost s).1 = Throw e)
  /\ (forall args,
        confirm args <> Some true ->
        (post_messages (readPath config args) (readBody args "ack_requeue_true")
           (world s)).1 = Normal (before ++ msg :: after) ->
        (republish_from_error config args s).1 = Throw e).
Proof.
  intros [lines Hb] Hm.
  assert (Hall : previewLines (before ++ msg :: after) 0 = Throw e)
    by (apply (previewLines_first_failure before 0 lines); assumption).
  assert (Hlen : (length (before ++ msg :: after) =? 0) = false)
    by (rewrite List.length_app; simpl; apply Nat.eqb_neq; lia).
  split.
  - intros queue count vhost Hr.
    rewrite (peek_errors_run config queue count vhost s). cbv zeta.
    unfold fst at 1. rewrite Hr, Hlen, Hall. reflexivity.
  - intros args Hc Hr.
    rewrite (republish_preview_run config args s Hc). cbv zeta.
    unfold fst at 1. rewrite Hr, Hlen, Hall. reflexivity.
Qed.

Lemma unrenderable_message_fails_the_view_witness :
  (@peek_errors modelPlatform rootConfig "orders_error" None None (startOn mixedBroker)).1
  = Throw "envelope.messageType.map is not a function"
  /\ (@republish_from_error modelPlatform rootConfig (ordersArgs (Some 3%Z) None)
        (startOn mixedBroker)).1
     = Throw "envelope.messageType.map is not a function".
Proof.
  destruct (@unrenderable_message_fails_the_view modelPlatform rootConfig
              (startOn mixedBroker) [withDestination] [withoutDestination] stringTyped
              "envelope.messageType.map is not a function") as [Hpeek Hpreview].
  - let r := eval vm_compute in (previewLines [withDestination] 0) in
    match r with Normal ?lines => exists lines end.
    vm_compute. reflexivity.
  - vm_compute. reflexivity.
  - split.
    + apply Hpeek. vm_compute. reflexivity.
    + apply Hpreview; [discriminate | vm_compute; reflexivity].
Defined.

Lemma peekMessageLines_not_array msg i parsed mt :
  JSON.parse (payload msg) = Some parsed ->
  get parsed "messageType" = Some mt ->
  truthy mt = true ->
  isArray mt = false ->
  peekMessageLines msg i = Throw "envelope.messageType.map is not a function".
Proof.
  intros Hp Hg Ht Ha.
  pose proof (parseEnvelope_of_typed _ _ _ Hp Hg Ht) as Henv.
  pose proof (mapTypeNames_not_array _ Ha) as Hmap.
  pose proof (get_opt_Some _ _ _ Hg) as Hgo.
  unfold peekMessageLines. rewrite Henv. cbv zeta.
  unfold messageTypesOf, MassTransitEnvelope in *. rewrite Hgo, Ht, Hmap. reflexivity.
Qed.

(** X13. [peek_messages] maps the type names of every envelope it shows:
    a message whose [messageType] is truthy and not an array makes the
    handler throw, after its read, and none of the batch is shown. *)
Theorem peek_messages_needs_array_types `{Platform} config queue count vhost (s : Sys)
    (before after : list PeekedMessage) (msg : PeekedMessage) (parsed mt : value) :
  (post_messages (queuePath config queue vhost) (peekBody count) (world s)).1
  = Normal (before ++ msg :: after) ->
  (exists lines, peekAllLines before 0 = Normal lines) ->
  JSON.parse (payload msg) = Some parsed ->
  get parsed "messageType" = Some mt ->
  truthy mt = true ->
  isArray mt = false ->
  peek_messages config queue count vhost s
  = (Throw "envelope.messageType.map is not a function",
     {| world := (post_messages (queuePath config queue vhost) (peekBody count) (world s)).2;
        trace := trace s ++ [PostGet (queuePath config queue vhost) (peekBody count)] |}).
Proof.
  intros Hr [lines Hb] Hp Hg Ht Ha.
  rewrite (peek_messages_run config queue count vhost s). cbv zeta. rewrite Hr.
  replace (length (before ++ msg :: after) =? 0) with false
    by (symmetry; rewrite List.length_app; simpl; apply Nat.eqb_neq; lia).
  rewrite (peekAllLines_first_failure before 0 lines msg after
             "envelope.messageType.map is not a function" Hb
             (peekMessageLines_not_array msg _ parsed mt Hp Hg Ht Ha)).
  reflexivity.
Qed.

Lemma peek_messages_needs_array_types_witness :
  (@peek_messages modelPlatform rootConfig "orders_error" None None (startOn mixedBroker)).1
  = Throw "envelope.messageType.map is not a function".
Proof.
  rewrite (@peek_messages_needs_array_types modelPlatform rootConfig "orders_error"
             None None (startOn mixedBroker) [withDestination] [withoutDestination]
             stringTyped
             (JObj [("messageType", JStr "urn:message:App:OrderPlaced")])
             (JStr "urn:message:App:OrderPlaced")).
  - reflexivity.
  - vm_compute. reflexivity.
  - let r := eval vm_compute in (peekAllLines [withDestination] 0) in
    match r with Normal ?lines => exists lines end.
    vm_compute. reflexivity.
  - vm_compute. reflexivity.
  - reflexivity.
  - reflexivity.
  - reflexivity.
Defined.

(** X14. Both peek handlers post one request whatever comes back: a read
    of the queue with ack mode [ack_requeue_true] and, unless the caller
    gives a count, a count of 5.  On the model broker such a run leaves
    the broker as it was. *)
Theorem peek_handlers_read_with_requeue :
  (forall `{Platform} config queue count vhost (s : Sys),
      let read := PostGet (queuePath config queue vhost)
                    {| body_count := default 5%Z count;
                       body_ackmode := "ack_requeue_true";
                       body_encoding := "auto";
                       body_truncate := 50000 |} in
      trace (peek_messages config queue count vhost s).2 = trace s ++ [read]
      /\ trace (peek_errors config queue count vhost s).2 = trace s ++ [read])
  /\ (forall config queue count vhost (b : Broker) tr,
        world (@peek_messages modelPlatform config queue count vhost
                 (@Build_Sys modelPlatform b tr)).2 = b
        /\ world (@peek_errors modelPlatform config queue count vhost
                    (@Build_Sys modelPlatform b tr)).2 = b).
Proof.
  split.
  - intros P config queue count vhost s read.
    rewrite (peek_messages_run config queue count vhost s).
    rewrite (peek_errors_run config queue count vhost s). split; reflexivity.
  - intros config queue count vhost b tr.
    rewrite (@peek_messages_run modelPlatform config queue count vhost).
    rewrite (@peek_errors_run modelPlatform config queue count vhost).
    simpl. unfold broker_get.
    destruct (queues b !! queuePath config queue vhost); split; reflexivity.
Qed.

(** ** [move_messages] *)

Lemma publishMessage_move_run `{Platform} config dst rk vh msg (s : Sys) :
  publishMessage config dst (default dst rk) (payload msg) (moveProperties msg) vh s
  = ((post_publish
        ("/exchanges/" +:+ encodeVhost config vh +:+ "/" +:+ encodeURIComponent dst
         +:+ "/publish")
        {| body_routing_key := default dst rk;
           body_payload := payload msg;
           body_payload_encoding := "string";
           body_properties :=
             {| publish_delivery_mode := 2;
                publish_content_type :=
                  Some (default "application/vnd.masstransit+json"
                          (content_type (properties msg)));
                publish_headers := headers (properties msg);
                publish_message_id := message_id (properties msg);
                publish_correlation_id := correlation_id (properties msg) |} |}
        (world s)).1,
     {| world := (post_publish
                    ("/exchanges/" +:+ encodeVhost config vh +:+ "/"
                     +:+ encodeURIComponent dst +:+ "/publish")
                    {| body_routing_key := default dst rk;
                       body_payload := payload msg;
                       body_payload_encoding := "string";
                       body_properties :=
                         {| publish_delivery_mode := 2;
                            publish_content_type :=
                              Some (default "application/vnd.masstransit+json"
                                      (content_type (properties msg)));
                            publish_headers := headers (properties msg);
                            publish_message_id := message_id (properties msg);
                            publish_correlation_id := correlation_id (properties msg) |} |}
                    (world s)).2;
        trace := trace s ++ [moveRequest config dst rk vh msg] |}).
Proof. unfold publishMessage. rewrite postPublish_run. reflexivity. Qed.

Lemma moveLoop_cons `{Platform} config dst rk vh msg rest moved (s : Sys) :
  moveLoop config dst rk vh (msg :: rest) moved s
  = match publishMessage config dst (default dst rk) (payload msg) (moveProperties msg) vh s
    with
    | (Normal _, s') => moveLoop config dst rk vh rest (moved + 1) s'
    | (Throw e, s') => (Throw e, s')
    end.
Proof. reflexivity. Qed.

(** The loop posts the publishes of a prefix of the batch: all of it when
    it returns, and up to the rejected publish when it throws. *)
Lemma moveLoop_prefix `{Platform} config dst rk vh messages : forall moved (s : Sys),
  exists k,
    k <= length messages
    /\ trace (moveLoop config dst rk vh messages moved s).2
       = trace s ++ map (moveRequest config dst rk vh) (firstn k messages)
    /\ match (moveLoop config dst rk vh messages moved s).1 with
       | Normal n => k = length messages /\ n = moved + length messages
       | Throw _ => 1 <= k
       end.
Proof.
  induction messages as [|msg rest IH]; intros moved s.
  - exists 0. simpl. rewrite app_nil_r. repeat split; lia.
  - rewrite moveLoop_cons, publishMessage_move_run.
    destruct (post_publish _ _ (world s)) as [[ok|e] w]; cbn [fst snd].
    + match goal with
      | |- context [moveLoop _ _ _ _ rest (moved + 1) ?s1] =>
          destruct (IH (moved + 1) s1) as (k & Hk & Htr & Hres)
      end.
      exists (S k). split; [simpl; lia|]. split.
      * rewrite Htr. simpl. now rewrite <- app_assoc.
      * destruct (moveLoop _ _ _ _ rest (moved + 1) _).1; simpl; lia.
    + exists 1. simpl. repeat split; lia.
Qed.

(** X15. [move_messages] has no [try] around its publish: after the
    destructive read of a non-empty batch it publishes the messages in
    order, each with its own payload, and either all of them are
    published and the text reports their number, or it throws and the
    publishes posted are those of a prefix of the batch, the last of
    which was rejected. *)
Theorem move_publishes_a_prefix `{Platform} config sourceQueue destinationExchange
    routingKey count vhost (s : Sys) (messages : list PeekedMessage) :
  (post_messages (queuePath config sourceQueue vhost) (consumeBody count) (world s)).1
  = Normal messages ->
  messages <> [] ->
  let out := move_messages config sourceQueue destinationExchange routingKey count vhost s in
  exists k,
    1 <= k <= length messages
    /\ trace out.2
       = trace s
         ++ PostGet (queuePath config sourceQueue vhost) (consumeBody count)
            :: map (moveRequest config destinationExchange routingKey vhost)
                 (firstn k messages)
    /\ ((k = length messages
         /\ out.1 = Normal (movedText (length messages) sourceQueue destinationExchange))
        \/ exists e, out.1 = Throw e).
Proof.
  intros Hr Hne out. subst out. unfold move_messages. cbv zeta.
  change (consumeMessages config sourceQueue (Some (default 1%Z count)) vhost)
    with (postGet (queuePath config sourceQueue vhost) (consumeBody count)).
  rewrite io_bind_run, postGet_run, Hr.
  destruct messages as [|m ms]; [congruence|].
  change (length (m :: ms) =? 0) with false. cbv iota.
  rewrite io_bind_run.
  match goal with
  | |- context [moveLoop _ _ _ _ (m :: ms) 0 ?s1] =>
      destruct (moveLoop_prefix config destinationExchange routingKey vhost (m :: ms) 0 s1)
        as (k & Hk & Htr & Hres);
      destruct (moveLoop config destinationExchange routingKey vhost (m :: ms) 0 s1)
        as [[n|e] s'] eqn:Hloop
  end; simpl in Htr, Hres.
  - destruct Hres as [-> ->]. exists (length (m :: ms)).
    split; [simpl; lia|]. split.
    + simpl in *. rewrite Htr, <- app_assoc. reflexivity.
    + left. split; reflexivity.
  - exists k. split; [lia|]. split.
    + simpl in *. rewrite Htr, <- app_assoc. reflexivity.
    + right. exists e. reflexivity.
Qed.

Lemma move_publishes_a_prefix_witness :
  exists k,
    1 <= k <= 2
    /\ trace (@move_messages modelPlatform rootConfig "orders_error" "orders-exchange" None
                (Some 2%Z) None (startOn ordersBroker)).2
       = PostGet ordersErrorPath (consumeBody (Some 2%Z))
         :: map (moveRequest rootConfig "orders-exchange" None None)
              (firstn k [withDestination; withoutDestination])
    /\ ((k = 2
         /\ (@move_messages modelPlatform rootConfig "orders_error" "orders-exchange" None
               (Some 2%Z) None (startOn ordersBroker)).1
            = Normal (movedText 2 "orders_error" "orders-exchange"))
        \/ exists e,
             (@move_messages modelPlatform rootConfig "orders_error" "orders-exchange" None
                (Some 2%Z) None (startOn ordersBroker)).1 = Throw e).
Proof.
  apply (@move_publishes_a_prefix modelPlatform rootConfig "orders_error" "orders-exchange"
           None (Some 2%Z) None (startOn ordersBroker) [withDestination; withoutDestination]).
  - vm_compute. reflexivity.
  - discriminate.
Defined.

(** X16. On the model broker, moving to an exchange that does not exist
    loses the first message and consumes the batch: the read removes the
    messages from the source queue, the first publish is answered with
    404, the handler throws that error, and nothing was published. *)
Theorem move_to_missing_exchange_loses_messages config sourceQueue destinationExchange
    routingKey count vhost (b : Broker) (tr : list Request) (msgs : list PeekedMessage) :
  let n := Z.to_nat (default 1%Z count) in
  let path := queuePath config sourceQueue vhost in
  let out := @move_messages modelPlatform config sourceQueue destinationExchange routingKey
               count vhost (@Build_Sys modelPlatform b tr) in
  queues b !! path = Some msgs ->
  firstn n msgs <> [] ->
  ("/exchanges/" +:+ encodeVhost config vhost +:+ "/"
   +:+ encodeURIComponent destinationExchange +:+ "/publish") ∉ exchanges b ->
  out.1 = Throw notFound
  /\ queues (world out.2) = <[path := skipn n msgs]> (queues b)
  /\ published (world out.2) = published b
  /\ exists first,
       head msgs = Some first
       /\ trace out.2
          = tr ++ [PostGet path (consumeBody count);
                   moveRequest config destinationExchange routingKey vhost first].
Proof.
  intros n path out Hq Hne Hex. subst out. unfold move_messages. cbv zeta.
  change (@consumeMessages modelPlatform config sourceQueue (Some (default 1%Z count)) vhost)
    with (@postGet modelPlatform path (consumeBody count)).
  rewrite io_bind_run, postGet_run.
  change (@post_messages modelPlatform) with broker_get.
  change (@world modelPlatform (@Build_Sys modelPlatform b tr)) with b.
  unfold broker_get. rewrite Hq.
  change (body_ackmode (consumeBody count)) with "ack_requeue_false".
  change (String.eqb "ack_requeue_false" "ack_requeue_true") with false.
  change (String.eqb "ack_requeue_false" "ack_requeue_false") with true.
  cbv iota. cbn [fst snd].
  change (Z.to_nat (body_count (consumeBody count))) with n.
  destruct (firstn n msgs) as [|first rest] eqn:Hfirst; [congruence|].
  change (length (first :: rest) =? 0) with false. cbv iota.
  rewrite io_bind_run, moveLoop_cons, publishMessage_move_run.
  change (@post_publish modelPlatform) with broker_publish.
  unfold broker_publish. cbn [world exchanges].
  destruct (decide _) as [Hin|_]; [contradiction|].
  cbn [fst snd world trace queues published].
  repeat split.
  exists first. split.
  - destruct msgs as [|m ms]; [now destruct n|].
    destruct n; [discriminate|]. simpl in Hfirst. now injection Hfirst as -> _.
  - now rewrite <- app_assoc.
Qed.

Lemma move_to_missing_exchange_loses_messages_witness :
  (@move_messages modelPlatform rootConfig "orders_error" "orders" None (Some 2%Z) None
     (startOn ordersBroker)).1 = Throw notFound
  /\ queues (world (@move_messages modelPlatform rootConfig "orders_error" "orders" None
                      (Some 2%Z) None (startOn ordersBroker)).2) !! ordersErrorPath
     = Some []
  /\ published (world (@move_messages modelPlatform rootConfig "orders_error" "orders" None
                         (Some 2%Z) None (startOn ordersBroker)).2) = [].
Proof.
  destruct (move_to_missing_exchange_loses_messages rootConfig "orders_error" "orders" None
              (Some 2%Z) None ordersBroker [] [withDestination; withoutDestination])
    as (Hthrow & Hqueues & Hpub & _).
  - vm_compute. reflexivity.
  - discriminate.
  - vm_compute. set_solver.
  - split; [exact Hthrow|]. split; [|exact Hpub].
    change (startOn ordersBroker) with (@Build_Sys modelPlatform ordersBroker []).
    rewrite Hqueues. apply lookup_insert_eq.
Defined.

(** ** The queue listings *)

Lemma insertByMessages_perm q sorted :
  Permutation (insertByMessages q sorted) (q :: sorted).
Proof.
  induction sorted as [|y ys IH]; simpl; [reflexivity|].
  destruct (messagesOrZero y <=? messagesOrZero q)%Z; [reflexivity|].
  rewrite IH. apply perm_swap.
Qed.

Lemma sortByMessages_perm queues : Permutation (sortByMessages queues) queues.
Proof.
  induction queues as [|q rest IH]; simpl; [reflexivity|].
  now rewrite insertByMessages_perm, IH.
Qed.

Lemma In_sortByMessages q queues : In q (sortByMessages queues) <-> In q queues.
Proof.
  split; apply Permutation_in; [|symmetry]; apply sortByMessages_perm.
Qed.

Lemma sortByMessages_nil queues : sortByMessages queues = [] <-> queues = [].
Proof.
  split; [|now intros ->].
  intros Hs. pose proof (sortByMessages_perm queues) as Hp. rewrite Hs in Hp.
  now apply Permutation_nil in Hp.
Qed.

Lemma insertByMessages_sorted q sorted :
  StronglySorted deeperFirst sorted ->
  StronglySorted deeperFirst (insertByMessages q sorted).
Proof.
  induction 1 as [|y ys Hs IH Hall]; simpl.
  - repeat constructor.
  - destruct (messagesOrZero y <=? messagesOrZero q)%Z eqn:Hle.
    + apply Z.leb_le in Hle. constructor; [now constructor|].
      constructor; [exact Hle|].
      eapply List.Forall_impl; [|exact Hall]. unfold deeperFirst. intros; lia.
    + apply Z.leb_gt in Hle. constructor; [exact IH|].
      eapply Permutation_Forall; [symmetry; apply insertByMessages_perm|].
      constructor; [unfold deeperFirst; lia | exact Hall].
Qed.

Lemma insertByMessages_stable m q sorted :
  List.filter (fun x => (messagesOrZero x =? m)%Z) (insertByMessages q sorted)
  = List.filter (fun x => (messagesOrZero x =? m)%Z) (q :: sorted).
Proof.
  induction sorted as [|y ys IH]; [reflexivity|].
  simpl insertByMessages.
  destruct (messagesOrZero y <=? messagesOrZero q)%Z eqn:Hle; [reflexivity|].
  apply Z.leb_gt in Hle. simpl in *. rewrite IH.
  destruct (messagesOrZero y =? m)%Z eqn:Hy, (messagesOrZero q =? m)%Z eqn:Hq;
    try reflexivity.
  apply Z.eqb_eq in Hy, Hq. lia.
Qed.

(** X17. The sort of the listings is a stable sort by depth, deepest
    first: its result holds the same queues, no queue comes before a
    deeper one, and queues of equal depth keep the order they had; a
    queue without statistics counts as depth 0. *)
Theorem sortByMessages_stable_descending (queues : list QueueInfo.t) :
  Permutation (sortByMessages queues) queues
  /\ StronglySorted deeperFirst (sortByMessages queues)
  /\ forall m,
       List.filter (fun q => (messagesOrZero q =? m)%Z) (sortByMessages queues)
       = List.filter (fun q => (messagesOrZero q =? m)%Z) queues.
Proof.
  split; [apply sortByMessages_perm|]. split.
  - induction queues as [|q rest IH]; simpl; [constructor|].
    now apply insertByMessages_sorted.
  - intros m. induction queues as [|q rest IH]; [reflexivity|].
    simpl sortByMessages. rewrite insertByMessages_stable. simpl. now rewrite IH.
Qed.

Lemma In_selectQueues isKind queues nonEmpty q :
  In q (selectQueues isKind queues nonEmpty)
  <-> In q queues
      /\ isKind (QueueInfo.name q) = true
      /\ (nonEmpty <> Some false -> messagesAbove q 0 = true).
Proof.
  unfold selectQueues. rewrite In_sortByMessages.
  destruct nonEmpty as [[|]|]; simpl; rewrite ?filter_In; intuition congruence.
Qed.

Lemma join_first_char (x : string) (rest : list string) (c : ascii) :
  String.get 0 x = Some c -> String.get 0 (join nl (x :: rest)) = Some c.
Proof.
  destruct x as [|c' x']; [discriminate|]. intros [= <-].
  destruct rest; reflexivity.
Qed.

Lemma listingText_empty isKind suffix queues nonEmpty :
  listingText isKind suffix queues nonEmpty
  = (if notFalse nonEmpty
     then "No " +:+ suffix +:+ " queues with messages found."
     else "No " +:+ suffix +:+ " queues found.")
  <-> selectQueues isKind queues nonEmpty = [].
Proof.
  unfold listingText. cbv zeta.
  destruct (selectQueues isKind queues nonEmpty) as [|q selected]; [tauto|].
  change (length (q :: selected) =? 0) with false. cbv iota.
  split; [|discriminate].
  intros Heq. apply (f_equal (String.get 0)) in Heq.
  rewrite (join_first_char _ _ "F"%char) in Heq by reflexivity.
  destruct (notFalse nonEmpty); discriminate Heq.
Qed.

(** X18. [list_error_queues] and [list_skipped_queues] list the queues
    named with their suffix, and only those with messages unless
    [nonEmpty] is [false], so that a queue without statistics is listed
    only then; no queue is in both listings; and the text is the
    [No ... found] sentence exactly when no queue qualifies. *)
Theorem listings_select_by_suffix (queues : list QueueInfo.t) (nonEmpty : option bool) :
  (forall q,
      In q (selectQueues isErrorQueue queues nonEmpty)
      <-> In q queues /\ isErrorQueue (QueueInfo.name q) = true
          /\ (nonEmpty <> Some false -> exists m, QueueInfo.messages q = Some m /\ (0 < m)%Z))
  /\ (forall q,
        In q (selectQueues isSkippedQueue queues nonEmpty)
        <-> In q queues /\ isSkippedQueue (QueueInfo.name q) = true
            /\ (nonEmpty <> Some false ->
                exists m, QueueInfo.messages q = Some m /\ (0 < m)%Z))
  /\ (forall q,
        In q (selectQueues isErrorQueue queues nonEmpty) ->
        ~ In q (selectQueues isSkippedQueue queues nonEmpty))
  /\ (list_error_queues queues nonEmpty
      = (if notFalse nonEmpty then "No _error queues with messages found."
         else "No _error queues found.")
      <-> forall q, ~ In q (selectQueues isErrorQueue queues nonEmpty))
  /\ (list_skipped_queues queues nonEmpty
      = (if notFalse nonEmpty then "No _skipped queues with messages found."
         else "No _skipped queues found.")
      <-> forall q, ~ In q (selectQueues isSkippedQueue queues nonEmpty)).
Proof.
  assert (Habove : forall q,
             messagesAbove q 0 = true
             <-> exists m, QueueInfo.messages q = Some m /\ (0 < m)%Z).
  { intros q. unfold messagesAbove. destruct (QueueInfo.messages q) as [m|].
    - rewrite Z.ltb_lt. split; [eauto|]. now intros (m' & [= <-] & Hm).
    - split; [discriminate|]. now intros (m' & Hm & _). }
  assert (Hnone : forall l : list QueueInfo.t, l = [] <-> forall q, ~ In q l).
  { intros [|x l]; split; try tauto; try discriminate.
    intros Hno. exfalso. apply (Hno x). now left. }
  split; [|split; [|split; [|split]]].
  - intros q. rewrite In_selectQueues, Habove. reflexivity.
  - intros q. rewrite In_selectQueues, Habove. reflexivity.
  - intros q He Hs. apply In_selectQueues in He as (_ & He & _).
    apply In_selectQueues in Hs as (_ & Hs & _).
    pose proof (error_and_skipped_exclusive_aux (QueueInfo.name q) Hs) as Hx.
    rewrite He in Hx. discriminate Hx.
  - rewrite <- Hnone. exact (listingText_empty isErrorQueue "_error" queues nonEmpty).
  - rewrite <- Hnone. exact (listingText_empty isSkippedQueue "_skipped" queues nonEmpty).
Qed.

Lemma listings_select_by_suffix_witness :
  In {| QueueInfo.name := "orders_error"; QueueInfo.messages := Some 7%Z;
        QueueInfo.consumers := 0%Z |}
     (selectQueues isErrorQueue
        [ {| QueueInfo.name := "audit_error"; QueueInfo.messages := None;
             QueueInfo.consumers := 0%Z |};
          {| QueueInfo.name := "orders_error"; QueueInfo.messages := Some 7%Z;
             QueueInfo.consumers := 0%Z |} ] None).
Proof.
  apply (proj1 (listings_select_by_suffix
                  [ {| QueueInfo.name := "audit_error"; QueueInfo.messages := None;
                       QueueInfo.consumers := 0%Z |};
                    {| QueueInfo.name := "orders_error"; QueueInfo.messages := Some 7%Z;
                       QueueInfo.consumers := 0%Z |} ] None)).
  split; [vm_compute; auto|]. split; [reflexivity|].
  intros _. exists 7%Z. split; [reflexivity | lia].
Defined.

(** ** [get_queue_health] *)

Lemma In_health_lists (threshold : Z) (queues : list QueueInfo.t) (q : QueueInfo.t) :
  (In q (noConsumersOf threshold queues)
   <-> In q queues
       /\ ((QueueInfo.consumers q =? 0)%Z && messagesAtLeast q threshold
           && negb (isErrorQueue (QueueInfo.name q))
           && negb (isSkippedQueue (QueueInfo.name q))) = true)
  /\ (In q (errorQueuesOf threshold queues)
      <-> In q queues
          /\ (isErrorQueue (QueueInfo.name q) && messagesAtLeast q threshold) = true)
  /\ (In q (skippedQueuesOf threshold queues)
      <-> In q queues
          /\ (isSkippedQueue (QueueInfo.name q) && messagesAtLeast q threshold) = true)
  /\ (In q (highDepthOf queues)
      <-> In q queues
          /\ (messagesAtLeast q 1000
              && negb (isErrorQueue (QueueInfo.name q))
              && negb (isSkippedQueue (QueueInfo.name q))) = true).
Proof.
  unfold noConsumersOf, errorQueuesOf, skippedQueuesOf, highDepthOf.
  rewrite !In_sortByMessages, !filter_In. tauto.
Qed.

Lemma health_issue_listed (threshold : Z) (queues : list QueueInfo.t) (q : QueueInfo.t) :
  In q queues /\ hasIssue threshold q = true
  <-> In q (noConsumersOf threshold queues) \/ In q (errorQueuesOf threshold queues)
      \/ In q (skippedQueuesOf threshold queues) \/ In q (highDepthOf queues).
Proof.
  destruct (In_health_lists threshold queues q) as (-> & -> & -> & ->).
  unfold hasIssue, isFailureQueue.
  destruct (QueueInfo.consumers q =? 0)%Z, (messagesAtLeast q threshold),
           (messagesAtLeast q 1000), (isErrorQueue (QueueInfo.name q)),
           (isSkippedQueue (QueueInfo.name q)); simpl; intuition discriminate.
Qed.

Lemma health_text_healthy (queues : list QueueInfo.t) (minMessages : option Z) :
  get_queue_health queues minMessages = healthyText
  <-> noConsumersOf (default 1%Z minMessages) queues = []
      /\ errorQueuesOf (default 1%Z minMessages) queues = []
      /\ skippedQueuesOf (default 1%Z minMessages) queues = []
      /\ highDepthOf queues = [].
Proof.
  unfold get_queue_health. cbv zeta.
  destruct (noConsumersOf (default 1%Z minMessages) queues) as [|a la],
           (errorQueuesOf (default 1%Z minMessages) queues) as [|b lb],
           (skippedQueuesOf (default 1%Z minMessages) queues) as [|c lc],
           (highDepthOf queues) as [|d ld];
    cbn [length Nat.eqb andb];
    (split; [intros Heq | intros (H1 & H2 & H3 & H4); try discriminate; reflexivity]);
    try (repeat split; reflexivity);
    exfalso; unfold healthSection in Heq; cbn [length Nat.ltb Nat.leb app] in Heq;
    apply (f_equal (String.get 0)) in Heq;
    erewrite join_first_char in Heq by reflexivity;
    discriminate Heq.
Qed.

(** X19. The four lists of [get_queue_health] hold exactly the queues
    with an issue.  A queue named as an error or skipped queue is never
    listed for missing consumers or for depth, and never in both of the
    error and skipped lists; any other queue that holds 1000 messages or
    more is listed for its depth, a depth of exactly 1000 included, and
    it is listed for its consumers as well exactly when it has none and
    holds at least the threshold. *)
Theorem health_lists_hold_the_issues (queues : list QueueInfo.t) (threshold : Z) :
  (forall q,
      In q queues /\ hasIssue threshold q = true
      <-> In q (noConsumersOf threshold queues) \/ In q (errorQueuesOf threshold queues)
          \/ In q (skippedQueuesOf threshold queues) \/ In q (highDepthOf queues))
  /\ (forall q,
        In q (noConsumersOf threshold queues) \/ In q (highDepthOf queues) ->
        isFailureQueue q = false)
  /\ (forall q,
        In q (errorQueuesOf threshold queues) ->
        isErrorQueue (QueueInfo.name q) = true
        /\ ~ In q (skippedQueuesOf threshold queues))
  /\ (forall q,
        In q (skippedQueuesOf threshold queues) -> isSkippedQueue (QueueInfo.name q) = true)
  /\ (forall q m,
        In q queues ->
        isFailureQueue q = false ->
        QueueInfo.messages q = Some m -> (1000 <= m)%Z ->
        In q (highDepthOf queues)
        /\ (In q (noConsumersOf threshold queues)
            <-> QueueInfo.consumers q = 0%Z /\ (threshold <= m)%Z)).
Proof.
  split; [|split; [|split; [|split]]].
  - intros q. apply health_issue_listed.
  - intros q. destruct (In_health_lists threshold queues q) as (-> & _ & _ & ->).
    unfold isFailureQueue.
    destruct (QueueInfo.consumers q =? 0)%Z, (messagesAtLeast q threshold),
             (messagesAtLeast q 1000), (isErrorQueue (QueueInfo.name q)),
             (isSkippedQueue (QueueInfo.name q)); simpl; intuition discriminate.
  - intros q. destruct (In_health_lists threshold queues q) as (_ & -> & -> & _).
    intros [_ He]. apply andb_prop in He as [He _]. split; [exact He|].
    intros [_ Hs]. apply andb_prop in Hs as [Hs _].
    pose proof (error_and_skipped_exclusive_aux _ Hs). congruence.
  - intros q. destruct (In_health_lists threshold queues q) as (_ & _ & -> & _).
    intros [_ Hs]. now apply andb_prop in Hs as [Hs _].
  - intros q m Hin Hnf Hm Hle.
    destruct (In_health_lists threshold queues q) as (-> & _ & _ & ->).
    unfold isFailureQueue in Hnf. apply orb_false_elim in Hnf as [He Hs].
    unfold messagesAtLeast. rewrite Hm, He, Hs.
    replace (1000 <=? m)%Z with true by (symmetry; now apply Z.leb_le).
    split; [now split|].
    rewrite !andb_true_r, andb_true_iff, Z.eqb_eq, Z.leb_le. tauto.
Qed.

Lemma health_lists_hold_the_issues_witness :
  In {| QueueInfo.name := "orders"; QueueInfo.messages := Some 1000%Z;
        QueueInfo.consumers := 0%Z |}
     (highDepthOf
        [ {| QueueInfo.name := "orders_error"; QueueInfo.messages := Some 7%Z;
             QueueInfo.consumers := 0%Z |};
          {| QueueInfo.name := "orders"; QueueInfo.messages := Some 1000%Z;
             QueueInfo.consumers := 0%Z |} ])
  /\ ~ In {| QueueInfo.name := "orders"; QueueInfo.messages := Some 1000%Z;
             QueueInfo.consumers := 0%Z |}
          (noConsumersOf 2000
             [ {| QueueInfo.name := "orders_error"; QueueInfo.messages := Some 7%Z;
                  QueueInfo.consumers := 0%Z |};
               {| QueueInfo.name := "orders"; QueueInfo.messages := Some 1000%Z;
                  QueueInfo.consumers := 0%Z |} ]).
Proof.
  destruct (proj2 (proj2 (proj2 (proj2
              (health_lists_hold_the_issues
                 [ {| QueueInfo.name := "orders_error"; QueueInfo.messages := Some 7%Z;
                      QueueInfo.consumers := 0%Z |};
                   {| QueueInfo.name := "orders"; QueueInfo.messages := Some 1000%Z;
                      QueueInfo.consumers := 0%Z |} ] 2000%Z))))
              {| QueueInfo.name := "orders"; QueueInfo.messages := Some 1000%Z;
                 QueueInfo.consumers := 0%Z |} 1000%Z) as [Hdepth Hcons].
  - vm_compute. auto.
  - reflexivity.
  - reflexivity.
  - lia.
  - split; [exact Hdepth|]. intros Hin. apply Hcons in Hin as [_ Hle]. lia.
Defined.

(** X20. [get_queue_health] answers that all queues look healthy exactly
    when no queue has an issue at the threshold, which is 1 unless
    [minMessages] is given; a queue without statistics never has an
    issue. *)
Theorem healthy_iff_no_issue (queues : list QueueInfo.t) (minMessages : option Z) :
  (get_queue_health queues minMessages = healthyText
   <-> forall q, In q queues -> hasIssue (default 1%Z minMessages) q = false)
  /\ (forall q threshold, QueueInfo.messages q = None -> hasIssue threshold q = false).
Proof.
  split.
  - rewrite health_text_healthy.
    pose proof (health_issue_listed (default 1%Z minMessages) queues) as Hcover.
    split.
    + intros (H1 & H2 & H3 & H4) q Hin.
      destruct (hasIssue (default 1%Z minMessages) q) eqn:Hq; [|reflexivity].
      destruct (proj1 (Hcover q) (conj Hin Hq)) as [Hl|[Hl|[Hl|Hl]]];
        [rewrite H1 in Hl | rewrite H2 in Hl | rewrite H3 in Hl | rewrite H4 in Hl];
        destruct Hl.
    + intros Hno.
      assert (Hempty : forall l : list QueueInfo.t,
                 (forall q, In q l -> In q queues
                                      /\ hasIssue (default 1%Z minMessages) q = true) ->
                 l = []).
      { intros [|x l] Hl; [reflexivity|].
        destruct (Hl x (or_introl eq_refl)) as [Hin Hx].
        rewrite (Hno x Hin) in Hx. discriminate Hx. }
      repeat split; apply Hempty; intros q Hq; apply Hcover; tauto.
  - intros q threshold Hm. unfold hasIssue, messagesAtLeast. rewrite Hm.
    now rewrite !andb_false_r.
Qed.

Lemma healthy_iff_no_issue_witness :
  get_queue_health
    [ {| QueueInfo.name := "audit_skipped"; QueueInfo.messages := None;
         QueueInfo.consumers := 0%Z |};
      {| QueueInfo.name := "orders"; QueueInfo.messages := Some 0%Z;
         QueueInfo.consumers := 0%Z |} ] None
  = healthyText.
Proof.
  apply (proj1 (healthy_iff_no_issue _ None)).
  intros q [<-|[<-|[]]]; reflexivity.
Defined.

(** ** Preview, then commit *)

Lemma firstn_length_firstn {A} (n : nat) (l : list A) :
  firstn (length (firstn n l)) l = firstn n l
  /\ skipn (length (firstn n l)) l = skipn n l.
Proof.
  rewrite length_firstn. destruct (Nat.le_gt_cases n (length l)) as [Hle|Hgt].
  - now rewrite Nat.min_l by exact Hle.
  - rewrite Nat.min_r by lia.
    rewrite firstn_all, skipn_all, firstn_all2, skipn_all2 by lia. split; reflexivity.
Qed.

(** X21. On the model broker, the commit that follows the instruction of
    a preview takes the messages that were previewed: called with
    [confirm = true] and the count the preview names, it consumes the
    previewed batch, posts a publish for each of its messages whose
    destination resolves, and leaves in the queue what the preview did
    not show. *)
Theorem commit_after_preview_takes_the_previewed config args (b : Broker)
    (tr : list Request) (msgs : list PeekedMessage) :
  let n := Z.to_nat (default 1%Z (count args)) in
  let previewed := firstn n msgs in
  let again := {| errorQueue := errorQueue args;
                  count := Some (Z.of_nat (length previewed));
                  confirm := Some true;
                  vhost := vhost args |} in
  let s1 := (@republish_from_error modelPlatform config args
               (@Build_Sys modelPlatform b tr)).2 in
  let out := @republish_from_error modelPlatform config again s1 in
  confirm args <> Some true ->
  queues b !! readPath config args = Some msgs ->
  previewed <> [] ->
  trace out.2
  = tr ++ PostGet (readPath config args) (readBody args "ack_requeue_true")
       :: PostGet (readPath config args) (readBody again "ack_requeue_false")
       :: omap (@republishRequest modelPlatform config (errorQueue args) (vhost args))
            previewed
  /\ queues (world out.2) !! readPath config args = Some (skipn n msgs).
Proof.
  intros n previewed again s1 out Hc Hq Hne.
  assert (Hs1 : s1 = @Build_Sys modelPlatform b
                       (tr ++ [PostGet (readPath config args)
                                 (readBody args "ack_requeue_true")])).
  { subst s1. rewrite (republish_preview_run config args _ Hc). cbv zeta. cbn [snd].
    change (@post_messages modelPlatform) with broker_get.
    change (@world modelPlatform (@Build_Sys modelPlatform b tr)) with b.
    unfold broker_get. rewrite Hq. reflexivity. }
  destruct (firstn_length_firstn n msgs) as [Hfirst Hskip]. fold previewed in Hfirst, Hskip.
  assert (Hread : @post_messages modelPlatform (readPath config again)
                    (readBody again "ack_requeue_false") (world s1)
                  = (Normal previewed,
                     {| queues := <[readPath config args := skipn n msgs]> (queues b);
                        exchanges := exchanges b;
                        published := published b |})).
  { rewrite Hs1. change (@post_messages modelPlatform) with broker_get.
    change (readPath config again) with (readPath config args).
    unfold broker_get. cbn [world]. rewrite Hq.
    change (body_ackmode (readBody again "ack_requeue_false")) with "ack_requeue_false".
    change (String.eqb "ack_requeue_false" "ack_requeue_true") with false.
    change (String.eqb "ack_requeue_false" "ack_requeue_false") with true.
    cbv iota.
    change (body_count (readBody again "ack_requeue_false"))
      with (Z.of_nat (length previewed)).
    rewrite Nat2Z.id, Hfirst, Hskip. reflexivity. }
  subst out. rewrite (republish_commit_read config again s1 eq_refl). cbv zeta.
  rewrite Hread. cbn [fst snd].
  destruct previewed as [|p ps] eqn:Hp; [congruence|].
  change (length (p :: ps) =? 0) with false. cbv iota. cbn [snd].
  change (errorQueue again) with (errorQueue args).
  change (vhost again) with (vhost args).
  split.
  - rewrite republishLoop_requests. cbn [trace]. rewrite Hs1. cbn [trace].
    rewrite <- !app_assoc. reflexivity.
  - rewrite model_loop_keeps_queues. cbn [world queues]. apply lookup_insert_eq.
Qed.

Lemma commit_after_preview_takes_the_previewed_witness :
  queues (world (@republish_from_error modelPlatform rootConfig
                   (ordersArgs (Some 1%Z) (Some true))
                   (@republish_from_error modelPlatform rootConfig
                      (ordersArgs (Some 1%Z) None) (startOn ordersBroker)).2).2)
    !! ordersErrorPath
  = Some [withoutDestination].
Proof.
  apply (proj2 (commit_after_preview_takes_the_previewed rootConfig
                  (ordersArgs (Some 1%Z) None) ordersBroker []
                  [withDestination; withoutDestination]
                  ltac:(discriminate) ltac:(vm_compute; reflexivity) ltac:(discriminate))).
Defined.

(** ** The two revisions of [masstransit.ts] *)

Lemma stackTraceBlock_short (o : option value) (lines : list string) :
  (forall s, o = Some (JStr s) -> length (split "010" s) <= 5) ->
  pushTruthy o (stackTraceBlock 8) lines = pushTruthy o (stackTraceBlock 5) lines.
Proof.
  intros Hshort. destruct o as [v|]; [|reflexivity].
  destruct v; try reflexivity.
  unfold pushTruthy, stackTraceBlock, stackTraceText, stackLines.
  rewrite !firstn_all2 by (specialize (Hshort _ eq_refl); lia). reflexivity.
Qed.

(** X22. The revision that reads the fault headers changes the text of a
    message only where it must: for a message without a header fault
    whose stack trace, if it has one, has at most 5 lines, both
    revisions of [formatFaultMessage] return the same text or throw the
    same error. *)
Theorem revisions_agree_without_header_fault (msg : PeekedMessage) (index : nat) :
  parseFaultFromHeaders (default ∅ (headers (properties msg))) = None ->
  (forall bf s,
      parseFault (payload msg) = Some bf ->
      get_opt (firstException (exceptions bf)) "stackTrace" = Some (JStr s) ->
      length (split "010" s) <= 5) ->
  formatFaultMessage msg index = BodyOnly.formatFaultMessage msg index.
Proof.
  intros Hh Hshort. unfold formatFaultMessage, BodyOnly.formatFaultMessage. cbv zeta.
  rewrite Hh. unfold renderFirst.
  destruct (parseFault (payload msg)) as [bf|]; [|reflexivity].
  unfold formatBodyFault. cbv zeta.
  destruct (messageTypesOf _) as [mts|]; [|reflexivity]. rewrite !bind_Normal.
  destruct (hostSummary _) as [hostInfo|]; [|reflexivity]. rewrite !bind_Normal.
  destruct (orDefault (timestamp bf) _) as [faulted|]; [|reflexivity]. rewrite !bind_Normal.
  destruct (orDefault (faultedMessageId bf) _) as [original|]; [|reflexivity].
  rewrite !bind_Normal.
  destruct (orDefault (get_opt _ "exceptionType") _) as [t|]; [|reflexivity].
  rewrite !bind_Normal.
  destruct (orDefault (get_opt _ "message") _) as [m|]; [|reflexivity].
  rewrite !bind_Normal.
  rewrite (stackTraceBlock_short _ _ (fun s => Hshort bf s eq_refl)). reflexivity.
Qed.

Lemma revisions_agree_without_header_fault_witness :
  formatFaultMessage bodyFaulted 0 = BodyOnly.formatFaultMessage bodyFaulted 0.
Proof.
  apply (revisions_agree_without_header_fault bodyFaulted 0).
  - vm_compute. reflexivity.
  - intros bf s Hbf Hs. vm_compute in Hbf. injection Hbf as <-.
    vm_compute in Hs. injection Hs as <-. vm_compute. lia.
Defined.

(** ** What a republish sends *)

Lemma resolveDestination_same `{Platform} errorQueue envelope dest :
  resolveDestination errorQueue envelope = Normal dest -> dest.1 = dest.2.
Proof.
  unfold resolveDestination.
  destruct (get_opt envelope "destinationAddress") as [d|].
  - destruct (truthy d).
    + destruct (toJSString d) as [text|]; [|discriminate]. rewrite bind_Normal.
      destruct (URL_pathname text); [|discriminate]. now intros [= <-].
    + now intros [= <-].
  - now intros [= <-].
Qed.

Lemma republishRequest_shape `{Platform} config errorQueue vh msg r :
  republishRequest config errorQueue vh msg = Some r ->
  exists body,
    r = PostPublish ("/exchanges/" +:+ encodeVhost config vh +:+ "/"
                     +:+ encodeURIComponent (body_routing_key body) +:+ "/publish") body
    /\ publish_correlation_id (body_properties body) = None
    /\ publish_delivery_mode (body_properties body) = 2%Z
    /\ body_payload_encoding body = "string"
    /\ exists content, publish_content_type (body_properties body) = Some content.
Proof.
  unfold republishRequest.
  destruct (resolveDestination errorQueue (parseEnvelope (payload msg))) as [dest|] eqn:Hd;
    [|discriminate].
  apply resolveDestination_same in Hd. intros [= <-].
  match goal with |- context [PostPublish _ ?b = _] => exists b end.
  cbn [body_routing_key body_properties publish_correlation_id publish_delivery_mode
       body_payload_encoding publish_content_type].
  rewrite Hd. repeat split. eexists. reflexivity.
Qed.

(** X23. Every publish that [republish_from_error] posts goes to the
    exchange named by its routing key, under the vhost in force, as a
    persistent message with a string payload and a content type, and
    without a correlation id, whatever the consumed message carried;
    a run without [confirm = true] posts no publish at all. *)
Theorem republish_publishes_to_its_routing_key `{Platform} config args (s : Sys)
    (path : string) (body : PublishBody) :
  trace s = [] ->
  In (PostPublish path body) (trace (republish_from_error config args s).2) ->
  confirm args = Some true
  /\ path = "/exchanges/" +:+ encodeVhost config (vhost args) +:+ "/"
            +:+ encodeURIComponent (body_routing_key body) +:+ "/publish"
  /\ publish_correlation_id (body_properties body) = None
  /\ publish_delivery_mode (body_properties body) = 2%Z
  /\ body_payload_encoding body = "string"
  /\ exists content, publish_content_type (body_properties body) = Some content.
Proof.
  intros Hs Hin.
  destruct (decide (confirm args = Some true)) as [Hc|Hc].
  - split; [exact Hc|].
    rewrite (republish_commit_read config args s Hc) in Hin. cbv zeta in Hin.
    destruct (post_messages _ _ (world s)) as [[messages|e] w]; cbn [fst snd] in Hin.
    + destruct (length messages =? 0).
      * cbn [snd trace] in Hin. rewrite Hs in Hin. destruct Hin as [Hin|[]]. discriminate Hin.
      * cbn [snd] in Hin. rewrite republishLoop_requests in Hin. cbn [trace] in Hin.
        rewrite Hs in Hin. destruct Hin as [Hin|Hin]; [discriminate Hin|].
        apply list_elem_of_In, list_elem_of_omap in Hin as (msg & _ & Hreq).
        destruct (republishRequest_shape _ _ _ _ _ Hreq) as (body' & Heq & Hrest).
        injection Heq as -> ->. split; [reflexivity | exact Hrest].
    + cbn [snd trace] in Hin. rewrite Hs in Hin. destruct Hin as [Hin|[]]. discriminate Hin.
  - exfalso. rewrite (republish_preview_run config args s Hc) in Hin.
    cbn [snd trace] in Hin. rewrite Hs in Hin. destruct Hin as [Hin|[]]. discriminate Hin.
Qed.

Lemma republish_publishes_to_its_routing_key_witness :
  exists body,
    In (PostPublish "/exchanges/%2F/orders-exchange/publish" body)
       (trace (@republish_from_error modelPlatform rootConfig
                 (ordersArgs (Some 2%Z) (Some true)) (startOn ordersBroker)).2)
    /\ body_routing_key body = "orders-exchange"
    /\ publish_correlation_id (body_properties body) = None.
Proof.
  let r := eval vm_compute in
    (nth_error (trace (@republish_from_error modelPlatform rootConfig
                         (ordersArgs (Some 2%Z) (Some true)) (startOn ordersBroker)).2) 1) in
  match r with Some (PostPublish _ ?body) => exists body end.
  assert (Hin : In (PostPublish "/exchanges/%2F/orders-exchange/publish" _)
                   (trace (@republish_from_error modelPlatform rootConfig
                             (ordersArgs (Some 2%Z) (Some true)) (startOn ordersBroker)).2))
    by (vm_compute; right; left; reflexivity).
  split; [exact Hin|]. split; [reflexivity|].
  exact (proj1 (proj2 (proj2
           (@republish_publishes_to_its_routing_key modelPlatform rootConfig
              (ordersArgs (Some 2%Z) (Some true)) (startOn ordersBroker) _ _
              eq_refl Hin)))).
Defined.
